(** * ANT (Attention Network Test): a shallow embedding of [ant.py]

    The experiment class [ANTExp] of [src/ant.py] is embedded here function
    by function.  Clock values and durations are exact rationals ([Q]); the
    window, the clock, the keyboard and the random generator (PsychoPy and the
    Python standard library) are an explicit [World] threaded through a small
    state-and-exception monad. *)

From Stdlib Require Import QArith Qround Lqa Lia ZArith.
From stdpp Require Import base list strings gmap.

Open Scope Q_scope.
Set Warnings "-register-all".

(** ** Python exceptions and results *)

Inductive exn :=
| UnboundLocalError (var : string)
| KeyError (key : string)
| IndexError
| ValueError (msg : string)
| ZeroDivisionError.

Inductive result (A : Type) :=
| Ret (a : A)
| Raise (e : exn).
Arguments Ret {A} a.
Arguments Raise {A} e.

#[global] Instance result_ret : MRet result := λ A a, Ret a.
#[global] Instance result_bind : MBind result := λ A B f m,
  match m with
  | Ret a => f a
  | Raise e => Raise e
  end.

(** ** Stimuli (the Geometry Engine) *)

Definition Point := (Q * Q)%type.

(** [visual.ShapeStim(win, pos=, lineColor=, fillColor=, lineWidth=,
    units='deg', vertices=)] and [visual.BufferImageStim(win, stim=)].
    An argument the source leaves out is [None] (the library default);
    the default [pos] is [(0, 0)]. *)
Inductive Stim :=
| ShapeStim (pos : Point) (lineColor fillColor : option string)
            (lineWidth : option Q) (vertices : list Point)
| BufferImageStim (stim : list Stim).

Record Condition := Bunch_condition {
  cue : string;
  tloc : string;
  tdir : string;
  flank : string
}.

(** The attribute-less [Bunch()] that fills [procedures] before the
    enumeration overwrites every slot. *)
Definition Bunch0 : Condition :=
  Bunch_condition EmptyString EmptyString EmptyString EmptyString.

Record ANTExp := mkANTExp {
  mon : Q → Q;                (* the monitor, through [deg2pix(·, mon)] *)
  winsize : Z * Z;
  refreshRate : Q;
  frameTime : Q;
  startTime : Q;
  logfile : bool;             (* whether a log file was given *)
  runDummy : bool;
  original : bool;
  tD1min : Z;
  tD1max : Z;
  tCue : Z;
  tNoCue : Z;
  tOut : Z;
  tDummy : Z;
  tExp : Z;
  arrowSize : Q;
  arrowSep : Q;
  cueSize : Q;
  allWidthDeg : Q;
  allWidthPix : Q;
  targetDist : Q;
  procedures : list Condition;
  visFix : Stim;
  visCue : Stim;
  visTarget : gmap string Stim
}.

Definition set_procedures (self : ANTExp) (v : list Condition) : ANTExp :=
  mkANTExp (mon self) (winsize self) (refreshRate self) (frameTime self)
    (startTime self) (logfile self) (runDummy self) (original self)
    (tD1min self) (tD1max self) (tCue self) (tNoCue self) (tOut self)
    (tDummy self) (tExp self) (arrowSize self) (arrowSep self) (cueSize self)
    (allWidthDeg self) (allWidthPix self) (targetDist self)
    v (visFix self) (visCue self) (visTarget self).

Definition set_visFix (self : ANTExp) (v : Stim) : ANTExp :=
  mkANTExp (mon self) (winsize self) (refreshRate self) (frameTime self)
    (startTime self) (logfile self) (runDummy self) (original self)
    (tD1min self) (tD1max self) (tCue self) (tNoCue self) (tOut self)
    (tDummy self) (tExp self) (arrowSize self) (arrowSep self) (cueSize self)
    (allWidthDeg self) (allWidthPix self) (targetDist self)
    (procedures self) v (visCue self) (visTarget self).

Definition set_visCue (self : ANTExp) (v : Stim) : ANTExp :=
  mkANTExp (mon self) (winsize self) (refreshRate self) (frameTime self)
    (startTime self) (logfile self) (runDummy self) (original self)
    (tD1min self) (tD1max self) (tCue self) (tNoCue self) (tOut self)
    (tDummy self) (tExp self) (arrowSize self) (arrowSep self) (cueSize self)
    (allWidthDeg self) (allWidthPix self) (targetDist self)
    (procedures self) (visFix self) v (visTarget self).

Definition set_visTarget (self : ANTExp) (v : gmap string Stim) : ANTExp :=
  mkANTExp (mon self) (winsize self) (refreshRate self) (frameTime self)
    (startTime self) (logfile self) (runDummy self) (original self)
    (tD1min self) (tD1max self) (tCue self) (tNoCue self) (tOut self)
    (tDummy self) (tExp self) (arrowSize self) (arrowSep self) (cueSize self)
    (allWidthDeg self) (allWidthPix self) (targetDist self)
    (procedures self) (visFix self) (visCue self) v.

(** [_fixStim]: the fixation cross. *)
Definition _fixStim (self : ANTExp) : Stim :=
  let a := cueSize self / 2 in
  let vertices :=
    [(0, 0); (0, a); (0, -a); (0, 0); (-a, 0); (a, 0); (0, 0)] in
  ShapeStim (0, 0) (Some "black") None (Some (allWidthPix self)) vertices.

(** [_cueStim]: the asterisk cue. *)
Definition _cueStim (self : ANTExp) : Stim :=
  let a := cueSize self / 2 in
  let c1 := a * 0.9511 in
  let s1 := a * 0.3090 in
  let c2 := a * 0.5878 in
  let s2 := a * 0.8090 in
  let vertices :=
    [(0, 0); (0, a); (0, 0); (c1, s1); (0, 0); (c2, -s2); (0, 0);
     (-c2, -s2); (0, 0); (-c1, s1); (0, 0)] in
  ShapeStim (0, 0) (Some "black") None (Some (allWidthPix self)) vertices.

(** [_drawLine]: a horizontal bar, shortened on the side of the head when
    [short]; [tdir] is [None] where the source passes [None]. *)
Definition _drawLine (pos : Point) (sz pw : Q) (short : bool)
    (tdir : option string) : Stim :=
  let a := sz / 2 in
  let vertices :=
    if short && bool_decide (tdir = Some "left") then
      [(a, pw); (-a / 3, pw); (-a / 3, -pw); (a, -pw)]
    else if short && bool_decide (tdir = Some "right") then
      [(-a, pw); (a / 3, pw); (a / 3, -pw); (-a, -pw)]
    else
      [(-a, pw); (a, pw); (a, -pw); (-a, -pw)] in
  ShapeStim pos None (Some "black") None vertices.

(** [_drawHead]: the triangular head; with a [tdir] that is neither
    ['left'] nor ['right'] the local [vertices] is never bound. *)
Definition _drawHead (pos : Point) (sz pw : Q) (tdir : string) : result Stim :=
  let a := sz / 2 in
  if bool_decide (tdir = "left") then
    Ret (ShapeStim pos None (Some "black") None
           [(-a / 3, a / 3); (-a, 0); (-a / 3, -a / 3)])
  else if bool_decide (tdir = "right") then
    Ret (ShapeStim pos None (Some "black") None
           [(a / 3, a / 3); (a, 0); (a / 3, -a / 3)])
  else Raise (UnboundLocalError "vertices").

(** [_targetStim]: the five-position composite. *)
Definition _targetStim (self : ANTExp) (tloc tdir flank : string)
    : result Stim :=
  let sz := arrowSize self in
  let pw := allWidthDeg self in
  let p := arrowSize self + arrowSep self in
  let y := if bool_decide (tloc = "top") then targetDist self
           else - targetDist self in
  '(lines, heads) ←
    (if runDummy self then
       let lines := (λ x, _drawLine (x, y) sz pw false None)
                      <$> [-2 * p; -p; 0; p; 2 * p] in
       Ret (lines, [])
     else if bool_decide (flank = "neutral") then
       let lines := (λ x, _drawLine (x, y) sz pw false None)
                      <$> [-2 * p; -p; p; 2 * p] in
       let lines := lines ++ [_drawLine (0, y) sz pw true (Some tdir)] in
       h ← _drawHead (0, y) sz pw tdir;
       Ret (lines, [h])
     else if bool_decide (flank = "congruent") then
       let lines := (λ x, _drawLine (x, y) sz pw true (Some tdir))
                      <$> [-2 * p; -p; 0; p; 2 * p] in
       heads ← mapM (λ x, _drawHead (x, y) sz pw tdir)
                    [-2 * p; -p; 0; p; 2 * p];
       Ret (lines, heads)
     else if bool_decide (flank = "incongruent") then
       let rdir := if bool_decide (tdir = "right") then "left" else "right" in
       let lines := (λ x, _drawLine (x, y) sz pw true (Some rdir))
                      <$> [-2 * p; -p; p; 2 * p] in
       heads ← mapM (λ x, _drawHead (x, y) sz pw rdir)
                    [-2 * p; -p; p; 2 * p];
       let lines := lines ++ [_drawLine (0, y) sz pw true (Some tdir)] in
       h ← _drawHead (0, y) sz pw tdir;
       let heads := heads ++ [h] in
       Ret (lines, heads)
     else Raise (UnboundLocalError "lines"));
  Ret (BufferImageStim (lines ++ heads)).

(** ** Trial records and the log *)

(** The [Bunch] that [_oneProcedure] returns.  [resp] is a Python value:
    [None], or one of the strings ['OK'], ['NOK']. *)
Record TrialResult := Bunch {
  condition : Condition;
  wt : Q;
  t0 : Q;
  d1 : Q;
  ct : Q;
  d2 : Q;
  rt : Q;
  tf : Q;
  resp : option string
}.

(** What the program prints (or writes to its log file, or to stderr);
    the fields are kept, the [%]-formatting is not. *)
Inductive Line :=
| Header
| GotKey (key : string) (stamp : Q) (expecting : string)
| TIMEOUT
| ResultLine (res : TrialResult)
| UnknownCue (c : string)
| UnknownFlank (f : string).

(** The calls the program makes on its collaborators, in order.  [Flip t]
    is a [win.flip()] that returned at clock time [t]; [GetTime t] is a
    [clock.getTime()] that returned [t]. *)
Inductive Event :=
| Draw (s : Stim)
| Flip (t : Q)
| GetTime (t : Q)
| Wait (secs hogCPUperiod : Q)
| ClearEvents
| WaitKeys (maxWait : Q)
| Stdout (l : Line)
| LogWrite (l : Line)
| Stderr (l : Line).

(** ** The collaborators: clock, display, keyboard, random generator

    One clock ([now]); a display whose vertical retraces fall on the
    multiples of [vsync]; a keyboard script with one entry per response
    window (the first key pressed and its delay after the window opens, if
    any); a random generator given by the sequence of its 53-bit outputs.
    Computation itself takes no clock time: the clock advances only inside
    [core.wait], [win.flip] and [event.waitKeys]. *)
Record World := mkWorld {
  now : Q;
  vsync : Q;
  draws : nat → N;
  drawn : nat;
  keyboard : list (option (string * Q));
  trace : list Event
}.

Definition M (A : Type) : Type := World → result A * World.

#[global] Instance M_ret : MRet M := λ A a w, (Ret a, w).
#[global] Instance M_bind : MBind M := λ A B f m w,
  match m w with
  | (Ret a, w') => f a w'
  | (Raise e, w') => (Raise e, w')
  end.

Definition raise {A} (e : exn) : M A := λ w, (Raise e, w).

Definition emit (e : Event) : M unit := λ w,
  (Ret (), mkWorld (now w) (vsync w) (draws w) (drawn w) (keyboard w)
                   (trace w ++ [e])).

(** [clock.getTime()] *)
Definition clock_getTime : M Q := λ w,
  (Ret (now w), mkWorld (now w) (vsync w) (draws w) (drawn w) (keyboard w)
                        (trace w ++ [GetTime (now w)])).

(** The clock after a wait of [secs] seconds: a wait that is not positive
    returns at once. *)
Definition after (secs t : Q) : Q :=
  if Qle_bool secs 0 then t else t + secs.

(** [core.wait(secs, hogCPUperiod)] *)
Definition core_wait (secs hogCPUperiod : Q) : M unit := λ w,
  (Ret (), mkWorld (after secs (now w)) (vsync w) (draws w) (drawn w)
                   (keyboard w) (trace w ++ [Wait secs hogCPUperiod])).

(** The first retrace strictly after [t]; a display without blanking
    ([period <= 0]) does not block. *)
Definition next_retrace (period t : Q) : Q :=
  if Qle_bool period 0 then t
  else inject_Z (Qfloor (t / period) + 1) * period.

(** [win.flip()] *)
Definition win_flip : M unit := λ w,
  let t := next_retrace (vsync w) (now w) in
  (Ret (), mkWorld t (vsync w) (draws w) (drawn w) (keyboard w)
                   (trace w ++ [Flip t])).

(** [stim.draw()] *)
Definition draw (s : Stim) : M unit := emit (Draw s).

(** [event.clearEvents(eventType='keyboard')] *)
Definition event_clearEvents : M unit := emit ClearEvents.

(** The key that a response window of [maxWait] seconds meets, with its
    delay after the window opened: the next entry of the script, if it falls
    inside the window. *)
Definition first_key (maxWait : Q) (script : list (option (string * Q)))
    : option (string * Q) :=
  match script with
  | Some (k, dt) :: _ =>
      if Qle_bool 0 dt && negb (Qle_bool maxWait dt) then Some (k, dt)
      else None
  | _ => None
  end.

(** [event.waitKeys(maxWait=, timeStamped=clock)]: [None] on a timeout,
    else the first key with its time stamp (the source reads [keys[0]]
    only). *)
Definition event_waitKeys (maxWait : Q) : M (option (string * Q)) := λ w,
  let tr := trace w ++ [WaitKeys maxWait] in
  match first_key maxWait (keyboard w) with
  | Some (k, dt) =>
      (Ret (Some (k, now w + dt)),
       mkWorld (now w + dt) (vsync w) (draws w) (drawn w)
               (tail (keyboard w)) tr)
  | None =>
      (Ret None,
       mkWorld (after maxWait (now w)) (vsync w) (draws w) (drawn w)
               (tail (keyboard w)) tr)
  end.

(** A 53-bit output of the generator as a float in [[0, 1)]. *)
Definition uniform (x : N) : Q :=
  inject_Z (Z.of_N x mod 2 ^ 53) / inject_Z (2 ^ 53).

(** [random.random()]: the next 53-bit output over [2^53]. *)
Definition random_random : M Q := λ w,
  (Ret (uniform (draws w (drawn w))),
   mkWorld (now w) (vsync w) (draws w) (S (drawn w)) (keyboard w) (trace w)).

(** Python's [int(x)] on a float: truncation towards zero. *)
Definition _int (x : Q) : Z :=
  if Qle_bool 0 x then Qfloor x else Qceiling x.

(** [random.randrange(start, stop, step)] of Python 2.7 (the source runs
    on Python 2: [xrange]), for ranges of fewer than [2^53] values. *)
Definition random_randrange (start stop step : Z) : M Z :=
  let width := (stop - start)%Z in
  if (step =? 1)%Z then
    if (0 <? width)%Z then
      u ← random_random;
      mret (start + _int (u * inject_Z width))%Z
    else raise (ValueError "empty range for randrange()")
  else if (step =? 0)%Z then raise (ValueError "zero step for randrange()")
  else
    let n := if (0 <? step)%Z then ((width + step - 1) / step)%Z
             else ((width + step + 1) / step)%Z in
    if (n <=? 0)%Z then raise (ValueError "empty range for randrange()")
    else
      u ← random_random;
      mret (start + step * _int (u * inject_Z n))%Z.

(** [random.sample(population, k)] of Python 2.7, pool branch (taken
    whenever [n <= 21 + 4 ** ceil(log(3 * k, 4))], so always when [k = n] as
    in the source):
<<
    pool = list(population)
    for i in xrange(k):
        j = _int(random() * (n-i))
        result[i] = pool[j]
        pool[j] = pool[n-i-1]
>>
    [result] starts as [[None] * k] and slot [i] is written at step [i]:
    the list of the slots written so far is kept instead. *)
Fixpoint sample_pool {A} (n : nat) (k i : nat) (pool result : list A)
    : M (list A) :=
  match k with
  | O => mret result
  | S k' =>
      u ← random_random;
      let j := Z.to_nat (_int (u * inject_Z (Z.of_nat (n - i)))) in
      match pool !! j, pool !! (n - i - 1)%nat with
      | Some x, Some y =>
          sample_pool n k' (S i) (<[j := y]> pool) (result ++ [x])
      | _, _ => raise IndexError
      end
  end.

Definition random_sample {A} (population : list A) (k : nat) : M (list A) :=
  let n := length population in
  if bool_decide (k ≤ n)%nat then sample_pool n k 0 population []
  else raise (ValueError "sample larger than population").

(** ** The experiment class *)

(** The nested loops of [__init__] that fill [procedures]:
    [self.procedures[i] = Bunch(...); i += 1]. *)
Definition enumerate_procedures (procs : list Condition) : list Condition :=
  fst (foldl (λ st cue,
         foldl (λ st tloc,
           foldl (λ st tdir,
             foldl (λ '(procs, i) flank,
                      (<[i := Bunch_condition cue tloc tdir flank]> procs,
                       S i))
                   st ["incongruent"; "neutral"; "congruent"])
             st ["left"; "right"])
           st ["top"; "bottom"])
         (procs, 0%nat) ["no"; "spatial"; "center"; "double"]).

(** The nested loops of [__init__] that fill the [visTarget] dictionary. *)
Definition build_visTarget (self : ANTExp) : result (gmap string Stim) :=
  foldl (λ acc tloc,
    foldl (λ acc tdir,
      foldl (λ acc flank,
               vt ← acc;
               img ← _targetStim self tloc tdir flank;
               Ret (<[tloc +:+ tdir +:+ flank := img]> vt))
            acc ["incongruent"; "neutral"; "congruent"])
      acc ["left"; "right"])
    (Ret ∅) ["top"; "bottom"].

Definition lift {A} (r : result A) : M A := λ w, (r, w).

(** [ANTExp.__init__(mon, win, winsize, refreshRate, clock, startTime,
    logfile, runDummy, original)]; [win] and [clock] are the [World]. *)
Definition __init__ (mon : Q → Q) (winsize : Z * Z) (refreshRate : Q)
    (startTime : Q) (logfile runDummy original : bool) : M ANTExp :=
  frameTime ← (if Qeq_bool refreshRate 0 then raise ZeroDivisionError
               else mret (1 / refreshRate));
  (if logfile then emit (LogWrite Header) else emit (Stdout Header));;
  let allWidthDeg := 0.04 in
  let self :=
    mkANTExp mon winsize refreshRate frameTime startTime logfile runDummy
      original
      400 1600 100 400 1700 700 4000
      0.55 0.06 0.35 allWidthDeg (mon allWidthDeg)
      1.06
      [] (BufferImageStim []) (BufferImageStim []) ∅ in
  let self := set_procedures self (enumerate_procedures (replicate 48 Bunch0)) in
  let self := set_visFix self (_fixStim self) in
  let self := set_visCue self (_cueStim self) in
  vt ← lift (build_visTarget self);
  mret (set_visTarget self vt).

(** [self.visCue.pos = pos] *)
Definition at_pos (s : Stim) (pos : Point) : Stim :=
  match s with
  | ShapeStim _ lc fc lw vs => ShapeStim pos lc fc lw vs
  | BufferImageStim l => BufferImageStim l
  end.

(** [waitAndFlip(t)], the local function of [_oneProcedure]. *)
Definition waitAndFlip (self : ANTExp) (t : Q) : M Q :=
  c ← clock_getTime;
  core_wait (t - c - frameTime self) (frameTime self / 2);;
  win_flip;;
  clock_getTime.

(** Lines 276-292 of [_oneProcedure]: the cue is drawn, if any. *)
Definition draw_cue (self : ANTExp) (condition : Condition) : M unit :=
  if negb (bool_decide (cue condition = "no")) then
    (if bool_decide (cue condition = "double")
        || (bool_decide (cue condition = "spatial")
            && bool_decide (tloc condition = "top")) then
       (if original self then draw (visFix self) else mret ());;
       draw (at_pos (visCue self) (0, targetDist self))
     else mret ());;
    (if bool_decide (cue condition = "double")
        || (bool_decide (cue condition = "spatial")
            && bool_decide (tloc condition = "bottom")) then
       (if original self then draw (visFix self) else mret ());;
       draw (at_pos (visCue self) (0, - targetDist self))
     else mret ());;
    (if bool_decide (cue condition = "center") then
       draw (at_pos (visCue self) (0, 0))
     else mret ())
  else draw (visFix self).

(** Lines 319-334 of [_oneProcedure]: the first key is classified.  The
    result is the pair of the locals [quit] and [resp]; [resp] is [None]
    while the local is not bound, [Some v] once it holds the Python value
    [v]. *)
Definition classify (condition : Condition) (keys : option (string * Q))
    (quit : bool) : M (bool * option (option string)) :=
  match keys with
  | Some (key, stamp) =>
      emit (Stdout (GotKey key stamp (tdir condition)));;
      if bool_decide (key = "escape") then
        mret (true, Some (Some "QUIT"))
      else if bool_decide (key = "0") then
        core_wait 100 0.2;;
        mret (quit, None)
      else if bool_decide (key = tdir condition)
              || (bool_decide (key ∈ ["f"; "a"; "z"; "q"])
                  && bool_decide (tdir condition = "left"))
              || (bool_decide (key ∈ ["j"; "m"; "l"; "p"])
                  && bool_decide (tdir condition = "right")) then
        mret (quit, Some (Some "OK"))
      else
        mret (quit, Some (Some "NOK"))
  | None =>
      emit (Stdout TIMEOUT);;
      mret (quit, Some None)
  end.

(** [_oneProcedure(condition, short)]: one trial.  [Ret None] is the
    Python [None] returned when the user halted. *)
Definition _oneProcedure (self : ANTExp) (condition : Condition)
    (short : bool) : M (option TrialResult) :=
  let quit := false in
  draw (visFix self);;
  win_flip;;
  t0 ← clock_getTime;
  r ← random_randrange (tD1min self) (tD1max self) 10;
  draw_cue self condition;;
  f ← waitAndFlip self (t0 + inject_Z r / 1000);
  let d1 := f - t0 in
  draw (visFix self);;
  f ← waitAndFlip self (t0 + d1 + 0.1);
  let ct := f - t0 - d1 in
  target ← match visTarget self
                   !! (tloc condition +:+ tdir condition +:+ flank condition)
           with
           | Some s => mret s
           | None => raise (KeyError (tloc condition +:+ tdir condition
                                        +:+ flank condition))
           end;
  draw target;;
  (if original self then draw (visFix self) else mret ());;
  f ← waitAndFlip self (t0 + d1 + 0.1 + 0.4);
  let d2 := f - t0 - d1 - ct in
  event_clearEvents;;
  keys ← (if runDummy self then
            event_waitKeys (inject_Z (tDummy self) / 1000 - frameTime self)
          else
            event_waitKeys (inject_Z (tOut self) / 1000 - frameTime self));
  '(quit, resp) ← classify condition keys quit;
  c ← clock_getTime;
  let rt := c - t0 - d2 - ct - d1 in
  (if original self then draw (visFix self) else mret ());;
  win_flip;;
  (if original self then draw (visFix self) else mret ());;
  tf ← (if negb short then
          f ← waitAndFlip self (t0 + 4.0);
          mret (f - t0)
        else
          c ← clock_getTime;
          mret (c - t0));
  if (quit : bool) then mret None
  else
    match resp with
    | Some resp =>
        mret (Some (Bunch condition (startTime self + t0) t0 d1 ct d2 rt tf
                          resp))
    | None => raise (UnboundLocalError "resp")
    end.

(** [np.zeros((rows, cols))] *)
Definition np_zeros (rows cols : nat) : list (list Q) :=
  replicate rows (replicate cols 0).

(** [l[i]] on a Python list. *)
Definition index {A} (l : list A) (i : nat) : M A :=
  match l !! i with
  | Some x => mret x
  | None => raise IndexError
  end.

(** Reading a local that may not have been bound yet. *)
Definition local {A} (name : string) (v : option A) : M A :=
  match v with
  | Some x => mret x
  | None => raise (UnboundLocalError name)
  end.

(** Lines 417-426 of [fullExperiment]; an unknown cue leaves the local
    [warningType] as it was. *)
Definition code_warningType (cond : Condition) (warningType : option Z)
    : M (option Z) :=
  if bool_decide (cue cond = "no") then mret (Some 0%Z)
  else if bool_decide (cue cond = "center") then mret (Some 1%Z)
  else if bool_decide (cue cond = "double") then mret (Some 2%Z)
  else if bool_decide (cue cond = "spatial") then mret (Some 3%Z)
  else emit (Stderr (UnknownCue (cue cond)));; mret warningType.

(** Lines 428-435 of [fullExperiment]. *)
Definition code_congruency (cond : Condition) (congruency : option Z)
    : M (option Z) :=
  if bool_decide (flank cond = "congruent") then mret (Some 0%Z)
  else if bool_decide (flank cond = "incongruent") then mret (Some 1%Z)
  else if bool_decide (flank cond = "neutral") then mret (Some 2%Z)
  else emit (Stderr (UnknownFlank (flank cond)));; mret congruency.

(** The body of the [for] loop of [fullExperiment], over the indices still
    to come.  [Ret None] is the early [return None]; [Ret (Some expData)]
    is the table when the loop is left (exhausted, or by [break]). *)
Fixpoint block_loop (self : ANTExp) (order : list nat)
    (expData : list (list Q)) (maxrun warningType congruency : option Z)
    : M (option (list (list Q))) :=
  match order with
  | [] => mret (Some expData)
  | i :: order =>
      condition ← index (procedures self) i;
      res ← _oneProcedure self condition false;
      match res with
      | None => mret None
      | Some res =>
          (if logfile self then emit (LogWrite (ResultLine res))
           else emit (Stdout (ResultLine res)));;
          cond ← index (procedures self) i;
          warningType ← code_warningType cond warningType;
          congruency ← code_congruency cond congruency;
          wT ← local "warningType" warningType;
          cg ← local "congruency" congruency;
          let expData :=
            <[i := [t0 res; inject_Z (Z.of_nat i); inject_Z wT; inject_Z cg;
                    d1 res; ct res; d2 res; rt res; tf res;
                    if bool_decide (resp res = Some "OK") then 1 else 0;
                    1]]> expData in
          match maxrun with
          | Some m =>
              let m := (m - 1)%Z in
              if (m =? 0)%Z then mret (Some expData)
              else block_loop self order expData (Some m) warningType
                              congruency
          | None =>
              block_loop self order expData None warningType congruency
          end
      end
  end.

(** [expData[expData[:,10]==1]] *)
Definition completed (expData : list (list Q)) : list (list Q) :=
  List.filter (λ row, Qeq_bool (default 0 (row !! 10%nat)) 1) expData.

(** [fullExperiment(maxrun)]: one experimental block. *)
Definition fullExperiment (self : ANTExp) (maxrun : option Z)
    : M (option (list (list Q))) :=
  let expData := np_zeros (length (procedures self)) 11 in
  order ← random_sample (seq 0 (length (procedures self)))
                        (length (procedures self));
  r ← block_loop self order expData maxrun None None;
  mret (completed <$> r).

(** ** Reading a composite back

    What the claims say about a composite is read off its primitives: a
    position holds a plain line when a bar alone sits there, and an arrow
    when a bar sits there with a triangular head, pointing to the side of
    the head's apex. *)

Definition same_point (p q : Point) : bool :=
  Qeq_bool (fst p) (fst q) && Qeq_bool (snd p) (snd q).






Definition primitives (img : Stim) : list Stim :=
  match img with
  | BufferImageStim l => l
  | ShapeStim _ _ _ _ _ => []
  end.


(** The geometry that [__init__] fixes, on a reference experiment: the
    composites depend on the geometry constants and on [runDummy] only. *)
Definition reference_exp (dummy : bool) : ANTExp :=
  mkANTExp (λ q, q) (0, 0)%Z 1 1 0 false dummy true
    400 1600 100 400 1700 700 4000 0.55 0.06 0.35 0.04 0.04 1.06
    [] (BufferImageStim []) (BufferImageStim []) ∅.

Definition get_or {A} (d : A) (r : result A) : A :=
  match r with
  | Ret a => a
  | Raise _ => d
  end.

Definition sits_at (s : Stim) (p : Point) : bool :=
  match s with
  | ShapeStim pos _ _ _ _ => same_point pos p
  | BufferImageStim _ => false
  end.

(** A display at 60 Hz whose first flip falls on clock time 0, a subject
    who answers every target with [a] after 200 ms, and a monitor of 50
    pixels per degree. *)
Definition world60 : World :=
  mkWorld (- (1 / 120)) (1 / 60) (λ i, (448599889338368 * N.of_nat i)%N) 0
          (replicate 48 (Some ("a", 0.2))) [].

Definition mon50 (deg : Q) : Q := deg * 50.

Definition is_Ret {A} (r : result A) : bool :=
  match r with
  | Ret _ => true
  | Raise _ => false
  end.


(** The calls of a trace that are not drawings into the back buffer. *)
Definition is_call (e : Event) : bool :=
  match e with
  | Draw _ => false
  | _ => true
  end.

Definition calls (tr : list Event) : list Event := List.filter is_call tr.

(** The test of lines 326-328 of [_oneProcedure]. *)
Definition accepted (condition : Condition) (key : string) : bool :=
  bool_decide (key = tdir condition)
  || (bool_decide (key ∈ ["f"; "a"; "z"; "q"])
      && bool_decide (tdir condition = "left"))
  || (bool_decide (key ∈ ["j"; "m"; "l"; "p"])
      && bool_decide (tdir condition = "right")).

(** The response windows a trace opened, by their [maxWait]. *)
Definition windows (tr : list Event) : list Q :=
  omap (λ e, match e with WaitKeys mw => Some mw | _ => None end) tr.

(** ** Concrete experiments and worlds *)

(** The experiment [__init__] builds on a display of [rr] Hz. *)
Definition exp_at (rr : Q) (dummy : bool) : ANTExp :=
  get_or (reference_exp dummy)
         (fst (__init__ mon50 (1440, 900)%Z rr 0 false dummy true world60)).

Definition exp60 : ANTExp := exp_at 60 false.

Definition cond_left : Condition :=
  Bunch_condition "no" "top" "left" "congruent".

(** A world at [1 / hz] seconds per frame whose first flip falls on clock
    time 0, whose generator always returns [x] and whose subject presses
    [key] [dt] seconds after the target. *)
Definition world_of (hz : Q) (x : N) (key : string) (dt : Q) : World :=
  mkWorld (- (1 / (2 * hz))) (1 / hz) (λ _, x) 0 [Some (key, dt)] [].

(** The fixed timestamps of the specification's example: fixation of
    500 ms, response 200 ms after the target. *)
Definition world_500 : World := world_of 60 788129934789837 "a" 0.2.


(** A key 1690 ms after the target. *)
Definition world_late : World := world_of 60 0 "a" 1.69.

(** The reserved key. *)
Definition world_zero : World := world_of 60 0 "0" 0.2.

(** A response one second after the trial started. *)
Definition world_1s : World := world_of 60 0 "a" 0.1.

(** The length of the response window, line 315-318 of [_oneProcedure]. *)
Definition response_window (self : ANTExp) : Q :=
  if runDummy self then inject_Z (tDummy self) / 1000 - frameTime self
  else inject_Z (tOut self) / 1000 - frameTime self.

(** The first key the next response window captures, if any. *)
Definition captured (self : ANTExp) (w : World) : option (string * Q) :=
  first_key (response_window self) (keyboard w).

(** The keys a trace reports as received. *)
Definition keys_got (tr : list Event) : list string :=
  omap (λ e, match e with Stdout (GotKey k _ _) => Some k | _ => None end) tr.

(** The trial records a trace has logged (to the log file or to stdout). *)
Definition logged (tr : list Event) : list TrialResult :=
  omap (λ e, match e with
             | Stdout (ResultLine r) | LogWrite (ResultLine r) => Some r
             | _ => None
             end) tr.

(** The codes of lines 417-435 of [fullExperiment], for the cues and
    congruencies the experiment knows. *)
Definition warning_code (cue : string) : Z :=
  if bool_decide (cue = "no") then 0
  else if bool_decide (cue = "center") then 1
  else if bool_decide (cue = "double") then 2
  else 3.

Definition congruency_code (flank : string) : Z :=
  if bool_decide (flank = "congruent") then 0
  else if bool_decide (flank = "incongruent") then 1
  else 2.

(** The row that line 437 stores for the trial [res] of condition [i]. *)
Definition row_of (i : nat) (cond : Condition) (res : TrialResult) : list Q :=
  [t0 res; inject_Z (Z.of_nat i); inject_Z (warning_code (cue cond));
   inject_Z (congruency_code (flank cond));
   d1 res; ct res; d2 res; rt res; tf res;
   if bool_decide (resp res = Some "OK") then 1 else 0;
   1].

(** How many of [n] trials a block with this [maxrun] runs when nothing
    stops it: the loop is left when the decremented [maxrun] reaches 0. *)
Definition consumed (maxrun : option Z) (n : nat) : nat :=
  match maxrun with
  | Some m => if (0 <? m)%Z && (m <=? Z.of_nat n)%Z then Z.to_nat m else n
  | None => n
  end.

(** A block at 60 Hz in which the subject answers three targets and then
    presses [escape]. *)
Definition world_abort : World :=
  mkWorld (- (1 / 120)) (1 / 60) (λ i, (448599889338368 * N.of_nat i)%N) 0
          (replicate 3 (Some ("a", 0.2)) ++ [Some ("escape", 0.3)]) [].

(** Line 437: the row of a completed trial is stored at the index of its
    condition. *)
Definition store (expData : list (list Q)) (p : nat * TrialResult)
    : list (list Q) :=
  <[p.1 := row_of p.1 (condition p.2) p.2]> expData.

#[global] Instance Condition_eq_dec : EqDecision Condition.
Proof. solve_decision. Defined.

Definition returned_table {A} (r : result (option A)) : bool :=
  match r with
  | Ret (Some _) => true
  | _ => false
  end.

(** ** Observations for the further properties *)

(** The clock when [waitAndFlip(t)] returns, called at [now] on a display
    of retrace period [vs] by an experiment of frame time [ft]. *)
Definition flip_time (vs ft now t : Q) : Q :=
  next_retrace vs (after (t - now - ft) now).

Definition flips (tr : list Event) : list Q :=
  omap (λ e, match e with Flip t => Some t | _ => None end) tr.

(** The world once the result line of [res] has been written, lines
    408-413 of [fullExperiment]. *)
Definition log_result (self : ANTExp) (res : TrialResult) (w : World)
    : World :=
  mkWorld (now w) (vsync w) (draws w) (drawn w) (keyboard w)
    (trace w ++ [if logfile self then LogWrite (ResultLine res)
                 else Stdout (ResultLine res)]).

(** [trials self w done w']: from the world [w] the loop of
    [fullExperiment] ran the trials of the conditions [done.*1], one
    after the other; each returned its record, which was logged; the last
    one left the world [w']. *)
Inductive trials (self : ANTExp)
    : World → list (nat * TrialResult) → World → Prop :=
| trials_nil w : trials self w [] w
| trials_cons w i cond res w1 done w' :
    procedures self !! i = Some cond →
    _oneProcedure self cond false w = (Ret (Some res), w1) →
    trials self (log_result self res w1) done w' →
    trials self w ((i, res) :: done) w'.

(** The events of a trial: drawings, flips, clock readings, waits, the
    response window and the line printed for the key or the timeout. *)
Definition trial_event (e : Event) : bool :=
  match e with
  | Draw _ | Flip _ | GetTime _ | Wait _ _ | ClearEvents | WaitKeys _
  | Stdout (GotKey _ _ _) | Stdout TIMEOUT => true
  | _ => false
  end.

(** What a trace wrote to the log file, and to stderr. *)
Definition logfile_lines (tr : list Event) : list Line :=
  omap (λ e, match e with LogWrite l => Some l | _ => None end) tr.

Definition stderr_lines (tr : list Event) : list Line :=
  omap (λ e, match e with Stderr l => Some l | _ => None end) tr.

(** The result lines a trace printed to stdout. *)
Definition stdout_results (tr : list Event) : list TrialResult :=
  omap (λ e, match e with Stdout (ResultLine r) => Some r | _ => None end) tr.

(** ** Reading stimuli and drawings back *)

Definition vertices_of (s : Stim) : list Point :=
  match s with
  | ShapeStim _ _ _ _ vs => vs
  | BufferImageStim _ => []
  end.

(** The stimuli a trace drew into the back buffer, in order. *)
Definition drawings (tr : list Event) : list Stim :=
  omap (λ e, match e with Draw s => Some s | _ => None end) tr.

(** ** What is on the screen

    A [win.flip()] shows the back buffer and clears it.  [screens buffer
    evs] is the list of the screens the flips of [evs] showed, each as the
    list of the stimuli drawn into it, and the back buffer left at the end;
    [buffer] is the back buffer at the start. *)
Fixpoint screens (buffer : list Stim) (evs : list Event)
    : list (list Stim) * list Stim :=
  match evs with
  | [] => ([], buffer)
  | Draw s :: evs => screens (buffer ++ [s]) evs
  | Flip _ :: evs =>
      let '(shown, rest) := screens [] evs in (buffer :: shown, rest)
  | _ :: evs => screens buffer evs
  end.

(** What lines 276-292 of [_oneProcedure] draw for the cue. *)
Definition cue_frame (self : ANTExp) (condition : Condition) : list Stim :=
  let cross := if original self then [visFix self] else [] in
  if negb (bool_decide (cue condition = "no")) then
    (if bool_decide (cue condition = "double")
        || (bool_decide (cue condition = "spatial")
            && bool_decide (tloc condition = "top"))
     then cross ++ [at_pos (visCue self) (0, targetDist self)] else [])
    ++ (if bool_decide (cue condition = "double")
           || (bool_decide (cue condition = "spatial")
               && bool_decide (tloc condition = "bottom"))
        then cross ++ [at_pos (visCue self) (0, - targetDist self)] else [])
    ++ (if bool_decide (cue condition = "center")
        then [at_pos (visCue self) (0, 0)] else [])
  else [visFix self].

(** ** Text screens: instructions and practice feedback

    [displayText] and [practiceBlock] draw text and rulers and wait for a
    key without a time limit.  These calls are kept in a list of their own,
    [session], each with the number of events the trace held when it was
    made; a wait for a key that never comes does not return, which is the
    [None] of the monad [IO]. *)

(** The text of a [visual.TextStim]: a string of the caller, one of the
    two instruction pages of the class, or one of the feedback messages of
    [practiceBlock] (its [%]-formatting is not kept, its argument is). *)
Inductive Text :=
| Literal (s : string)
| _instructions1
| _instructions2
| CorrectReply (rt : Q)
| IncorrectReply (rt : Q)
| NoTimelyResponse.

(** [visual.TextStim(win, alignHoriz=, wrapWidth=, height=, color=, text=)]
    and [visual.Line(win, start=, end=, lineColor=)]. *)
Inductive Visual :=
| TextStim (alignHoriz : option string) (wrapWidth height : option Q)
           (color : string) (text : Text)
| visual_Line (start end_ : Point) (lineColor : string).

Inductive Call :=
| DrawVisual (v : Visual)
| WaitKeysUnbounded.

Record Stage := mkStage {
  world : World;
  session : list (nat * Call)
}.

Definition IO (A : Type) : Type := Stage → option (result A * Stage).

#[global] Instance IO_ret : MRet IO := λ A a s, Some (Ret a, s).
#[global] Instance IO_bind : MBind IO := λ A B f m s,
  match m s with
  | Some (Ret a, s') => f a s'
  | Some (Raise e, s') => Some (Raise e, s')
  | None => None
  end.

(** A computation on the collaborators of the trials. *)
Definition in_world {A} (m : M A) : IO A := λ s,
  match m (world s) with
  | (r, w) => Some (r, mkStage w (session s))
  end.

Definition call (c : Call) : IO unit := λ s,
  Some (Ret (), mkStage (world s)
                  (session s ++ [(length (trace (world s)), c)])).

(** [v.draw()] on a text or a ruler. *)
Definition draw_visual (v : Visual) : IO unit := call (DrawVisual v).

(** [event.waitKeys()]: the first key of the next entry of the keyboard
    script, whenever it comes; without a key the call does not return. *)
Definition event_waitKeys_unbounded : IO string := λ s,
  let w := world s in
  match keyboard w with
  | Some (k, dt) :: rest =>
      if Qle_bool 0 dt then
        Some (Ret k,
              mkStage (mkWorld (now w + dt) (vsync w) (draws w) (drawn w)
                               rest (trace w))
                      (session s ++ [(length (trace w), WaitKeysUnbounded)]))
      else None
  | _ => None
  end.

(** [displayText(text, showLine, noWait, time)] *)
Definition displayText (self : ANTExp) (text : Text) (showLine noWait : bool)
    (time : Q) : IO bool :=
  in_world win_flip;;
  draw_visual (TextStim (Some "center") (Some 12) (Some 0.01) "black" text);;
  (if showLine then
     draw_visual (visual_Line (- 7, - 1) (- 7, 1) "black");;
     draw_visual (visual_Line (- 7.1, - 1) (- 6.9, - 1) "black");;
     draw_visual (visual_Line (- 7.1, 1) (- 6.9, 1) "black")
   else mret ());;
  in_world win_flip;;
  if noWait then
    in_world (core_wait time 0.2);;
    in_world win_flip;;
    mret false
  else
    key ← event_waitKeys_unbounded;
    in_world win_flip;;
    mret (bool_decide (key = "escape")).

(** [displayInstructions()] *)
Definition displayInstructions (self : ANTExp) : IO bool :=
  b ← displayText self _instructions1 true false 2;
  if negb b then displayText self _instructions2 true false 2
  else mret true.

(** Lines 365-370 of [practiceBlock]: the feedback text. *)
Definition feedback (res : TrialResult) : Visual :=
  if bool_decide (resp res = Some "OK") then
    TextStim None None None "black" (CorrectReply (rt res))
  else if bool_decide (resp res = Some "NOK") then
    TextStim None None None "red" (IncorrectReply (rt res))
  else
    TextStim None None None "orange" NoTimelyResponse.

(** The body of the [for] loop of [practiceBlock], over the indices still
    to come.  [Ret (Some b)] is [return b]; [Ret None] is the [None] of a
    method that runs off its end. *)
Fixpoint practice_loop (self : ANTExp) (order : list nat) (maxrun : Z)
    : IO (option bool) :=
  match order with
  | [] => mret None
  | i :: order =>
      condition ← in_world (index (procedures self) i);
      res ← in_world (_oneProcedure self condition true);
      match res with
      | None => mret (Some false)
      | Some res =>
          in_world win_flip;;
          draw_visual (feedback res);;
          in_world win_flip;;
          in_world (core_wait 2 0.2);;
          let maxrun := (maxrun - 1)%Z in
          if (maxrun =? 0)%Z then mret (Some true)
          else practice_loop self order maxrun
      end
  end.

(** [practiceBlock(maxrun)] *)
Definition practiceBlock (self : ANTExp) (maxrun : Z) : IO (option bool) :=
  order ← in_world (random_sample (seq 0 (length (procedures self)))
                                  (length (procedures self)));
  practice_loop self order maxrun.

(** The texts and rulers a session drew. *)
Definition visuals (ses : list (nat * Call)) : list Visual :=
  omap (λ c, match c.2 with DrawVisual v => Some v | _ => None end) ses.

(** The texts a session showed. *)
Definition pages (ses : list (nat * Call)) : list Text :=
  omap (λ c, match c.2 with
             | DrawVisual (TextStim _ _ _ _ t) => Some t
             | _ => None
             end) ses.

(** The drawing of [text] by [displayText], with its ruler if asked. *)
Definition text_screen (text : Text) (showLine : bool) : list Visual :=
  TextStim (Some "center") (Some 12) (Some 0.01) "black" text
  :: (if showLine then
        [visual_Line (- 7, - 1) (- 7, 1) "black";
         visual_Line (- 7.1, - 1) (- 6.9, - 1) "black";
         visual_Line (- 7.1, 1) (- 6.9, 1) "black"]
      else []).

(** The stage once the feedback for [res] has been shown for two seconds,
    lines 364-372 of [practiceBlock]; [w] is the world the trial left. *)
Definition show_feedback (res : TrialResult) (w : World)
    (ses : list (nat * Call)) : Stage :=
  let f1 := next_retrace (vsync w) (now w) in
  let f2 := next_retrace (vsync w) f1 in
  mkStage (mkWorld (after 2 f2) (vsync w) (draws w) (drawn w) (keyboard w)
             (trace w ++ [Flip f1; Flip f2; Wait 2 0.2]))
          (ses ++ [(S (length (trace w)), DrawVisual (feedback res))]).

(** [practised self s done s']: from the stage [s] the loop of
    [practiceBlock] ran the trials of the conditions [done.*1], one after
    the other, in short mode; each returned its record and was followed by
    its feedback; the last feedback left the stage [s']. *)
Inductive practised (self : ANTExp)
    : Stage → list (nat * TrialResult) → Stage → Prop :=
| practised_nil s : practised self s [] s
| practised_cons s i cond res w1 done s' :
    procedures self !! i = Some cond →
    _oneProcedure self cond true (world s) = (Ret (Some res), w1) →
    practised self (show_feedback res w1 (session s)) done s' →
    practised self s ((i, res) :: done) s'.

(** ** More concrete experiments and stages *)

(** A condition whose target location the experiment does not know. *)
Definition cond_middle : Condition :=
  Bunch_condition "no" "middle" "left" "congruent".

(** The 60 Hz experiment with one condition only, of a cue that
    [fullExperiment] does not know. *)
Definition exp_tone : ANTExp :=
  set_procedures exp60 [Bunch_condition "tone" "top" "left" "congruent"].

(** The 60 Hz world before anything was shown. *)
Definition stage60 : Stage := mkStage world60 [].

(** * Theorems *)

(** ** The experiment as [__init__] builds it *)

Lemma targetStim_geometry s1 s2 tloc tdir flank :
  arrowSize s1 = arrowSize s2 → arrowSep s1 = arrowSep s2 →
  allWidthDeg s1 = allWidthDeg s2 → targetDist s1 = targetDist s2 →
  runDummy s1 = runDummy s2 →
  _targetStim s1 tloc tdir flank = _targetStim s2 tloc tdir flank.
Proof. unfold _targetStim. intros -> -> -> -> ->. reflexivity. Qed.

Lemma build_visTarget_geometry s1 s2 :
  arrowSize s1 = arrowSize s2 → arrowSep s1 = arrowSep s2 →
  allWidthDeg s1 = allWidthDeg s2 → targetDist s1 = targetDist s2 →
  runDummy s1 = runDummy s2 →
  build_visTarget s1 = build_visTarget s2.
Proof.
  intros. unfold build_visTarget. cbn [foldl].
  rewrite !(targetStim_geometry s1 s2) by assumption. reflexivity.
Qed.

Lemma init_inv mon ws rr st lf dummy orig w self w' :
  __init__ mon ws rr st lf dummy orig w = (Ret self, w') →
  Qeq_bool rr 0 = false ∧
  self = mkANTExp mon ws rr (1 / rr) st lf dummy orig
           400 1600 100 400 1700 700 4000 0.55 0.06 0.35 0.04 (mon 0.04) 1.06
           (enumerate_procedures (replicate 48 Bunch0))
           (_fixStim self) (_cueStim self)
           (get_or ∅ (build_visTarget (reference_exp dummy))).
Proof.
  unfold __init__. unfold mbind, M_bind, mret, M_ret, raise, lift.
  destruct (Qeq_bool rr 0); [discriminate|].
  destruct lf; unfold emit;
  match goal with
  | |- context [build_visTarget ?s] =>
      rewrite (build_visTarget_geometry s (reference_exp dummy))
        by reflexivity;
      destruct (build_visTarget (reference_exp dummy))
  end; try discriminate; intros [= <- _]; split; reflexivity.
Qed.

Lemma build_reference_Ret dummy :
  is_Ret (build_visTarget (reference_exp dummy)) = true.
Proof. destruct dummy; vm_compute; reflexivity. Qed.

(** [__init__] succeeds on every display with a non-zero refresh rate. *)
Lemma init_total mon ws rr st lf dummy orig w :
  Qeq_bool rr 0 = false →
  ∃ self w', __init__ mon ws rr st lf dummy orig w = (Ret self, w').
Proof.
  intros Hrr. unfold __init__. unfold mbind, M_bind, mret, M_ret, raise, lift.
  rewrite Hrr. pose proof (build_reference_Ret dummy) as Hb.
  destruct lf; unfold emit;
  match goal with
  | |- context [build_visTarget ?s] =>
      rewrite (build_visTarget_geometry s (reference_exp dummy))
        by reflexivity
  end;
  (destruct (build_visTarget (reference_exp dummy)); [|discriminate Hb]);
  eauto.
Qed.

Ltac cases_of_membership :=
  repeat match goal with
         | H : _ ∈ _ :: _ |- _ => apply elem_of_cons in H as [-> | H]
         | H : _ ∈ [] |- _ => apply elem_of_nil in H as []
         end.

Ltac to_reference_exp Hinit dummy :=
  let Hself := fresh "Hself" in
  destruct (init_inv _ _ _ _ _ _ _ _ _ _ Hinit) as [_ Hself];
  match goal with
  | self : ANTExp |- _ =>
      rewrite (targetStim_geometry self (reference_exp dummy))
        by (rewrite Hself; reflexivity);
      replace (visTarget self)
        with (get_or ∅ (build_visTarget (reference_exp dummy)))
        by (rewrite Hself; reflexivity)
  end;
  clear Hinit Hself.

(** Every one of the twelve composites is built and stored under its key. *)
Lemma init_visTarget mon ws rr st lf dummy orig w self w' tloc tdir flank :
  __init__ mon ws rr st lf dummy orig w = (Ret self, w') →
  tloc ∈ ["top"; "bottom"] → tdir ∈ ["left"; "right"] →
  flank ∈ ["incongruent"; "neutral"; "congruent"] →
  ∃ img, _targetStim self tloc tdir flank = Ret img
       ∧ visTarget self !! (tloc +:+ tdir +:+ flank) = Some img.
Proof.
  intros Hinit Hl Hd Hf.
  to_reference_exp Hinit dummy.
  cases_of_membership; destruct dummy;
    (match goal with
     | |- ∃ img, ?r = _ ∧ _ =>
         let x := eval vm_compute in r in
         match x with Ret ?i => exists i end
     end); split; vm_compute; reflexivity.
Qed.


Lemma init_fields mon ws rr st lf dummy orig w self w' :
  __init__ mon ws rr st lf dummy orig w = (Ret self, w') →
  ¬ rr == 0
  ∧ frameTime self = 1 / rr ∧ runDummy self = dummy ∧ original self = orig
  ∧ logfile self = lf
  ∧ tD1min self = 400%Z ∧ tD1max self = 1600%Z
  ∧ tOut self = 1700%Z ∧ tDummy self = 700%Z ∧ tExp self = 4000%Z
  ∧ procedures self = enumerate_procedures (replicate 48 Bunch0).
Proof.
  intros Hinit. destruct (init_inv _ _ _ _ _ _ _ _ _ _ Hinit) as [Hrr Hself].
  split.
  { intros E. apply Qeq_bool_iff in E. congruence. }
  repeat split; rewrite Hself; reflexivity.
Qed.

(** ** The collaborators never run the clock backwards *)

Lemma after_ge secs t : t <= after secs t.
Proof.
  unfold after. destruct (Qle_bool secs 0) eqn:E; [lra|].
  assert (~ secs <= 0) by (rewrite <- Qle_bool_iff; congruence). lra.
Qed.

Lemma after_reach secs t : t + secs <= after secs t.
Proof.
  unfold after. destruct (Qle_bool secs 0) eqn:E; [|lra].
  apply Qle_bool_iff in E. lra.
Qed.

Lemma next_retrace_ge p t : t <= next_retrace p t.
Proof.
  unfold next_retrace. destruct (Qle_bool p 0) eqn:E; [lra|].
  assert (Hp : 0 < p).
  { apply Qnot_le_lt. rewrite <- Qle_bool_iff. congruence. }
  pose proof (Qlt_floor (t / p)) as Hf.
  apply Qlt_le_weak.
  apply (Qmult_lt_r _ _ p Hp) in Hf.
  assert (Heq : t / p * p == t) by (field; lra).
  rewrite Heq in Hf. exact Hf.
Qed.

(** ** Running the monad *)

Lemma bind_run {A B} (m : M A) (k : A → M B) w x w1 :
  m w = (Ret x, w1) → (m ≫= k) w = k x w1.
Proof. unfold mbind, M_bind. intros ->. reflexivity. Qed.

Lemma bind_raise {A B} (m : M A) (k : A → M B) w e w1 :
  m w = (Raise e, w1) → (m ≫= k) w = (Raise e, w1).
Proof. unfold mbind, M_bind. intros ->. reflexivity. Qed.


(** ** One trial, step by step *)

Lemma waitAndFlip_run self t w :
  waitAndFlip self t w =
  let f := next_retrace (vsync w)
             (after (t - now w - frameTime self) (now w)) in
  (Ret f, mkWorld f (vsync w) (draws w) (drawn w) (keyboard w)
            (trace w ++ [GetTime (now w);
                         Wait (t - now w - frameTime self) (frameTime self / 2);
                         Flip f; GetTime f])).
Proof.
  unfold waitAndFlip, mbind, M_bind, clock_getTime, core_wait, win_flip.
  cbn [now vsync draws drawn keyboard trace]. cbv zeta.
  rewrite <- !app_assoc. reflexivity.
Qed.

Lemma draw_cue_run self condition :
  ∃ cues,
    (∀ w, draw_cue self condition w =
          (Ret (), mkWorld (now w) (vsync w) (draws w) (drawn w) (keyboard w)
                    (trace w ++ cues)))
    ∧ calls cues = [].
Proof.
  unfold draw_cue.
  destruct (bool_decide (cue condition = "no")),
           (bool_decide (cue condition = "double")),
           (bool_decide (cue condition = "spatial")),
           (bool_decide (tloc condition = "top")),
           (bool_decide (tloc condition = "bottom")),
           (bool_decide (cue condition = "center")),
           (original self);
    cbn [negb orb andb];
    unfold mbind, M_bind, mret, M_ret, draw, emit;
    cbn [now vsync draws drawn keyboard trace];
    eexists;
    (split;
     [ intros [n v d dn k tr]; cbn [now vsync draws drawn keyboard trace];
       rewrite <- ?app_assoc;
       first [ reflexivity | rewrite <- (app_nil_r tr) at 1; reflexivity ]
     | reflexivity ]).
Qed.

Lemma randrange_step10 a b w :
  random_randrange a b 10 w =
  if ((b - a + 10 - 1) / 10 <=? 0)%Z
  then (Raise (ValueError "empty range for randrange()"), w)
  else (Ret (a + 10 * _int (uniform (draws w (drawn w))
                            * inject_Z ((b - a + 10 - 1) / 10)))%Z,
        mkWorld (now w) (vsync w) (draws w) (S (drawn w)) (keyboard w)
                (trace w)).
Proof.
  unfold random_randrange.
  change (10 =? 1)%Z with false. change (10 =? 0)%Z with false.
  change (0 <? 10)%Z with true. cbv iota zeta.
  destruct ((b - a + 10 - 1) / 10 <=? 0)%Z; reflexivity.
Qed.

Lemma classify_run condition keys quit w :
  classify condition keys quit w =
  match keys with
  | Some (key, stamp) =>
      if bool_decide (key = "escape") then
        (Ret (true, Some (Some "QUIT")),
         mkWorld (now w) (vsync w) (draws w) (drawn w) (keyboard w)
           (trace w ++ [Stdout (GotKey key stamp (tdir condition))]))
      else if bool_decide (key = "0") then
        (Ret (quit, None),
         mkWorld (after 100 (now w)) (vsync w) (draws w) (drawn w)
           (keyboard w)
           (trace w ++ [Stdout (GotKey key stamp (tdir condition));
                        Wait 100 0.2]))
      else
        (Ret (quit, Some (Some (if accepted condition key
                                then "OK" else "NOK"))),
         mkWorld (now w) (vsync w) (draws w) (drawn w) (keyboard w)
           (trace w ++ [Stdout (GotKey key stamp (tdir condition))]))
  | None =>
      (Ret (quit, Some None),
       mkWorld (now w) (vsync w) (draws w) (drawn w) (keyboard w)
         (trace w ++ [Stdout TIMEOUT]))
  end.
Proof.
  destruct w as [now0 vs0 dr dn kb tr].
  destruct keys as [[k s]|]; unfold classify, accepted;
    unfold mbind, M_bind, mret, M_ret, emit, core_wait;
    cbn [now vsync draws drawn keyboard trace]; [|reflexivity].
  destruct (bool_decide (k = "escape")); [reflexivity|].
  destruct (bool_decide (k = "0")).
  - cbn [now vsync draws drawn keyboard trace].
    rewrite <- app_assoc. reflexivity.
  - destruct (_ || _); reflexivity.
Qed.

Lemma bind_assoc {A B C} (m : M A) (k1 : A → M B) (k2 : B → M C) w :
  ((m ≫= k1) ≫= k2) w = (m ≫= λ x, k1 x ≫= k2) w.
Proof. unfold mbind, M_bind. destruct (m w) as [[x|e] w1]; reflexivity. Qed.

Ltac proj := cbn beta iota delta [now vsync draws drawn keyboard trace].
Ltac proj_in H := cbn beta iota delta [now vsync draws drawn keyboard trace] in H.
Ltac fold_lets H :=
  repeat match goal with
         | x := ?body |- _ => progress change body with x in H
         end.
Ltac run H :=
  first [ erewrite bind_run in H by (apply waitAndFlip_run)
        | erewrite bind_run in H by reflexivity ];
  cbv beta in H; proj_in H; fold_lets H.

Lemma trial_anatomy self condition short w out w' :
  _oneProcedure self condition short w = (out, w') →
  let ft := frameTime self in
  let vs := vsync w in
  let key := tloc condition +:+ tdir condition +:+ flank condition in
  let mw := if runDummy self then inject_Z (tDummy self) / 1000 - ft
            else inject_Z (tOut self) / 1000 - ft in
  let n := ((tD1max self - tD1min self + 10 - 1) / 10)%Z in
  if (n <=? 0)%Z then
    out = Raise (ValueError "empty range for randrange()")
  else
    let r := (tD1min self
              + 10 * _int (uniform (draws w (drawn w)) * inject_Z n))%Z in
    let t0 := next_retrace vs (now w) in
    let f1 := next_retrace vs (after (t0 + inject_Z r / 1000 - t0 - ft) t0) in
    let d1 := f1 - t0 in
    let f2 := next_retrace vs (after (t0 + d1 + 0.1 - f1 - ft) f1) in
    let ct := f2 - t0 - d1 in
    match visTarget self !! key with
    | None => out = Raise (KeyError key)
    | Some img =>
        let f3 := next_retrace vs (after (t0 + d1 + 0.1 + 0.4 - f2 - ft) f2) in
        let d2 := f3 - t0 - d1 - ct in
        let keys := first_key mw (keyboard w) in
        let c := match keys with
                 | Some (k, dt) =>
                     if bool_decide (k = "escape") then f3 + dt
                     else if bool_decide (k = "0") then after 100 (f3 + dt)
                     else f3 + dt
                 | None => after mw f3
                 end in
        let rt := c - t0 - d2 - ct - d1 in
        let b := next_retrace vs c in
        let e := if short then b
                 else next_retrace vs (after (t0 + 4.0 - b - ft) b) in
        let tf := e - t0 in
        calls (trace w') =
          calls (trace w)
          ++ [Flip t0; GetTime t0;
              GetTime t0; Wait (t0 + inject_Z r / 1000 - t0 - ft) (ft / 2);
              Flip f1; GetTime f1;
              GetTime f1; Wait (t0 + d1 + 0.1 - f1 - ft) (ft / 2);
              Flip f2; GetTime f2;
              GetTime f2; Wait (t0 + d1 + 0.1 + 0.4 - f2 - ft) (ft / 2);
              Flip f3; GetTime f3;
              ClearEvents; WaitKeys mw]
          ++ match keys with
             | Some (k, dt) =>
                 Stdout (GotKey k (f3 + dt) (tdir condition))
                 :: (if bool_decide (k = "escape") then []
                     else if bool_decide (k = "0") then [Wait 100 0.2]
                     else [])
             | None => [Stdout TIMEOUT]
             end
          ++ [GetTime c; Flip b]
          ++ (if short then [GetTime b]
              else [GetTime b; Wait (t0 + 4.0 - b - ft) (ft / 2);
                    Flip e; GetTime e])
        ∧ now w' = e
        ∧ vsync w' = vsync w
        ∧ draws w' = draws w
        ∧ drawn w' = S (drawn w)
        ∧ keyboard w' = tail (keyboard w)
        ∧ out = match keys with
                | Some (k, dt) =>
                    if bool_decide (k = "escape") then Ret None
                    else if bool_decide (k = "0")
                    then Raise (UnboundLocalError "resp")
                    else Ret (Some (Bunch condition (startTime self + t0) t0
                                      d1 ct d2 rt tf
                                      (Some (if accepted condition k
                                             then "OK" else "NOK"))))
                | None =>
                    Ret (Some (Bunch condition (startTime self + t0) t0
                                 d1 ct d2 rt tf None))
                end
    end.
Proof.
  intros H. destruct w as [now0 vs0 dr dn kb tr]. proj.
  intros ft vs key mw n. subst ft vs key n.
  destruct (draw_cue_run self condition) as (cues & Hcue & Hcalls).
  unfold _oneProcedure in H.
  destruct ((tD1max self - tD1min self + 10 - 1) / 10 <=? 0)%Z eqn:En.
  { do 3 run H.
    erewrite bind_raise in H
      by (rewrite randrange_step10; proj; rewrite En; reflexivity).
    injection H as <- <-. reflexivity. }
  intros r t0 f1 d1 f2 ct.
  do 3 run H.
  erewrite bind_run in H
    by (rewrite randrange_step10; proj; rewrite En; reflexivity).
  cbv beta in H; proj_in H; fold_lets H.
  erewrite bind_run in H by apply Hcue.
  cbv beta in H; proj_in H.
  do 3 run H.
  destruct (visTarget self !! _) as [img|] eqn:Evt.
  2:{ erewrite bind_raise in H by reflexivity. injection H as <- <-.
      reflexivity. }
  intros f3 d2 keys. subst keys.
  do 2 run H.
  assert (Hmw :
            (if runDummy self
             then event_waitKeys (inject_Z (tDummy self) / 1000
                                  - frameTime self)
             else event_waitKeys (inject_Z (tOut self) / 1000
                                  - frameTime self))
            = event_waitKeys mw)
    by (subst mw; destruct (runDummy self); reflexivity).
  rewrite Hmw in H. clear Hmw.
  destruct (first_key mw kb) as [[k dt]|] eqn:Ek; cbv beta iota;
    [ destruct (bool_decide (k = "escape")) eqn:Eesc;
      [| destruct (bool_decide (k = "0")) eqn:Ezero ] |];
    intros c rt b e tf;
    destruct (original self) eqn:Eo;
    do 3 run H;
    (erewrite bind_run in H
       by (unfold event_waitKeys; proj; rewrite Ek; reflexivity));
    cbv beta in H; proj_in H; fold_lets H;
    (erewrite bind_run in H
       by (rewrite classify_run; proj; rewrite ?Eesc, ?Ezero; reflexivity));
    cbv beta iota in H; proj_in H; fold_lets H;
    do 4 run H;
    destruct short; cbn [negb] in H; rewrite bind_assoc in H; do 2 run H;
    unfold mret, M_ret, raise in H; injection H as <- <-; proj;
    (split; [| repeat split; reflexivity]);
    unfold calls; rewrite !List.filter_app; fold (calls tr); fold (calls cues);
    rewrite Hcalls; cbn [List.filter is_call app];
    rewrite <- ?app_assoc; cbn [app]; reflexivity.
Qed.

(** ** The random fixation delay *)

Lemma uniform_range x : 0 <= uniform x < 1.
Proof.
  unfold uniform.
  pose proof (Z.mod_pos_bound (Z.of_N x) (2 ^ 53) eq_refl) as [Hlo Hhi].
  assert (Hd : 0 < inject_Z (2 ^ 53)) by reflexivity.
  split.
  - apply Qle_shift_div_l; [exact Hd|]. rewrite Qmult_0_l.
    rewrite <- (Zle_Qle 0). exact Hlo.
  - apply Qlt_shift_div_r; [exact Hd|]. rewrite Qmult_1_l.
    rewrite <- Zlt_Qlt. exact Hhi.
Qed.

Lemma int_below u n : 0 <= u < 1 → (0 < n)%Z → (0 <= _int (u * inject_Z n) < n)%Z.
Proof.
  intros [Hlo Hhi] Hn.
  assert (Hn' : 0 < inject_Z n) by (rewrite (Zlt_Qlt 0) in Hn; exact Hn).
  assert (H0 : 0 <= u * inject_Z n) by nra.
  assert (H1 : u * inject_Z n < inject_Z n) by nra.
  unfold _int. apply Qle_bool_iff in H0 as Hb. rewrite Hb.
  split.
  - change 0%Z with (Qfloor 0). apply Qfloor_resp_le. exact H0.
  - rewrite Zlt_Qlt. eapply Qle_lt_trans; [apply Qfloor_le | exact H1].
Qed.

Lemma randrange10_range a b x :
  (0 < (b - a + 10 - 1) / 10)%Z →
  (a <= a + 10 * _int (uniform x * inject_Z ((b - a + 10 - 1) / 10)) < b)%Z.
Proof.
  intros Hn.
  pose proof (int_below (uniform x) _ (uniform_range x) Hn) as Hk.
  pose proof (Z.mul_div_le (b - a + 10 - 1) 10 eq_refl) as Hd.
  lia.
Qed.

Lemma next_retrace_gt p t : 0 < p → t < next_retrace p t.
Proof.
  intros Hp. unfold next_retrace.
  assert (E : Qle_bool p 0 = false).
  { destruct (Qle_bool p 0) eqn:E; [|reflexivity].
    apply Qle_bool_iff in E. lra. }
  rewrite E.
  pose proof (Qlt_floor (t / p)) as Hf.
  apply (Qmult_lt_r _ _ p Hp) in Hf.
  assert (Heq : t / p * p == t) by (field; lra).
  rewrite Heq in Hf. exact Hf.
Qed.

Lemma next_retrace_le p t : 0 < p → next_retrace p t <= t + p.
Proof.
  intros Hp. unfold next_retrace.
  assert (E : Qle_bool p 0 = false).
  { destruct (Qle_bool p 0) eqn:E; [|reflexivity].
    apply Qle_bool_iff in E. lra. }
  rewrite E.
  pose proof (Qfloor_le (t / p)) as Hf.
  apply (Qmult_le_r _ _ p Hp) in Hf.
  assert (Heq : t / p * p == t) by (field; lra).
  rewrite Heq in Hf.
  rewrite inject_Z_plus. change (inject_Z 1) with 1. lra.
Qed.

Ltac intro_let A y :=
  match type of A with
  | let x := ?v in @?B x =>
      pose (y := v); change (B y) in A; cbv beta in A
  end.

(** ** A recorded trial *)

Lemma trial_record self cond short w res w' :
  _oneProcedure self cond short w = (Ret (Some res), w') →
  ∃ r f1 f2 f3 c b e line,
    let ft := frameTime self in
    let mw := if runDummy self then inject_Z (tDummy self) / 1000 - ft
              else inject_Z (tOut self) / 1000 - ft in
    fst (random_randrange (tD1min self) (tD1max self) 10 w) = Ret r
    ∧ (tD1min self <= r < tD1max self)%Z
    ∧ condition res = cond
    ∧ wt res = startTime self + t0 res
    ∧ t0 res = next_retrace (vsync w) (now w)
    ∧ d1 res = f1 - t0 res
    ∧ ct res = f2 - t0 res - d1 res
    ∧ d2 res = f3 - t0 res - d1 res - ct res
    ∧ rt res = c - t0 res - d2 res - ct res - d1 res
    ∧ tf res = e - t0 res
    ∧ (t0 res <= f1 ∧ f1 <= f2 ∧ f2 <= f3 ∧ f3 <= c ∧ c <= b ∧ b <= e)
    ∧ t0 res + inject_Z r / 1000 - ft <= f1
    ∧ b = next_retrace (vsync w) c
    ∧ e = (if short then b
           else next_retrace (vsync w) (after (t0 res + 4.0 - b - ft) b))
    ∧ ((first_key mw (keyboard w) = None ∧ line = TIMEOUT
        ∧ resp res = None ∧ c = after mw f3)
       ∨ (∃ k dt, first_key mw (keyboard w) = Some (k, dt)
                  ∧ k ≠ "escape" ∧ k ≠ "0"
                  ∧ line = GotKey k c (tdir cond) ∧ c = f3 + dt
                  ∧ resp res = Some (if accepted cond k
                                     then "OK" else "NOK")))
    ∧ calls (trace w') =
        calls (trace w)
        ++ [Flip (t0 res); GetTime (t0 res);
            GetTime (t0 res);
            Wait (t0 res + inject_Z r / 1000 - t0 res - ft) (ft / 2);
            Flip f1; GetTime f1;
            GetTime f1; Wait (t0 res + d1 res + 0.1 - f1 - ft) (ft / 2);
            Flip f2; GetTime f2;
            GetTime f2;
            Wait (t0 res + d1 res + 0.1 + 0.4 - f2 - ft) (ft / 2);
            Flip f3; GetTime f3;
            ClearEvents; WaitKeys mw; Stdout line; GetTime c;
            Flip b; GetTime b]
        ++ (if short then []
            else [Wait (t0 res + 4.0 - b - ft) (ft / 2); Flip e; GetTime e])
    ∧ now w' = e ∧ vsync w' = vsync w ∧ draws w' = draws w
    ∧ drawn w' = S (drawn w) ∧ keyboard w' = tail (keyboard w).
Proof.
  intros H. pose proof (trial_anatomy _ _ _ _ _ _ H) as A.
  intro_let A ft; intro_let A vs; intro_let A key; intro_let A mw;
  intro_let A n.
  rewrite randrange_step10. subst n.
  destruct (_ <=? 0)%Z eqn:En; [discriminate A|].
  apply Z.leb_gt in En.
  pose proof (randrange10_range (tD1min self) (tD1max self)
                (draws w (drawn w)) En) as Hr.
  intro_let A r; intro_let A vt0; intro_let A f1; intro_let A vd1;
  intro_let A f2; intro_let A vct.
  destruct (visTarget self !! key) as [img|]; [|discriminate A].
  intro_let A f3; intro_let A vd2; intro_let A keys. subst keys.
  assert (H01 : vt0 <= f1)
    by (unfold f1; eapply Qle_trans; [apply after_ge | apply next_retrace_ge]).
  assert (Hr1 : vt0 + inject_Z r / 1000 - ft <= f1).
  { unfold f1. eapply Qle_trans; [| apply next_retrace_ge].
    eapply Qle_trans; [| apply after_reach]. lra. }
  assert (H12 : f1 <= f2)
    by (unfold f2; eapply Qle_trans; [apply after_ge | apply next_retrace_ge]).
  assert (H23 : f2 <= f3)
    by (unfold f3; eapply Qle_trans; [apply after_ge | apply next_retrace_ge]).
  assert (Hfin : ∀ c (b := next_retrace vs c)
                   (e := if short then b
                         else next_retrace vs (after (vt0 + 4.0 - b - ft) b)),
             c <= b ∧ b <= e).
  { intros c0 b0 e0. split; [apply next_retrace_ge|].
    unfold e0. destruct short; [lra|].
    eapply Qle_trans; [apply after_ge | apply next_retrace_ge]. }
  destruct (first_key mw (keyboard w)) as [[k dt]|] eqn:Ek.
  - destruct (bool_decide (k = "escape")) eqn:Eesc.
    { intro_let A c; intro_let A vrt; intro_let A b; intro_let A e;
    intro_let A vtf. destruct A as (_ & _ & _ & _ & _ & _ & Hout).
      discriminate Hout. }
    destruct (bool_decide (k = "0")) eqn:Ezero.
    { intro_let A c; intro_let A vrt; intro_let A b; intro_let A e;
    intro_let A vtf. destruct A as (_ & _ & _ & _ & _ & _ & Hout).
      discriminate Hout. }
    intro_let A c; intro_let A vrt; intro_let A b; intro_let A e;
    intro_let A vtf.
    destruct A as (Htr & Hnow & Hvs & Hdr & Hdn & Hkb & Hout).
    injection Hout as ->.
    exists r, f1, f2, f3, c, b, e, (GotKey k c (tdir cond)).
    cbn [condition wt t0 d1 ct d2 rt tf resp fst].
    destruct (Hfin c) as [Hcb Hbe].
    assert (Hdt : 0 <= dt).
    { unfold first_key in Ek. destruct (keyboard w) as [|[[k' dt']|] ?];
        try discriminate Ek.
      destruct (Qle_bool 0 dt') eqn:E0; [|discriminate Ek].
      destruct (negb _); [|discriminate Ek].
      injection Ek as _ <-. apply Qle_bool_iff. exact E0. }
    repeat split; try assumption; try reflexivity; try lia.
    + unfold c. lra.
    + right. exists k, dt.
      apply bool_decide_eq_false in Eesc, Ezero.
      repeat split; assumption || reflexivity.
    + rewrite Htr. destruct short; cbn [app]; rewrite <- ?app_assoc;
        reflexivity.
  - intro_let A c; intro_let A vrt; intro_let A b; intro_let A e;
    intro_let A vtf.
    destruct A as (Htr & Hnow & Hvs & Hdr & Hdn & Hkb & Hout).
    injection Hout as ->.
    exists r, f1, f2, f3, c, b, e, TIMEOUT.
    cbn [condition wt t0 d1 ct d2 rt tf resp fst].
    destruct (Hfin c) as [Hcb Hbe].
    repeat split; try assumption; try reflexivity; try lia.
    + unfold c. apply after_ge.
    + left. repeat split; first [exact Ek | reflexivity].
    + rewrite Htr. destruct short; cbn [app]; rewrite <- ?app_assoc;
        reflexivity.
Qed.

Lemma per_mille_le (a b : Z) :
  (a <= b)%Z → inject_Z a / 1000 <= inject_Z b / 1000.
Proof.
  intros H. rewrite Zle_Qle in H.
  apply Qmult_le_compat_r; [exact H | discriminate].
Qed.


(** ** Reading traces *)

Lemma omap_calls {A} (f : Event → option A) tr :
  (∀ s, f (Draw s) = None) → omap f (calls tr) = omap f tr.
Proof.
  intros Hf. induction tr as [|e tr IH]; [reflexivity|].
  unfold calls in *.
  destruct e; cbn; rewrite ?Hf, IH; reflexivity.
Qed.

Lemma windows_calls tr : windows (calls tr) = windows tr.
Proof. apply omap_calls. reflexivity. Qed.

Lemma keys_got_calls tr : keys_got (calls tr) = keys_got tr.
Proof. apply omap_calls. reflexivity. Qed.

Lemma logged_calls tr : logged (calls tr) = logged tr.
Proof. apply omap_calls. reflexivity. Qed.

(** ** The conditions of an experiment *)

Lemma enumerate_48 :
  enumerate_procedures (replicate 48 Bunch0) =
  cue ← ["no"; "spatial"; "center"; "double"];
  tloc ← ["top"; "bottom"];
  tdir ← ["left"; "right"];
  flank ← ["incongruent"; "neutral"; "congruent"];
  [Bunch_condition cue tloc tdir flank].
Proof. vm_compute. reflexivity. Qed.

Lemma init_procedures mon ws rr st lf dummy orig w self w' cond :
  __init__ mon ws rr st lf dummy orig w = (Ret self, w') →
  cond ∈ procedures self →
  cue cond ∈ ["no"; "spatial"; "center"; "double"]
  ∧ tloc cond ∈ ["top"; "bottom"] ∧ tdir cond ∈ ["left"; "right"]
  ∧ flank cond ∈ ["incongruent"; "neutral"; "congruent"].
Proof.
  intros Hinit Hc.
  destruct (init_fields _ _ _ _ _ _ _ _ _ _ Hinit)
    as (_ & _ & _ & _ & _ & _ & _ & _ & _ & _ & Hp).
  rewrite Hp, enumerate_48 in Hc.
  apply list_elem_of_bind in Hc as (c & Hc & Hcu).
  apply list_elem_of_bind in Hc as (l & Hc & Hl).
  apply list_elem_of_bind in Hc as (d & Hc & Hd).
  apply list_elem_of_bind in Hc as (f & Hc & Hf).
  apply list_elem_of_singleton in Hc. subst cond. cbn.
  auto.
Qed.

(** ** The outcome of a trial of an experiment built by [__init__] *)

Lemma trial_outcome mon ws rr st lf dummy orig w0 self w1 cond short w out w' :
  __init__ mon ws rr st lf dummy orig w0 = (Ret self, w1) →
  cond ∈ procedures self →
  _oneProcedure self cond short w = (out, w') →
  (captured self w = None →
   ∃ res, out = Ret (Some res) ∧ resp res = None ∧ condition res = cond)
  ∧ (∀ k dt, captured self w = Some (k, dt) →
       (k = "escape" → out = Ret None)
       ∧ (k = "0" → out = Raise (UnboundLocalError "resp"))
       ∧ (k ≠ "escape" → k ≠ "0" →
          ∃ res, out = Ret (Some res) ∧ condition res = cond
                 ∧ resp res = Some (if accepted cond k then "OK" else "NOK")))
  ∧ keys_got (trace w') =
      keys_got (trace w)
      ++ match captured self w with Some (k, _) => [k] | None => [] end
  ∧ logged (trace w') = logged (trace w)
  ∧ windows (trace w') = windows (trace w) ++ [response_window self]
  ∧ vsync w' = vsync w ∧ draws w' = draws w ∧ drawn w' = S (drawn w)
  ∧ keyboard w' = tail (keyboard w).
Proof.
  intros Hinit Hc H.
  destruct (init_procedures _ _ _ _ _ _ _ _ _ _ _ Hinit Hc)
    as (_ & Hl & Hd & Hf).
  destruct (init_visTarget _ _ _ _ _ _ _ _ _ _ _ _ _ Hinit Hl Hd Hf)
    as (img & _ & Himg).
  destruct (init_fields _ _ _ _ _ _ _ _ _ _ Hinit)
    as (_ & _ & _ & _ & _ & Hmin & Hmax & _).
  pose proof (trial_anatomy _ _ _ _ _ _ H) as A.
  intro_let A ft; intro_let A vs; intro_let A key; intro_let A mw;
  intro_let A n.
  subst n. rewrite Hmin, Hmax in A.
  change ((1600 - 400 + 10 - 1) / 10 <=? 0)%Z with false in A.
  cbv iota in A.
  intro_let A r; intro_let A vt0; intro_let A f1; intro_let A vd1;
  intro_let A f2; intro_let A vct.
  subst key. rewrite Himg in A.
  intro_let A f3; intro_let A vd2; intro_let A keys.
  change keys with (captured self w) in *. clear keys.
  intro_let A c; intro_let A vrt; intro_let A b; intro_let A e;
  intro_let A vtf.
  destruct A as (Htr & _ & Hvs & Hdr & Hdn & Hkb & Hout).
  assert (Hcalls :
    ∀ {A} (f : Event → option A), (∀ s, f (Draw s) = None) →
      omap f (trace w') = omap f (calls (trace w')))
    by (intros; symmetry; apply omap_calls; assumption).
  split; [|split; [|split; [|split; [|split]]]].
  - intros E. rewrite E in Hout. eexists. split; [exact Hout|].
    split; reflexivity.
  - intros k dt E. rewrite E in Hout.
    split; [|split].
    + intros ->. exact Hout.
    + intros ->. exact Hout.
    + intros Hesc Hzero.
      rewrite (bool_decide_eq_false_2 _ Hesc) in Hout.
      rewrite (bool_decide_eq_false_2 _ Hzero) in Hout.
      eexists. split; [exact Hout|]. split; reflexivity.
  - unfold keys_got. rewrite Hcalls by reflexivity. rewrite Htr.
    rewrite !omap_app. rewrite omap_calls by reflexivity.
    f_equal.
    destruct (captured self w) as [[k dt]|]; cbn;
      [destruct (bool_decide (k = "escape"));
       [|destruct (bool_decide (k = "0"))]|];
      destruct short; reflexivity.
  - unfold logged. rewrite Hcalls by reflexivity. rewrite Htr.
    rewrite !omap_app. rewrite omap_calls by reflexivity.
    rewrite <- (app_nil_r (omap _ (trace w))) at 2. f_equal.
    destruct (captured self w) as [[k dt]|]; cbn;
      [destruct (bool_decide (k = "escape"));
       [|destruct (bool_decide (k = "0"))]|];
      destruct short; reflexivity.
  - unfold windows. rewrite Hcalls by reflexivity. rewrite Htr.
    rewrite !omap_app. rewrite omap_calls by reflexivity.
    f_equal.
    destruct (captured self w) as [[k dt]|]; cbn;
      [destruct (bool_decide (k = "escape"));
       [|destruct (bool_decide (k = "0"))]|];
      destruct short; reflexivity.
  - auto.
Qed.

(** ** C9: the congruency policy of the target composites *)



(** ** C2: the response latency is measured from the target onset *)


Ltac run_concrete :=
  match goal with
  | |- ∃ res w', ?run = _ ∧ _ =>
      let v := eval vm_compute in run in
      match v with
      | (Ret (Some ?r), ?w) => exists r, w
      end
  end.


(** ** C3: stage boundaries and the fixation delay *)




(** ** C7: the pad flip *)

(** C7 as stated fails: on a 59.94 Hz display a trial that starts at
    clock time 0 ends with its pad flip at [11950/2997] (3.987 s), the last
    retrace before [t0 + 4.0], earlier than the deadline. *)
Lemma C7_counterexample :
  ∃ res w' e,
    _oneProcedure (exp_at (2997 / 50) false) cond_left false
      (world_of (2997 / 50) 0 "a" 0.1) = (Ret (Some res), w')
    ∧ t0 res == 0
    ∧ last (flips (trace w')) = Some e
    ∧ e == 11950 / 2997 ∧ e < t0 res + 4.0
    ∧ tf res == 11950 / 2997 ∧ ¬ tf res == 4.0.
Proof.
  match goal with
  | |- ∃ res w' e, ?run = _ ∧ _ =>
      let v := eval vm_compute in run in
      match v with
      | (Ret (Some ?r), ?w) =>
          let f := eval vm_compute in (last (flips (trace w))) in
          match f with
          | Some ?e => exists r, w, e
          end
      end
  end.
  split; [vm_compute; reflexivity|].
  repeat split; try (vm_compute; reflexivity); vm_compute; discriminate.
Qed.

(** C7, amended.  When short mode is not requested, the trial ends with a
    pad flip aimed at [t0 + 4.0] (the literal of line 344), whatever the
    response time: the program waits until one frame before that deadline,
    flips once at the first retrace after the wait and records [tf] as the
    time of that flip since [t0].  The flip is not earlier than one frame
    before the deadline; on a display whose retrace period is the frame
    time, and when the wait starts in time, it is later than one frame
    before the deadline and not later than the deadline.  In short mode
    the last flip is the blank flip that follows the response with no
    wait, and [tf] is the clock time since [t0]. *)
Theorem C7_final_flip self cond short w res w' :
  _oneProcedure self cond short w = (Ret (Some res), w') →
  ∃ pre c b,
    b = next_retrace (vsync w) c
    ∧ if short then
        calls (trace w') =
          calls (trace w) ++ pre ++ [GetTime c; Flip b; GetTime b]
        ∧ tf res == b - t0 res
        ∧ now w' = b
      else
        ∃ e,
          calls (trace w') =
            calls (trace w) ++ pre
            ++ [GetTime c; Flip b; GetTime b;
                Wait (t0 res + 4.0 - b - frameTime self)
                     (frameTime self / 2);
                Flip e; GetTime e]
          ∧ e = next_retrace (vsync w)
                  (after (t0 res + 4.0 - b - frameTime self) b)
          ∧ tf res == e - t0 res
          ∧ now w' = e
          ∧ t0 res + 4.0 - frameTime self <= e
          ∧ (0 < vsync w → vsync w == frameTime self →
             b <= t0 res + 4.0 - frameTime self →
             t0 res + 4.0 - frameTime self < e ∧ e <= t0 res + 4.0).
Proof.
  intros H.
  destruct (trial_record _ _ _ _ _ _ H)
    as (r & f1 & f2 & f3 & c & b & e & line & A).
  cbv zeta in A.
  destruct A as (_ & _ & _ & _ & _ & _ & _ & _ & _ & Htf & _ & _ & Hb & He
                 & _ & Htr & Hnow & _).
  match type of Htr with
  | _ = _ ++ (?e1 :: ?e2 :: ?e3 :: ?e4 :: ?e5 :: ?e6 :: ?e7 :: ?e8 :: ?e9
              :: ?e10 :: ?e11 :: ?e12 :: ?e13 :: ?e14 :: ?e15 :: ?e16
              :: ?e17 :: _) ++ _ =>
      exists [e1; e2; e3; e4; e5; e6; e7; e8; e9; e10; e11; e12; e13; e14;
              e15; e16; e17], c, b
  end.
  split; [exact Hb|].
  destruct short.
  - subst e. repeat split.
    + rewrite Htr. reflexivity.
    + rewrite Htf. reflexivity.
    + exact Hnow.
  - exists e. split; [|split; [|split; [|split; [|split]]]].
    + rewrite Htr. reflexivity.
    + exact He.
    + rewrite Htf. reflexivity.
    + exact Hnow.
    + rewrite He.
      eapply Qle_trans; [| apply next_retrace_ge].
      eapply Qle_trans; [| apply after_reach].
      lra.
    + intros Hvs Hft Hbd. rewrite He.
      assert (Ha : after (t0 res + 4.0 - b - frameTime self) b
                   == t0 res + 4.0 - frameTime self).
      { unfold after. destruct (Qle_bool _ 0) eqn:E; [|lra].
        apply Qle_bool_iff in E. lra. }
      pose proof (next_retrace_gt (vsync w)
                    (after (t0 res + 4.0 - b - frameTime self) b) Hvs).
      pose proof (next_retrace_le (vsync w)
                    (after (t0 res + 4.0 - b - frameTime self) b) Hvs).
      split; lra.
Qed.

Lemma C7_final_flip_witness :
  ∃ res w',
    _oneProcedure exp60 cond_left false world_1s = (Ret (Some res), w')
    ∧ tf res == now w' - t0 res
    ∧ t0 res == 0 ∧ t0 res + d1 res + ct res + d2 res + rt res == 1
    ∧ t0 res + 4.0 - frameTime exp60 < now w' ∧ now w' <= t0 res + 4.0.
Proof.
  destruct (_oneProcedure exp60 cond_left false world_1s)
    as [[[res|]|err] w'] eqn:E;
    [| vm_compute in E; discriminate E | vm_compute in E; discriminate E].
  destruct (C7_final_flip _ _ _ _ _ _ E)
    as (pre & c & b & _ & e & _ & _ & Htf & Hnow & _).
  exists res, w'. split; [reflexivity|].
  split; [rewrite Hnow; exact Htf|].
  vm_compute in E. injection E as <- <-.
  repeat split; vm_compute; first [reflexivity | discriminate].
Defined.

(** ** C8: the length of the response window *)

(** C8 as stated fails: at 60 Hz the window of a normal-mode trial is
    [1.7 - 1/60] seconds, not 1700 ms, and a key pressed 1690 ms after the
    target is not captured: the trial is a timeout. *)
Lemma C8_counterexample :
  ∃ res w',
    _oneProcedure exp60 cond_left false world_late = (Ret (Some res), w')
    ∧ head (keyboard world_late) = Some (Some ("a", 1.69))
    ∧ resp res = None
    ∧ Forall2 Qeq (windows (trace w')) [1.7 - 1 / 60]
    ∧ ¬ (1.7 - 1 / 60 == 1.7).
Proof.
  run_concrete. split; [vm_compute; reflexivity|].
  split; [reflexivity|]. split; [reflexivity|].
  split; [vm_compute; repeat constructor|].
  vm_compute. discriminate.
Qed.

(** C8, amended.  Every trial opens one response window, of
    [tOut / 1000 - frameTime] seconds in normal mode and
    [tDummy / 1000 - frameTime] in dummy mode: 1700 ms (700 ms) minus one
    frame of the measured refresh rate, never the full 1700 ms (700 ms);
    a first key pressed at or after that delay is a timeout. *)
Theorem C8_response_window
    mon ws rr st lf dummy orig w0 self w1 cond short w res w' :
  __init__ mon ws rr st lf dummy orig w0 = (Ret self, w1) →
  _oneProcedure self cond short w = (Ret (Some res), w') →
  ∃ maxWait,
    windows (calls (trace w')) = windows (calls (trace w)) ++ [maxWait]
    ∧ maxWait == (if dummy then 0.7 else 1.7) - 1 / rr
    ∧ ¬ (maxWait == (if dummy then 0.7 else 1.7))
    ∧ (∀ k dt, head (keyboard w) = Some (Some (k, dt)) → maxWait <= dt →
       resp res = None).
Proof.
  intros Hinit H.
  destruct (init_fields _ _ _ _ _ _ _ _ _ _ Hinit)
    as (Hrr & Hft & Hdm & _ & _ & _ & _ & Hout & Hdummy & _).
  destruct (trial_record _ _ _ _ _ _ H)
    as (r & f1 & f2 & f3 & c & b & e & line & A).
  cbv zeta in A.
  destruct A as (_ & _ & _ & _ & _ & _ & _ & _ & _ & _ & _ & _ & _ & _
                 & Hkey & Htr & _).
  rewrite Hft, Hdm, Hout, Hdummy in *.
  eexists. split; [|split; [|split]].
  - rewrite Htr. unfold windows. rewrite !omap_app. f_equal.
    destruct short; reflexivity.
  - destruct dummy.
    + assert (E : inject_Z 700 / 1000 == 0.7) by reflexivity.
      rewrite E. reflexivity.
    + assert (E : inject_Z 1700 / 1000 == 1.7) by reflexivity.
      rewrite E. reflexivity.
  - intros E.
    assert (Hz : 1 / rr == 0).
    { destruct dummy.
      - assert (E' : inject_Z 700 / 1000 == 0.7) by reflexivity.
        rewrite E' in E. lra.
      - assert (E' : inject_Z 1700 / 1000 == 1.7) by reflexivity.
        rewrite E' in E. lra. }
    assert (H1 : 1 / rr * rr == 1) by (field; exact Hrr).
    rewrite Hz in H1. lra.
  - intros k dt Hhd Hlate.
    destruct Hkey as [(_ & _ & Hresp & _) | (k' & dt' & Hfk & _)];
      [exact Hresp|].
    exfalso. unfold first_key in Hfk.
    destruct (keyboard w) as [|[[k0 dt0]|] kb]; try discriminate Hfk.
    injection Hhd as -> ->.
    apply Qle_bool_iff in Hlate. rewrite Hlate in Hfk.
    rewrite andb_false_r in Hfk. discriminate Hfk.
Qed.

Lemma C8_response_window_witness :
  ∃ self w1 res w' maxWait,
    __init__ mon50 (1440, 900)%Z 60 0 false false true world60
      = (Ret self, w1)
    ∧ _oneProcedure self cond_left false world_late = (Ret (Some res), w')
    ∧ windows (calls (trace w')) = [maxWait]
    ∧ maxWait == 1.7 - 1 / 60
    ∧ resp res = None.
Proof.
  destruct (init_total mon50 (1440, 900)%Z 60 0 false false true world60
              eq_refl) as (self & w1 & Hinit).
  assert (Hs : self = exp60)
    by (unfold exp60, exp_at; rewrite Hinit; reflexivity).
  destruct (_oneProcedure self cond_left false world_late)
    as [[[res|]|err] w'] eqn:E;
    [| exfalso; rewrite Hs in E; vm_compute in E; discriminate E
     | exfalso; rewrite Hs in E; vm_compute in E; discriminate E].
  destruct (C8_response_window _ _ _ _ _ _ _ _ _ _ _ _ _ _ _ Hinit E)
    as (mw & Hw & Hmw & _ & Hlate).
  exists self, w1, res, w', mw.
  split; [exact Hinit|]. split; [exact E|].
  split; [exact Hw|]. split; [exact Hmw|].
  apply (Hlate "a" 1.69); [reflexivity|].
  rewrite Hmw. vm_compute. discriminate.
Defined.

(** ** C5: the classification of the response *)





(** ** C6: the reserved key *)

(** C6 (the code does not do what the claim says).  In an experiment built
    by [__init__], a trial whose first captured key is the reserved [0]
    waits, then reaches the construction of the record with the local
    [resp] never bound: it raises [UnboundLocalError] and returns no
    record. *)
Theorem C6_null_key_raises
    mon ws rr st lf dummy orig w0 self w1 cond short w dt :
  __init__ mon ws rr st lf dummy orig w0 = (Ret self, w1) →
  cond ∈ procedures self →
  captured self w = Some ("0", dt) →
  fst (_oneProcedure self cond short w) = Raise (UnboundLocalError "resp").
Proof.
  intros Hinit Hc Hk.
  destruct (_oneProcedure self cond short w) as [out w'] eqn:E.
  destruct (trial_outcome _ _ _ _ _ _ _ _ _ _ _ _ _ _ _ Hinit Hc E)
    as (_ & Hsome & _).
  destruct (Hsome "0" dt Hk) as (_ & Hzero & _).
  exact (Hzero eq_refl).
Qed.

Lemma C6_null_key_raises_witness :
  ∃ self w1,
    __init__ mon50 (1440, 900)%Z 60 0 false false true world60
      = (Ret self, w1)
    ∧ captured self world_zero = Some ("0", 0.2)
    ∧ fst (_oneProcedure self cond_left false world_zero)
      = Raise (UnboundLocalError "resp").
Proof.
  destruct (init_total mon50 (1440, 900)%Z 60 0 false false true world60
              eq_refl) as (self & w1 & Hinit).
  assert (Hs : self = exp60)
    by (unfold exp60, exp_at; rewrite Hinit; reflexivity).
  assert (Hc : cond_left ∈ procedures self).
  { rewrite Hs. vm_compute. repeat constructor. }
  assert (Hk : captured self world_zero = Some ("0", 0.2))
    by (rewrite Hs; reflexivity).
  exists self, w1. split; [exact Hinit|]. split; [exact Hk|].
  exact (C6_null_key_raises _ _ _ _ _ _ _ _ _ _ _ _ _ _ Hinit Hc Hk).
Defined.

(** ** The block randomizer: [random.sample] *)

Lemma pool_swap {A} (pool : list A) m j x y :
  (j ≤ m)%nat → pool !! j = Some x → pool !! m = Some y →
  take m (<[j := y]> pool) ++ [x] ≡ₚ take (S m) pool.
Proof.
  intros Hj Hx Hy. rewrite (take_S_r _ _ _ Hy).
  destruct (decide (j = m)) as [->|Hne].
  - rewrite take_insert_ge by lia.
    assert (x = y) by congruence. subst. reflexivity.
  - rewrite take_insert_lt by lia.
    set (T := take m pool).
    assert (Hx' : T !! j = Some x)
      by (unfold T; rewrite lookup_take_lt by lia; exact Hx).
    assert (H1 : <[j := y]> T ≡ₚ y :: delete j T).
    { rewrite insert_take_drop by (apply lookup_lt_Some in Hx'; exact Hx').
      rewrite delete_take_drop. symmetry. apply Permutation_middle. }
    rewrite H1.
    etrans; [| apply Permutation_app;
               [symmetry; apply (delete_Permutation T j x Hx')
               | reflexivity]].
    cbn. rewrite <- !Permutation_cons_append. apply Permutation_swap.
Qed.

Lemma sample_pool_spec {A} n k i (pool result : list A) w :
  length pool = n → (i + k = n)%nat →
  ∃ res,
    sample_pool n k i pool result w =
      (Ret res, mkWorld (now w) (vsync w) (draws w) (drawn w + k)
                        (keyboard w) (trace w))
    ∧ res ≡ₚ result ++ take k pool.
Proof.
  revert i pool result w.
  induction k as [|k IH]; intros i pool result w Hlen Hik.
  - exists result. split.
    + cbn. destruct w; cbn. rewrite Nat.add_0_r. reflexivity.
    + rewrite take_0, app_nil_r. reflexivity.
  - cbn [sample_pool].
    erewrite bind_run by reflexivity. cbv beta.
    set (j := Z.to_nat _).
    assert (Hj : (j ≤ k)%nat).
    { subst j.
      replace (n - i)%nat with (S k) by lia.
      pose proof (int_below (uniform (draws w (drawn w)))
                    (Z.of_nat (S k)) (uniform_range _) ltac:(lia)) as Hb.
      lia. }
    destruct (lookup_lt_is_Some_2 pool j ltac:(lia)) as [x Hx].
    replace (n - i - 1)%nat with k by lia.
    destruct (lookup_lt_is_Some_2 pool k ltac:(lia)) as [y Hy].
    rewrite Hx, Hy.
    destruct (IH (S i) (<[j := y]> pool) (result ++ [x])
                 (mkWorld (now w) (vsync w) (draws w) (S (drawn w))
                          (keyboard w) (trace w)))
      as (res & Hrun & Hperm).
    { rewrite length_insert. exact Hlen. }
    { lia. }
    exists res. split.
    + rewrite Hrun. cbn. do 2 f_equal. f_equal. lia.
    + rewrite Hperm, <- app_assoc.
      apply Permutation_app; [reflexivity|].
      rewrite <- (pool_swap pool k j x y Hj Hx Hy).
      apply Permutation_app_comm.
Qed.

Lemma random_sample_spec n w :
  ∃ order,
    random_sample (seq 0 n) n w =
      (Ret order, mkWorld (now w) (vsync w) (draws w) (drawn w + n)
                          (keyboard w) (trace w))
    ∧ order ≡ₚ seq 0 n.
Proof.
  unfold random_sample. rewrite length_seq.
  rewrite bool_decide_eq_true_2 by lia.
  destruct (sample_pool_spec n n 0 (seq 0 n) [] w) as (order & Hrun & Hperm).
  { apply length_seq. }
  { lia. }
  exists order. split; [exact Hrun|].
  rewrite Hperm. cbn. rewrite firstn_all2 by (rewrite length_seq; lia).
  reflexivity.
Qed.



(** ** The loop of [fullExperiment] *)

Lemma bind_unfold {A B} (m : M A) (k : A → M B) w :
  (m ≫= k) w = match m w with
               | (Ret a, w1) => k a w1
               | (Raise e, w1) => (Raise e, w1)
               end.
Proof. reflexivity. Qed.

Lemma code_warningType_known cond wT w :
  cue cond ∈ ["no"; "spatial"; "center"; "double"] →
  code_warningType cond wT w = (Ret (Some (warning_code (cue cond))), w).
Proof.
  intros H. unfold code_warningType, warning_code.
  cases_of_membership; reflexivity.
Qed.

Lemma code_congruency_known cond cg w :
  flank cond ∈ ["incongruent"; "neutral"; "congruent"] →
  code_congruency cond cg w = (Ret (Some (congruency_code (flank cond))), w).
Proof.
  intros H. unfold code_congruency, congruency_code.
  cases_of_membership; reflexivity.
Qed.

Lemma emit_either (b : bool) e1 e2 w :
  (if b then emit e1 else emit e2) w =
  (Ret (), mkWorld (now w) (vsync w) (draws w) (drawn w) (keyboard w)
             (trace w ++ [if b then e1 else e2])).
Proof. destruct b; reflexivity. Qed.

Lemma block_step self i order expData maxrun wT cg w cond :
  procedures self !! i = Some cond →
  cue cond ∈ ["no"; "spatial"; "center"; "double"] →
  flank cond ∈ ["incongruent"; "neutral"; "congruent"] →
  block_loop self (i :: order) expData maxrun wT cg w =
  match _oneProcedure self cond false w with
  | (Raise e, w1) => (Raise e, w1)
  | (Ret None, w1) => (Ret None, w1)
  | (Ret (Some res), w1) =>
      let w2 :=
        mkWorld (now w1) (vsync w1) (draws w1) (drawn w1) (keyboard w1)
          (trace w1 ++ [if logfile self then LogWrite (ResultLine res)
                        else Stdout (ResultLine res)]) in
      let expData' := <[i := row_of i cond res]> expData in
      match maxrun with
      | Some m =>
          if (m - 1 =? 0)%Z then (Ret (Some expData'), w2)
          else block_loop self order expData' (Some (m - 1)%Z)
                 (Some (warning_code (cue cond)))
                 (Some (congruency_code (flank cond))) w2
      | None =>
          block_loop self order expData' None
            (Some (warning_code (cue cond)))
            (Some (congruency_code (flank cond))) w2
      end
  end.
Proof.
  intros Hi Hcue Hflank. cbn [block_loop].
  erewrite bind_run by (unfold index; rewrite Hi; reflexivity). cbv beta.
  rewrite bind_unfold.
  destruct (_oneProcedure self cond false w) as [[[res|]|e] w1];
    [| reflexivity | reflexivity].
  erewrite bind_run by apply emit_either. cbv beta.
  erewrite bind_run by (unfold index; rewrite Hi; reflexivity). cbv beta.
  erewrite bind_run by (apply code_warningType_known; exact Hcue). cbv beta.
  erewrite bind_run by (apply code_congruency_known; exact Hflank). cbv beta.
  do 2 (erewrite bind_run by reflexivity; cbv beta).
  destruct maxrun as [m|]; [destruct (m - 1 =? 0)%Z|]; reflexivity.
Qed.

Lemma trial_cases mon ws rr st lf dummy orig w0 self w1 cond short w out w' :
  __init__ mon ws rr st lf dummy orig w0 = (Ret self, w1) →
  cond ∈ procedures self →
  _oneProcedure self cond short w = (out, w') →
  ∃ kk,
    keys_got (trace w') = keys_got (trace w) ++ kk
    ∧ logged (trace w') = logged (trace w)
    ∧ ((out = Ret None ∧ kk = ["escape"])
       ∨ (("escape" ∉ kk)
          ∧ (out = Raise (UnboundLocalError "resp")
             ∨ ∃ res, out = Ret (Some res) ∧ condition res = cond))).
Proof.
  intros Hinit Hc H.
  destruct (trial_outcome _ _ _ _ _ _ _ _ _ _ _ _ _ _ _ Hinit Hc H)
    as (Hnone & Hsome & Hkeys & Hlog & _).
  eexists. split; [exact Hkeys|]. split; [exact Hlog|].
  destruct (captured self w) as [[k dt]|].
  - destruct (Hsome k dt eq_refl) as (Hesc & Hzero & Hkey).
    destruct (decide (k = "escape")) as [->|Hne].
    { left. split; [apply Hesc; reflexivity | reflexivity]. }
    right. split.
    { intros Hin. apply list_elem_of_singleton in Hin. congruence. }
    destruct (decide (k = "0")) as [->|Hnz].
    { left. apply Hzero. reflexivity. }
    right. destruct (Hkey Hne Hnz) as (res & Hout & Hcond & _). eauto.
  - right. split; [apply not_elem_of_nil|].
    right. destruct (Hnone eq_refl) as (res & Hout & _ & Hcond). eauto.
Qed.

Lemma consumed_step m n :
  (m - 1 =? 0)%Z = false →
  consumed (Some m) (S n) = S (consumed (Some (m - 1)%Z) n).
Proof.
  intros H. apply Z.eqb_neq in H. unfold consumed.
  destruct (Z.ltb_spec 0 m), (Z.leb_spec m (Z.of_nat (S n))),
           (Z.ltb_spec 0 (m - 1)), (Z.leb_spec (m - 1) (Z.of_nat n));
    cbn [andb]; lia.
Qed.

Lemma consumed_last m n :
  (m - 1 =? 0)%Z = true → consumed (Some m) (S n) = 1%nat.
Proof.
  intros H. apply Z.eqb_eq in H. assert (m = 1%Z) by lia. subst.
  unfold consumed. change (0 <? 1)%Z with true. cbn [andb].
  destruct (Z.leb_spec 1 (Z.of_nat (S n))); [reflexivity | lia].
Qed.

Section Block.
Context (mon : Q → Q) (ws : Z * Z) (rr st : Q) (lf dummy orig : bool).
Context (w0 w1 : World) (self : ANTExp).
Hypothesis Hinit : __init__ mon ws rr st lf dummy orig w0 = (Ret self, w1).

Lemma procedures_length : length (procedures self) = 48%nat.
  Proof.
    destruct (init_fields _ _ _ _ _ _ _ _ _ _ Hinit)
      as (_ & _ & _ & _ & _ & _ & _ & _ & _ & _ & Hp).
    rewrite Hp. reflexivity.
  Qed.

Lemma block_loop_spec order :
    ∀ expData maxrun wT cg w out w',
      Forall (λ i, (i < 48)%nat) order →
      block_loop self order expData maxrun wT cg w = (out, w') →
      ∃ (done : list (nat * TrialResult)) ks,
        logged (trace w') = logged (trace w) ++ done.*2
        ∧ keys_got (trace w') = keys_got (trace w) ++ ks
        ∧ Forall (λ p, procedures self !! p.1 = Some (condition p.2)) done
        ∧ match out with
          | Ret (Some table) =>
              ("escape" ∉ ks)
              ∧ done.*1 = take (consumed maxrun (length order)) order
              ∧ table = foldl store expData done
          | Ret None =>
              (∃ ks0, ks = ks0 ++ ["escape"] ∧ "escape" ∉ ks0)
              ∧ done.*1 `prefix_of` order
          | Raise e => "escape" ∉ ks
          end.
  Proof.
    induction order as [|i order IH];
      intros expData maxrun wT cg w out w' Hord H.
    { cbn in H. injection H as <- <-. exists [], [].
      rewrite !app_nil_r. repeat split; try constructor.
      - apply not_elem_of_nil.
      - rewrite take_nil. reflexivity. }
    apply Forall_cons in Hord as [Hi Hord].
    destruct (lookup_lt_is_Some_2 (procedures self) i) as [cond Hcond];
      [rewrite procedures_length; exact Hi|].
    assert (Hc : cond ∈ procedures self)
      by (eapply list_elem_of_lookup_2; exact Hcond).
    destruct (init_procedures _ _ _ _ _ _ _ _ _ _ _ Hinit Hc)
      as (Hcue & _ & _ & Hflank).
    rewrite (block_step _ _ _ _ _ _ _ _ _ Hcond Hcue Hflank) in H.
    destruct (_oneProcedure self cond false w) as [out1 w2] eqn:E1.
    destruct (trial_cases _ _ _ _ _ _ _ _ _ _ _ _ _ _ _ Hinit Hc E1)
      as (kk & Hkeys & Hlog & [[-> ->] | [Hkk [-> | (res & -> & Hres)]]]).
    - injection H as <- <-. exists [], ["escape"].
      rewrite app_nil_r. split; [exact Hlog|]. split; [exact Hkeys|].
      split; [constructor|]. split; [|apply prefix_nil].
      exists []. split; [reflexivity | apply not_elem_of_nil].
    - injection H as <- <-. exists [], kk.
      rewrite app_nil_r. repeat split; try assumption; constructor.
    - cbv zeta in H.
      set (w3 := mkWorld _ _ _ _ _ _) in H.
      assert (Hlog3 : logged (trace w3) = logged (trace w) ++ [res]).
      { unfold w3. cbn [trace]. unfold logged. rewrite omap_app.
        fold (logged (trace w2)). rewrite Hlog.
        destruct (logfile self); reflexivity. }
      assert (Hkeys3 : keys_got (trace w3) = keys_got (trace w) ++ kk).
      { unfold w3. cbn [trace]. unfold keys_got. rewrite omap_app.
        fold (keys_got (trace w2)). rewrite Hkeys.
        destruct (logfile self); cbn; rewrite app_nil_r; reflexivity. }
      assert (Hcont :
        ∀ mr', block_loop self order (<[i := row_of i cond res]> expData) mr'
                 (Some (warning_code (cue cond)))
                 (Some (congruency_code (flank cond))) w3 = (out, w') →
               consumed maxrun (S (length order))
               = S (consumed mr' (length order)) →
               ∃ (done : list (nat * TrialResult)) ks,
                 logged (trace w') = logged (trace w) ++ done.*2
                 ∧ keys_got (trace w') = keys_got (trace w) ++ ks
                 ∧ Forall (λ p, procedures self !! p.1
                                = Some (condition p.2)) done
                 ∧ match out with
                   | Ret (Some table) =>
                       ("escape" ∉ ks)
                       ∧ done.*1 = take (consumed maxrun
                                           (length (i :: order)))
                                        (i :: order)
                       ∧ table = foldl store expData done
                   | Ret None =>
                       (∃ ks0, ks = ks0 ++ ["escape"] ∧ "escape" ∉ ks0)
                       ∧ done.*1 `prefix_of` (i :: order)
                   | Raise e => "escape" ∉ ks
                   end).
      { intros mr' Hrun Hcons.
        destruct (IH _ _ _ _ _ _ _ Hord Hrun)
          as (done & ks & Hl & Hk & Hd & Hout).
        exists ((i, res) :: done), (kk ++ ks).
        split; [rewrite Hl, Hlog3, <- app_assoc; reflexivity|].
        split; [rewrite Hk, Hkeys3, <- app_assoc; reflexivity|].
        split; [constructor; [cbn; rewrite Hres; exact Hcond | exact Hd]|].
        destruct out as [[table|]|e].
        - destruct Hout as (Hesc & Htake & Htab).
          split; [rewrite elem_of_app; tauto|].
          split.
          + cbn [length]. rewrite Hcons. cbn. rewrite Htake. reflexivity.
          + change (table = foldl store
                      (<[i := row_of i (condition res) res]> expData) done).
            rewrite Hres. exact Htab.
        - destruct Hout as ((ks0 & -> & Hesc) & Hpre).
          split; [| cbn; apply prefix_cons; exact Hpre].
          exists (kk ++ ks0). split; [apply app_assoc|].
          rewrite elem_of_app. tauto.
        - rewrite elem_of_app. tauto. }
      destruct maxrun as [m|].
      + destruct (m - 1 =? 0)%Z eqn:Em.
        * injection H as <- <-. exists [(i, res)], kk.
          split; [exact Hlog3|]. split; [exact Hkeys3|].
          split; [constructor; [cbn; rewrite Hres; exact Hcond
                               | constructor]|].
          split; [exact Hkk|].
          split; [| cbn; unfold store; cbn; rewrite Hres; reflexivity].
          cbn [length]. rewrite (consumed_last _ _ Em). reflexivity.
        * apply (Hcont _ H). apply consumed_step. exact Em.
      + apply (Hcont _ H). reflexivity.
  Qed.
End Block.

(** ** The table of a block *)

Lemma foldl_store_length done : ∀ d, length (foldl store d done) = length d.
Proof.
  induction done as [|p done IH]; intros d; [reflexivity|].
  cbn. rewrite IH. apply length_insert.
Qed.

Lemma foldl_store_other done : ∀ d j,
  j ∉ done.*1 → foldl store d done !! j = d !! j.
Proof.
  induction done as [|p done IH]; intros d j Hj; [reflexivity|].
  cbn in *. apply not_elem_of_cons in Hj as [Hne Hj].
  rewrite IH by exact Hj. unfold store.
  apply list_lookup_insert_ne. congruence.
Qed.

Lemma foldl_store_lookup done : ∀ d i res,
  NoDup done.*1 → (i, res) ∈ done → (i < length d)%nat →
  foldl store d done !! i = Some (row_of i (condition res) res).
Proof.
  induction done as [|p done IH]; intros d i res Hnd Hin Hlen.
  { apply elem_of_nil in Hin as []. }
  cbn in *. apply NoDup_cons in Hnd as [Hp Hnd].
  apply elem_of_cons in Hin as [<- | Hin].
  - rewrite foldl_store_other by exact Hp.
    unfold store. cbn. apply list_lookup_insert_eq. exact Hlen.
  - apply IH; [exact Hnd | exact Hin |].
    unfold store. rewrite length_insert. exact Hlen.
Qed.

Lemma completed_all (l : list (list Q)) :
  Forall (λ row, ∃ p, row = row_of p.1 (condition p.2) p.2) l →
  completed l = l.
Proof.
  induction 1 as [|row l [p ->] _ IH]; [reflexivity|].
  unfold completed in *. cbn. rewrite IH. reflexivity.
Qed.

Section Experiment.
Context (mon : Q → Q) (ws : Z * Z) (rr st : Q) (lf dummy orig : bool).
Context (w0 w1 : World) (self : ANTExp).
Hypothesis Hinit : __init__ mon ws rr st lf dummy orig w0 = (Ret self, w1).

Lemma fullExperiment_spec maxrun w out w' :
    fullExperiment self maxrun w = (out, w') →
    ∃ order (done : list (nat * TrialResult)) ks,
      fst (random_sample (seq 0 48) 48 w) = Ret order
      ∧ order ≡ₚ seq 0 48
      ∧ logged (trace w') = logged (trace w) ++ done.*2
      ∧ keys_got (trace w') = keys_got (trace w) ++ ks
      ∧ Forall (λ p, procedures self !! p.1 = Some (condition p.2)) done
      ∧ match out with
        | Ret (Some table) =>
            ("escape" ∉ ks)
            ∧ done.*1 = take (consumed maxrun 48) order
            ∧ table = completed (foldl store (np_zeros 48 11) done)
        | Ret None =>
            (∃ ks0, ks = ks0 ++ ["escape"] ∧ "escape" ∉ ks0)
            ∧ done.*1 `prefix_of` order
        | Raise e => "escape" ∉ ks
        end.
  Proof.
    intros H. unfold fullExperiment in H.
    rewrite (procedures_length _ _ _ _ _ _ _ _ _ _ Hinit) in H.
    destruct (random_sample_spec 48 w) as (order & Hs & Hperm).
    erewrite bind_run in H by exact Hs. cbv beta in H.
    rewrite bind_unfold in H.
    destruct (block_loop _ _ _ _ _ _ _) as [out2 w2] eqn:E.
    assert (Hord : Forall (λ i, (i < 48)%nat) order).
    { rewrite Hperm. apply Forall_forall. intros i Hi.
      apply elem_of_seq in Hi. lia. }
    destruct (block_loop_spec _ _ _ _ _ _ _ _ _ _ Hinit _ _ _ _ _ _ _ _
                Hord E) as (done & ks & Hl & Hk & Hd & Hout).
    cbn [trace] in Hl, Hk.
    assert (Hlen : length order = 48%nat)
      by (rewrite Hperm; apply length_seq).
    rewrite Hlen in Hout.
    exists order, done, ks.
    split; [rewrite Hs; reflexivity|]. split; [exact Hperm|].
    destruct out2 as [[table|]|e]; injection H as <- <-;
      (split; [exact Hl|]); (split; [exact Hk|]); (split; [exact Hd|]).
    - destruct Hout as (He & Ht & ->). auto.
    - exact Hout.
    - exact Hout.
  Qed.
End Experiment.

(** ** C4: the block randomizer *)




(** ** C10: the rows of a completed block *)

(** C10.  The table of a block that ran all of its 48 trials has 48 rows,
    and the row at index [i] is the row of the trial that ran condition
    [i], with [i] in its trialIndex field and 1 in its completeFlag
    field, whatever the position of that trial in the order of
    execution. *)
Theorem C10_rows_by_condition_index
    mon ws rr st lf dummy orig w0 self w1 maxrun w table w' :
  __init__ mon ws rr st lf dummy orig w0 = (Ret self, w1) →
  fullExperiment self maxrun w = (Ret (Some table), w') →
  consumed maxrun 48 = 48%nat →
  length table = 48%nat
  ∧ ∃ done : list (nat * TrialResult),
      logged (trace w') = logged (trace w) ++ done.*2
      ∧ Ret done.*1 = fst (random_sample (seq 0 48) 48 w)
      ∧ done.*1 ≡ₚ seq 0 48
      ∧ (∀ i res, (i, res) ∈ done →
           procedures self !! i = Some (condition res)
           ∧ table !! i = Some (row_of i (condition res) res))
      ∧ (∀ i, (i < 48)%nat →
           ∃ row, table !! i = Some row
                  ∧ row !! 1%nat = Some (inject_Z (Z.of_nat i))
                  ∧ row !! 10%nat = Some 1).
Proof.
  intros Hinit H Hfull.
  destruct (fullExperiment_spec _ _ _ _ _ _ _ _ _ _ Hinit _ _ _ _ H)
    as (order & done & ks & Hs & Hperm & Hl & _ & Hd & _ & Ht & ->).
  assert (Hlen : length order = 48%nat)
    by (rewrite Hperm; apply length_seq).
  rewrite Hfull, <- Hlen, firstn_all in Ht.
  assert (Hperm' : done.*1 ≡ₚ seq 0 48) by (rewrite Ht; exact Hperm).
  assert (Hnd : NoDup done.*1) by (rewrite Hperm'; apply NoDup_seq).
  set (d := foldl store (np_zeros 48 11) done).
  assert (Hdlen : length d = 48%nat)
    by (unfold d; rewrite foldl_store_length; reflexivity).
  assert (Hrow : ∀ i, (i < 48)%nat →
            ∃ res, (i, res) ∈ done
                   ∧ d !! i = Some (row_of i (condition res) res)).
  { intros i Hi.
    assert (Hin : i ∈ done.*1)
      by (rewrite Hperm'; apply elem_of_seq; lia).
    apply list_elem_of_fmap in Hin as ([i' res] & -> & Hin).
    exists res. split; [exact Hin|].
    apply foldl_store_lookup; [exact Hnd | exact Hin |].
    unfold np_zeros. rewrite length_replicate. exact Hi. }
  assert (Hall : completed d = d).
  { apply completed_all. apply Forall_lookup. intros j row Hj.
    destruct (Hrow j) as (res & _ & Hr).
    { apply lookup_lt_Some in Hj. lia. }
    exists (j, res). cbn. congruence. }
  rewrite Hall.
  split; [exact Hdlen|].
  exists done.
  split; [exact Hl|]. split; [rewrite Ht, Hs; reflexivity|].
  split; [exact Hperm'|]. split.
  - intros i res Hin. split.
    + rewrite Forall_forall in Hd. apply (Hd (i, res) Hin).
    + apply foldl_store_lookup; [exact Hnd | exact Hin |].
      unfold np_zeros. rewrite length_replicate.
      assert (Hi : i ∈ done.*1)
        by (apply list_elem_of_fmap; exists (i, res); auto).
      rewrite Hperm' in Hi. apply elem_of_seq in Hi. lia.
  - intros i Hi. destruct (Hrow i Hi) as (res & _ & Hr).
    eexists. split; [exact Hr|]. split; reflexivity.
Qed.

Lemma C10_rows_by_condition_index_witness :
  ∃ self w1 table w',
    __init__ mon50 (1440, 900)%Z 60 0 false false true world60
      = (Ret self, w1)
    ∧ fullExperiment self None world60 = (Ret (Some table), w')
    ∧ length table = 48%nat
    ∧ ∀ i, (i < 48)%nat →
        ∃ row, table !! i = Some row
               ∧ row !! 1%nat = Some (inject_Z (Z.of_nat i)).
Proof.
  destruct (init_total mon50 (1440, 900)%Z 60 0 false false true world60
              eq_refl) as (self & w1 & Hinit).
  assert (Hs : self = exp60)
    by (unfold exp60, exp_at; rewrite Hinit; reflexivity).
  assert (Hrun : returned_table (fst (fullExperiment self None world60))
                 = true)
    by (rewrite Hs; vm_compute; reflexivity).
  destruct (fullExperiment self None world60) as [[[table|]|e] w'] eqn:E;
    try discriminate Hrun.
  destruct (C10_rows_by_condition_index _ _ _ _ _ _ _ _ _ _ _ _ _ _
              Hinit E eq_refl) as (Hlen & done & _ & _ & _ & _ & Hrows).
  exists self, w1, table, w'.
  split; [exact Hinit|]. split; [exact E|]. split; [exact Hlen|].
  intros i Hi. destruct (Hrows i Hi) as (row & Hr & Hidx & _). eauto.
Defined.

(** ** C1: a block that is aborted *)

(** C1 as stated fails: in a block in which the subject answers three
    targets and then presses [escape], three trials are completed (and
    logged) strictly before the abort, and [fullExperiment] returns [None],
    not a table of those three rows. *)
Lemma C1_counterexample :
  keys_got (trace (snd (fullExperiment exp60 None world_abort)))
    = ["a"; "a"; "a"; "escape"]
  ∧ length (logged (trace (snd (fullExperiment exp60 None world_abort))))
    = 3%nat
  ∧ fst (fullExperiment exp60 None world_abort) = Ret None
  ∧ ∀ table, fst (fullExperiment exp60 None world_abort)
             ≠ Ret (Some table).
Proof.
  split; [vm_compute; reflexivity|].
  split; [vm_compute; reflexivity|].
  assert (H : fst (fullExperiment exp60 None world_abort) = Ret None)
    by (vm_compute; reflexivity).
  split; [exact H|]. intros table. rewrite H. discriminate.
Qed.

(** C1, amended.  A block returns [None], and no table, exactly when the
    user aborted one of its trials with [escape]: the trials completed
    before the abort have been logged but none of them is returned, and
    the aborted trial is the last one run. *)
Theorem C1_abort_returns_none
    mon ws rr st lf dummy orig w0 self w1 maxrun w out w' :
  __init__ mon ws rr st lf dummy orig w0 = (Ret self, w1) →
  fullExperiment self maxrun w = (out, w') →
  ∃ (done : list TrialResult) ks,
    logged (trace w') = logged (trace w) ++ done
    ∧ keys_got (trace w') = keys_got (trace w) ++ ks
    ∧ ("escape" ∈ ks ↔ out = Ret None)
    ∧ (out = Ret None → ∃ ks0, ks = ks0 ++ ["escape"] ∧ "escape" ∉ ks0).
Proof.
  intros Hinit H.
  destruct (fullExperiment_spec _ _ _ _ _ _ _ _ _ _ Hinit _ _ _ _ H)
    as (order & done & ks & _ & _ & Hl & Hk & _ & Hout).
  exists done.*2, ks. split; [exact Hl|]. split; [exact Hk|].
  destruct out as [[table|]|e].
  - destruct Hout as (Hesc & _). split; [|discriminate].
    split; [contradiction | discriminate].
  - destruct Hout as ((ks0 & -> & Hesc) & _). split.
    + split; [reflexivity|]. intros _. apply elem_of_app. right.
      constructor.
    + intros _. eauto.
  - split; [|discriminate]. split; [contradiction | discriminate].
Qed.

Lemma C1_abort_returns_none_witness :
  ∃ self w1 w',
    __init__ mon50 (1440, 900)%Z 60 0 false false true world60
      = (Ret self, w1)
    ∧ fullExperiment self None world_abort = (Ret None, w')
    ∧ "escape" ∈ keys_got (trace w').
Proof.
  destruct (init_total mon50 (1440, 900)%Z 60 0 false false true world60
              eq_refl) as (self & w1 & Hinit).
  assert (Hs : self = exp60)
    by (unfold exp60, exp_at; rewrite Hinit; reflexivity).
  assert (Hrun : fst (fullExperiment self None world_abort) = Ret None)
    by (rewrite Hs; vm_compute; reflexivity).
  destruct (fullExperiment self None world_abort) as [out w'] eqn:E.
  cbn in Hrun. subst out.
  destruct (C1_abort_returns_none _ _ _ _ _ _ _ _ _ _ _ _ _ _ Hinit E)
    as (done & ks & _ & Hk & Hiff & _).
  exists self, w1, w'. split; [exact Hinit|]. split; [exact E|].
  rewrite Hk. apply elem_of_app. right. apply Hiff. reflexivity.
Defined.

(** * Further properties of the code *)

(** ** The experiment [__init__] builds, on any input *)

(** X1.  [__init__] divides by the refresh rate before it writes anything:
    with a refresh rate of zero it raises [ZeroDivisionError] and leaves the
    world as it was (no header line); with any other rate it returns an
    experiment and its only effect is the header line, written to the log
    file if one was given and printed otherwise.  It reads no clock, no
    key and no random number. *)
Theorem init_refresh_rate mon ws rr st lf dummy orig w :
  if Qeq_bool rr 0
  then __init__ mon ws rr st lf dummy orig w = (Raise ZeroDivisionError, w)
  else ∃ self,
      __init__ mon ws rr st lf dummy orig w =
      (Ret self,
       mkWorld (now w) (vsync w) (draws w) (drawn w) (keyboard w)
         (trace w ++ [if lf then LogWrite Header else Stdout Header])).
Proof.
  destruct (Qeq_bool rr 0) eqn:Hrr.
  - unfold __init__. unfold mbind, M_bind, raise. rewrite Hrr. reflexivity.
  - unfold __init__. unfold mbind, M_bind, mret, M_ret, raise, lift.
    rewrite Hrr. pose proof (build_reference_Ret dummy) as Hb.
    destruct lf; unfold emit;
    match goal with
    | |- context [build_visTarget ?s] =>
        rewrite (build_visTarget_geometry s (reference_exp dummy))
          by reflexivity
    end;
    (destruct (build_visTarget (reference_exp dummy)); [|discriminate Hb]);
    eauto.
Qed.

(** X2.  The list [procedures] that [__init__] builds has 48 entries, and
    entry [i] is read off the index in mixed radix: cue number [i / 12] of
    (no, spatial, center, double), location number [(i / 6) mod 2] of
    (top, bottom), direction number [(i / 3) mod 2] of (left, right) and
    flanker number [i mod 3] of (incongruent, neutral, congruent).  There
    is no entry at 48 or above. *)
Theorem procedures_by_index mon ws rr st lf dummy orig w self w' i :
  __init__ mon ws rr st lf dummy orig w = (Ret self, w') →
  if bool_decide (i < 48)%nat then
    ∃ c l d f,
      ["no"; "spatial"; "center"; "double"] !! (i / 12)%nat = Some c
      ∧ ["top"; "bottom"] !! ((i / 6) mod 2)%nat = Some l
      ∧ ["left"; "right"] !! ((i / 3) mod 2)%nat = Some d
      ∧ ["incongruent"; "neutral"; "congruent"] !! (i mod 3)%nat = Some f
      ∧ procedures self !! i = Some (Bunch_condition c l d f)
  else procedures self !! i = None.
Proof.
  intros Hinit.
  destruct (init_fields _ _ _ _ _ _ _ _ _ _ Hinit)
    as (_ & _ & _ & _ & _ & _ & _ & _ & _ & _ & Hp).
  rewrite Hp, enumerate_48. clear.
  case_bool_decide as Hi.
  - do 48 (destruct i as [|i];
           [vm_compute; do 4 eexists; repeat split|]).
    lia.
  - apply lookup_ge_None_2. cbn. lia.
Qed.

Lemma procedures_by_index_witness :
  ∃ self w',
    __init__ mon50 (1440, 900)%Z 60 0 false false true world60
      = (Ret self, w')
    ∧ procedures self !! 13%nat
      = Some (Bunch_condition "spatial" "top" "left" "neutral").
Proof.
  destruct (init_total mon50 (1440, 900)%Z 60 0 false false true world60
              eq_refl) as (self & w' & Hinit).
  exists self, w'. split; [exact Hinit|].
  pose proof (procedures_by_index _ _ _ _ _ _ _ _ _ _ 13%nat Hinit) as H.
  cbn [bool_decide] in H.
  destruct H as (c & l & d & f & Hc & Hl & Hd & Hf & H).
  vm_compute in Hc, Hl, Hd, Hf.
  injection Hc as <-. injection Hl as <-. injection Hd as <-.
  injection Hf as <-. exact H.
Defined.

(** ** When [_targetStim] returns *)

Lemma same_point_refl p : same_point p p = true.
Proof.
  destruct p as [x y]. unfold same_point. cbn [fst snd].
  rewrite !(proj2 (Qeq_bool_iff _ _)) by reflexivity. reflexivity.
Qed.

Ltac not_among :=
  let H := fresh in
  intros H; cases_of_membership; congruence.

Lemma targetStim_cases self tloc tdir flank :
  match _targetStim self tloc tdir flank with
  | Ret img =>
      (runDummy self = true
       ∨ (flank ∈ ["neutral"; "congruent"; "incongruent"]
          ∧ tdir ∈ ["left"; "right"]))
      ∧ ∃ prims, img = BufferImageStim prims
                 ∧ Forall (λ s, ∃ x, sits_at s
                     (x, if bool_decide (tloc = "top") then targetDist self
                         else - targetDist self) = true) prims
  | Raise e =>
      runDummy self = false
      ∧ (((flank ∉ ["neutral"; "congruent"; "incongruent"])
          ∧ e = UnboundLocalError "lines")
         ∨ (flank ∈ ["neutral"; "congruent"; "incongruent"]
            ∧ (tdir ∉ ["left"; "right"])
            ∧ e = UnboundLocalError "vertices"))
  end.
Proof.
  unfold _targetStim.
  destruct (runDummy self).
  { cbn. split; [left; reflexivity|]. eexists. split; [reflexivity|].
    repeat constructor; eexists; apply same_point_refl. }
  unfold _drawHead.
  destruct (decide (flank = "neutral")) as [->|Hn];
    [| destruct (decide (flank = "congruent")) as [->|Hc];
       [| destruct (decide (flank = "incongruent")) as [->|Hi]]];
    rewrite ?(bool_decide_eq_false_2 (flank = _)) by assumption.
  4:{ cbn. split; [reflexivity|]. left. split; [not_among | reflexivity]. }
  all: destruct (decide (tdir = "left")) as [->|Hl];
    [| destruct (decide (tdir = "right")) as [->|Hr]];
    rewrite ?(bool_decide_eq_false_2 (tdir = _)) by assumption; cbn.
  all: try (split; [reflexivity|]; right;
            split; [repeat constructor|]; split; [not_among | reflexivity]).
  all: (split; [right; split; repeat constructor|]);
    eexists; (split; [reflexivity|]);
    repeat constructor; eexists; apply same_point_refl.
Qed.

(** X3.  [_targetStim] returns a composite exactly when the experiment
    runs in dummy mode, or the flanker type is one of neutral, congruent,
    incongruent and the direction is left or right; every primitive of the
    composite then sits on the row of the target ([targetDist] above the
    centre for ['top'], below it for any other location).  Otherwise it
    raises [UnboundLocalError]: on the local [lines] for an unknown flanker
    type, on the local [vertices] of [_drawHead] for an unknown direction. *)
Theorem targetStim_outcome self tloc tdir flank :
  match _targetStim self tloc tdir flank with
  | Ret img =>
      (runDummy self = true
       ∨ (flank ∈ ["neutral"; "congruent"; "incongruent"]
          ∧ tdir ∈ ["left"; "right"]))
      ∧ ∃ prims, img = BufferImageStim prims
                 ∧ Forall (λ s, ∃ x, sits_at s
                     (x, if bool_decide (tloc = "top") then targetDist self
                         else - targetDist self) = true) prims
  | Raise e =>
      runDummy self = false
      ∧ (((flank ∉ ["neutral"; "congruent"; "incongruent"])
          ∧ e = UnboundLocalError "lines")
         ∨ (flank ∈ ["neutral"; "congruent"; "incongruent"]
            ∧ (tdir ∉ ["left"; "right"])
            ∧ e = UnboundLocalError "vertices"))
  end.
Proof. apply targetStim_cases. Qed.

(** ** The timing of a trial *)

Lemma first_key_window mw kb k dt :
  first_key mw kb = Some (k, dt) → 0 <= dt < mw.
Proof.
  unfold first_key. destruct kb as [|[[k' dt']|] ?]; try discriminate.
  destruct (Qle_bool 0 dt') eqn:E0; [|discriminate].
  destruct (Qle_bool mw dt') eqn:E1; [discriminate|].
  cbn. intros [= _ <-]. split.
  - apply Qle_bool_iff. exact E0.
  - apply Qnot_le_lt. rewrite <- Qle_bool_iff. congruence.
Qed.

Lemma trial_times self cond short w res w' :
  _oneProcedure self cond short w = (Ret (Some res), w') →
  ∃ r c,
    fst (random_randrange (tD1min self) (tD1max self) 10 w) = Ret r
    ∧ (tD1min self <= r < tD1max self)%Z
    ∧ let ft := frameTime self in
      let vs := vsync w in
      let s := next_retrace vs (now w) in
      let f1 := flip_time vs ft s (s + inject_Z r / 1000) in
      let f2 := flip_time vs ft f1 (s + (f1 - s) + 0.1) in
      let f3 := flip_time vs ft f2 (s + (f1 - s) + 0.1 + 0.4) in
      let b := next_retrace vs c in
      let e := if short then b else flip_time vs ft b (s + 4.0) in
      t0 res = s ∧ d1 res = f1 - s ∧ ct res = f2 - s - (f1 - s)
      ∧ d2 res = f3 - s - (f1 - s) - (f2 - s - (f1 - s))
      ∧ rt res = c - t0 res - d2 res - ct res - d1 res
      ∧ tf res = e - s ∧ now w' = e
      ∧ match first_key (response_window self) (keyboard w) with
        | None => c = after (response_window self) f3 ∧ resp res = None
        | Some (k, dt) =>
            c = f3 + dt ∧ k ≠ "escape" ∧ k ≠ "0"
            ∧ resp res = Some (if accepted cond k then "OK" else "NOK")
        end.
Proof.
  intros H. pose proof (trial_anatomy _ _ _ _ _ _ H) as A.
  intro_let A ft; intro_let A vs; intro_let A key; intro_let A mw;
  intro_let A n.
  rewrite randrange_step10. subst n.
  destruct (_ <=? 0)%Z eqn:En; [discriminate A|].
  apply Z.leb_gt in En.
  pose proof (randrange10_range (tD1min self) (tD1max self)
                (draws w (drawn w)) En) as Hr.
  intro_let A r; intro_let A s; intro_let A f1; intro_let A vd1;
  intro_let A f2; intro_let A vct.
  destruct (visTarget self !! key) as [img|]; [|discriminate A].
  intro_let A f3; intro_let A vd2; intro_let A keys. subst keys.
  change mw with (response_window self) in *.
  destruct (first_key (response_window self) (keyboard w))
    as [[k dt]|] eqn:Ek.
  - destruct (bool_decide (k = "escape")) eqn:Eesc.
    { intro_let A c; intro_let A vrt; intro_let A b; intro_let A e;
      intro_let A vtf. destruct A as (_ & _ & _ & _ & _ & _ & Hout).
      discriminate Hout. }
    destruct (bool_decide (k = "0")) eqn:Ezero.
    { intro_let A c; intro_let A vrt; intro_let A b; intro_let A e;
      intro_let A vtf. destruct A as (_ & _ & _ & _ & _ & _ & Hout).
      discriminate Hout. }
    intro_let A c; intro_let A vrt; intro_let A b; intro_let A e;
    intro_let A vtf.
    destruct A as (_ & Hnow & _ & _ & _ & _ & Hout).
    injection Hout as ->.
    exists r, c. cbn [fst]. split; [reflexivity|]. split; [exact Hr|].
    cbn [condition wt t0 d1 ct d2 rt tf resp].
    apply bool_decide_eq_false in Eesc, Ezero.
    repeat split; try assumption; try reflexivity.
  - intro_let A c; intro_let A vrt; intro_let A b; intro_let A e;
    intro_let A vtf.
    destruct A as (_ & Hnow & _ & _ & _ & _ & Hout).
    injection Hout as ->.
    exists r, c. cbn [fst]. split; [reflexivity|]. split; [exact Hr|].
    cbn [condition wt t0 d1 ct d2 rt tf resp].
    repeat split; try assumption; try reflexivity.
Qed.

Lemma flip_on_time vs ft now t :
  0 < ft → vs == ft → now <= t - ft →
  t - ft < flip_time vs ft now t ∧ flip_time vs ft now t <= t.
Proof.
  intros Hft Hvs Hnow. unfold flip_time.
  assert (Hp : 0 < vs) by lra.
  assert (Ha : after (t - now - ft) now == t - ft).
  { unfold after. destruct (Qle_bool _ 0) eqn:E; [|lra].
    apply Qle_bool_iff in E. lra. }
  pose proof (next_retrace_gt vs (after (t - now - ft) now) Hp).
  pose proof (next_retrace_le vs (after (t - now - ft) now) Hp).
  lra.
Qed.

Lemma flip_late vs ft now t :
  0 < ft → vs == ft → t - ft <= now →
  now < flip_time vs ft now t ∧ flip_time vs ft now t <= now + ft.
Proof.
  intros Hft Hvs Hnow. unfold flip_time.
  assert (Hp : 0 < vs) by lra.
  assert (Ha : after (t - now - ft) now == now).
  { unfold after. destruct (Qle_bool _ 0) eqn:E; [reflexivity|].
    assert (~ t - now - ft <= 0) by (rewrite <- Qle_bool_iff; congruence).
    lra. }
  pose proof (next_retrace_gt vs (after (t - now - ft) now) Hp).
  pose proof (next_retrace_le vs (after (t - now - ft) now) Hp).
  lra.
Qed.

(** X4.  [waitAndFlip(t)] flips once and returns the clock time of that
    flip.  On a display whose retrace period is the frame time of the
    experiment, a call made no later than one frame before [t] flips within
    the frame that ends at [t] (later than [t - frameTime], not later than
    [t]); a call made later than that flips at the next retrace, within one
    frame of the call. *)
Theorem waitAndFlip_deadline self t w :
  0 < frameTime self → vsync w == frameTime self →
  ∃ f w',
    waitAndFlip self t w = (Ret f, w')
    ∧ now w' = f
    ∧ flips (trace w') = flips (trace w) ++ [f]
    ∧ (now w <= t - frameTime self → t - frameTime self < f ∧ f <= t)
    ∧ (t - frameTime self <= now w →
       now w < f ∧ f <= now w + frameTime self).
Proof.
  intros Hft Hvs. rewrite waitAndFlip_run. cbv zeta.
  eexists _, _. split; [reflexivity|]. cbn [now trace].
  split; [reflexivity|]. split.
  { unfold flips. rewrite omap_app. reflexivity. }
  split; intros Hn.
  - apply (flip_on_time _ _ _ _ Hft Hvs Hn).
  - apply (flip_late _ _ _ _ Hft Hvs Hn).
Qed.

Lemma waitAndFlip_deadline_witness :
  ∃ f w',
    waitAndFlip exp60 0.5 world60 = (Ret f, w')
    ∧ 0.5 - 1 / 60 < f ∧ f <= 0.5.
Proof.
  destruct (waitAndFlip_deadline exp60 0.5 world60)
    as (f & w' & Hrun & _ & _ & Hon & _).
  - vm_compute. reflexivity.
  - vm_compute. reflexivity.
  - exists f, w'. split; [exact Hrun|].
    assert (Hft : frameTime exp60 == 1 / 60) by (vm_compute; reflexivity).
    rewrite <- Hft. apply Hon. vm_compute. discriminate.
Defined.

(** X5.  In a recorded trial, a first key inside the response window is
    recorded with [resp] ['OK'] or ['NOK'] and with an [rt] that is not
    below its delay after the window opened; without such a key the trial
    is recorded with [resp = None] and an [rt] that is not below the length
    of the window.  So an [rt] below the length of the window is always
    the [rt] of a key. *)
Theorem rt_of_response self cond short w res w' :
  _oneProcedure self cond short w = (Ret (Some res), w') →
  match captured self w with
  | None => resp res = None ∧ response_window self <= rt res
  | Some (k, dt) =>
      resp res = Some (if accepted cond k then "OK" else "NOK")
      ∧ dt <= rt res ∧ 0 <= dt ∧ dt < response_window self
  end
  ∧ (rt res < response_window self → resp res ≠ None).
Proof.
  intros H. destruct (trial_times _ _ _ _ _ _ H) as (r & c & _ & _ & A).
  cbv zeta in A.
  destruct A as (Ht0 & Hd1 & Hct & Hd2 & Hrt & _ & _ & Hk).
  unfold captured.
  destruct (first_key (response_window self) (keyboard w)) as [[k dt]|] eqn:Ek.
  - destruct Hk as (Hc & _ & _ & Hresp).
    destruct (first_key_window _ _ _ _ Ek).
    split; [|rewrite Hresp; discriminate].
    split; [exact Hresp|]. split; [|split; assumption].
    rewrite Hrt, Hd2, Hct, Hd1, Ht0, Hc. lra.
  - destruct Hk as (Hc & Hresp).
    assert (Hw : response_window self <= rt res).
    { rewrite Hrt, Hd2, Hct, Hd1, Ht0, Hc.
      set (f3 := flip_time _ _ _ _).
      pose proof (after_reach (response_window self) f3). lra. }
    split; [split; [exact Hresp | exact Hw]|].
    intros Hlt. lra.
Qed.

Lemma rt_of_response_witness :
  ∃ res w',
    _oneProcedure exp60 cond_left false world_late = (Ret (Some res), w')
    ∧ resp res = None ∧ 1.7 - 1 / 60 <= rt res.
Proof.
  destruct (_oneProcedure exp60 cond_left false world_late)
    as [[[res|]|err] w'] eqn:E;
    [| vm_compute in E; discriminate E | vm_compute in E; discriminate E].
  pose proof (rt_of_response _ _ _ _ _ _ E) as [H _].
  assert (Hw : response_window exp60 == 1.7 - 1 / 60)
    by (vm_compute; reflexivity).
  assert (Hc : captured exp60 world_late = None)
    by (vm_compute; reflexivity).
  rewrite Hc in H. destruct H as [Hresp Hrt].
  exists res, w'. split; [reflexivity|]. split; [exact Hresp|].
  rewrite <- Hw. exact Hrt.
Defined.

Lemma trial_on_time mon ws rr st lf dummy orig w0 self w1 cond w res w' :
  __init__ mon ws rr st lf dummy orig w0 = (Ret self, w1) →
  _oneProcedure self cond false w = (Ret (Some res), w') →
  10 <= rr → vsync w == 1 / rr →
  ∃ r,
    fst (random_randrange 400 1600 10 w) = Ret r
    ∧ (inject_Z r / 1000 - 1 / rr < d1 res ∧ d1 res <= inject_Z r / 1000)
    ∧ (0.1 - 1 / rr < ct res ∧ ct res <= 0.1)
    ∧ (0.5 - 1 / rr < ct res + d2 res ∧ ct res + d2 res <= 0.5)
    ∧ (4 - 1 / rr < tf res ∧ tf res <= 4).
Proof.
  intros Hinit H Hrr Hvs.
  destruct (init_fields _ _ _ _ _ _ _ _ _ _ Hinit)
    as (_ & Hft & Hdm & _ & _ & Hmin & Hmax & Hout & Hdummy & _).
  destruct (trial_times _ _ _ _ _ _ H) as (r & c & Hr & Hrange & A).
  rewrite Hmin, Hmax in Hr, Hrange.
  exists r. split; [exact Hr|].
  assert (Hft0 : 0 < frameTime self ∧ frameTime self <= 0.1).
  { rewrite Hft. split.
    - apply Qlt_shift_div_l; lra.
    - apply Qle_shift_div_r; lra. }
  destruct Hft0 as [Hpos Hsmall].
  rewrite <- Hft in *. clear Hft.
  assert (Hlo : 0.4 <= inject_Z r / 1000).
  { eapply Qle_trans; [| apply per_mille_le; apply Hrange].
    vm_compute. discriminate. }
  assert (Hhi : inject_Z r / 1000 <= 1.6).
  { eapply Qle_trans; [apply per_mille_le, Z.lt_le_incl, Hrange|].
    vm_compute. discriminate. }
  assert (Hmw : response_window self <= 1.7 - frameTime self).
  { unfold response_window. rewrite Hout, Hdummy.
    destruct (runDummy self).
    - assert (E : inject_Z 700 / 1000 == 0.7) by reflexivity. rewrite E. lra.
    - assert (E : inject_Z 1700 / 1000 == 1.7) by reflexivity. rewrite E. lra. }
  assert (Hmw0 : 0 < response_window self).
  { unfold response_window. rewrite Hout, Hdummy.
    destruct (runDummy self).
    - assert (E : inject_Z 700 / 1000 == 0.7) by reflexivity. rewrite E. lra.
    - assert (E : inject_Z 1700 / 1000 == 1.7) by reflexivity. rewrite E. lra. }
  set (ft := frameTime self) in *. set (vs := vsync w) in *.
  cbv zeta in A.
  set (s := next_retrace vs (now w)) in *.
  set (f1 := flip_time vs ft s (s + inject_Z r / 1000)) in *.
  set (f2 := flip_time vs ft f1 (s + (f1 - s) + 0.1)) in *.
  set (f3 := flip_time vs ft f2 (s + (f1 - s) + 0.1 + 0.4)) in *.
  set (b := next_retrace vs c) in *.
  set (e := flip_time vs ft b (s + 4.0)) in *.
  destruct A as (Ht0 & Hd1 & Hct & Hd2 & _ & Htf & _ & Hk).
  assert (Hp : 0 < vs) by lra.
  destruct (flip_on_time vs ft s (s + inject_Z r / 1000) Hpos Hvs)
    as [H1a H1b]; [lra|]. fold f1 in H1a, H1b.
  destruct (flip_on_time vs ft f1 (s + (f1 - s) + 0.1) Hpos Hvs)
    as [H2a H2b]; [lra|]. fold f2 in H2a, H2b.
  destruct (flip_on_time vs ft f2 (s + (f1 - s) + 0.1 + 0.4) Hpos Hvs)
    as [H3a H3b]; [lra|]. fold f3 in H3a, H3b.
  assert (Hc : c <= f3 + response_window self).
  { destruct (first_key _ _) as [[k dt]|] eqn:Ek.
    - destruct Hk as (Hc & _). destruct (first_key_window _ _ _ _ Ek).
      rewrite Hc. lra.
    - destruct Hk as (Hc & _). rewrite Hc. unfold after.
      destruct (Qle_bool _ 0); lra. }
  pose proof (next_retrace_le vs c Hp) as Hb. fold b in Hb.
  destruct (flip_on_time vs ft b (s + 4.0) Hpos Hvs)
    as [H4a H4b]; [lra|]. fold e in H4a, H4b.
  rewrite Hd1, Hct, Hd2, Htf.
  repeat split; lra.
Qed.

(** X6.  On a display of at least 10 Hz whose retrace period is the frame
    time [__init__] computed, every stage of a recorded trial (not in short
    mode) is within one frame of its nominal length: the fixation [d1] ends
    in the frame before the random delay [r / 1000], the cue [ct] in the
    frame before 100 ms, the target comes up ([ct + d2]) in the frame before
    500 ms after the cue, and the trial ends ([tf]) in the frame before
    4 s. *)
Theorem stage_timing mon ws rr st lf dummy orig w0 self w1 cond w res w' :
  __init__ mon ws rr st lf dummy orig w0 = (Ret self, w1) →
  _oneProcedure self cond false w = (Ret (Some res), w') →
  10 <= rr → vsync w == 1 / rr →
  ∃ r,
    fst (random_randrange 400 1600 10 w) = Ret r
    ∧ (inject_Z r / 1000 - 1 / rr < d1 res ∧ d1 res <= inject_Z r / 1000)
    ∧ (0.1 - 1 / rr < ct res ∧ ct res <= 0.1)
    ∧ (0.5 - 1 / rr < ct res + d2 res ∧ ct res + d2 res <= 0.5)
    ∧ (4 - 1 / rr < tf res ∧ tf res <= 4).
Proof. apply trial_on_time. Qed.

Lemma stage_timing_witness :
  ∃ self w1 res w',
    __init__ mon50 (1440, 900)%Z 60 0 false false true world60
      = (Ret self, w1)
    ∧ _oneProcedure self cond_left false world_500 = (Ret (Some res), w')
    ∧ 4 - 1 / 60 < tf res ∧ tf res <= 4.
Proof.
  destruct (init_total mon50 (1440, 900)%Z 60 0 false false true world60
              eq_refl) as (self & w1 & Hinit).
  assert (Hs : self = exp60)
    by (unfold exp60, exp_at; rewrite Hinit; reflexivity).
  destruct (_oneProcedure self cond_left false world_500)
    as [[[res|]|err] w'] eqn:E;
    [| exfalso; rewrite Hs in E; vm_compute in E; discriminate E
     | exfalso; rewrite Hs in E; vm_compute in E; discriminate E].
  destruct (stage_timing _ _ _ _ _ _ _ _ _ _ _ _ _ _ Hinit E)
    as (r & _ & _ & _ & _ & Htf).
  - vm_compute. discriminate.
  - vm_compute. reflexivity.
  - exists self, w1, res, w'. split; [exact Hinit|].
    split; [exact E|]. exact Htf.
Defined.

(** ** The random fixation delay *)

(** X7.  The fixation delay drawn at line 274 is a multiple of 10 ms from
    400 ms to 1590 ms: [random.randrange(400, 1600, 10)] never raises, takes
    one output of the generator and returns [400 + 10 * k] with
    [0 <= k < 120]. *)
Theorem fixation_delay_grid mon ws rr st lf dummy orig w0 self w1 w :
  __init__ mon ws rr st lf dummy orig w0 = (Ret self, w1) →
  ∃ k, (0 <= k < 120)%Z
       ∧ random_randrange (tD1min self) (tD1max self) 10 w
         = (Ret (400 + 10 * k)%Z,
            mkWorld (now w) (vsync w) (draws w) (S (drawn w)) (keyboard w)
                    (trace w)).
Proof.
  intros Hinit.
  destruct (init_fields _ _ _ _ _ _ _ _ _ _ Hinit)
    as (_ & _ & _ & _ & _ & -> & -> & _).
  rewrite randrange_step10.
  change ((1600 - 400 + 10 - 1) / 10)%Z with 120%Z.
  change (120 <=? 0)%Z with false. cbv iota.
  eexists. split; [|reflexivity].
  apply int_below; [apply uniform_range | reflexivity].
Qed.

Lemma fixation_delay_grid_witness :
  ∃ self w1 k w',
    __init__ mon50 (1440, 900)%Z 60 0 false false true world60
      = (Ret self, w1)
    ∧ random_randrange (tD1min self) (tD1max self) 10 world_500
      = (Ret (400 + 10 * k)%Z, w')
    ∧ (0 <= k < 120)%Z.
Proof.
  destruct (init_total mon50 (1440, 900)%Z 60 0 false false true world60
              eq_refl) as (self & w1 & Hinit).
  destruct (fixation_delay_grid _ _ _ _ _ _ _ _ _ _ world_500 Hinit)
    as (k & Hk & Hrun).
  exists self, w1, k. eexists. split; [exact Hinit|].
  split; [exact Hrun | exact Hk].
Defined.

(** X8.  A trial raises [ValueError] (empty range for randrange()) exactly
    when the configured [tD1max] is not above [tD1min]. *)
Theorem empty_fixation_range self cond short w :
  fst (_oneProcedure self cond short w)
    = Raise (ValueError "empty range for randrange()")
  ↔ (tD1max self <= tD1min self)%Z.
Proof.
  destruct (_oneProcedure self cond short w) as [out w'] eqn:H. cbn [fst].
  pose proof (trial_anatomy _ _ _ _ _ _ H) as A.
  intro_let A ft; intro_let A vs; intro_let A key; intro_let A mw;
  intro_let A n.
  assert (Hn : (n <= 0 ↔ tD1max self <= tD1min self)%Z).
  { unfold n.
    pose proof (Z.div_lt_upper_bound (tD1max self - tD1min self + 10 - 1)
                  10 1 eq_refl).
    pose proof (Z.div_le_lower_bound (tD1max self - tD1min self + 10 - 1)
                  10 1 eq_refl).
    lia. }
  destruct (Z.leb_spec n 0) as [Hle|Hgt].
  - split; [intros _; apply Hn; exact Hle | intros _; exact A].
  - split; [|intros Hm; apply Hn in Hm; lia].
    intros ->. exfalso.
    intro_let A r; intro_let A vt0; intro_let A f1; intro_let A vd1;
    intro_let A f2; intro_let A vct.
    destruct (visTarget self !! key); [|discriminate A].
    intro_let A f3; intro_let A vd2; intro_let A keys. subst keys.
    destruct (first_key mw (keyboard w)) as [[k dt]|];
      [destruct (bool_decide (k = "escape"));
       [|destruct (bool_decide (k = "0"))]|];
      intro_let A c; intro_let A vrt; intro_let A b; intro_let A e;
      intro_let A vtf;
      destruct A as (_ & _ & _ & _ & _ & _ & Hout);
      discriminate Hout.
Qed.

(** ** The dictionary of composites *)

Lemma build_visTarget_keys self vt k :
  build_visTarget self = Ret vt →
  k ∉ (tloc ← ["top"; "bottom"]; tdir ← ["left"; "right"];
       flank ← ["incongruent"; "neutral"; "congruent"];
       [tloc +:+ tdir +:+ flank]) →
  vt !! k = None.
Proof.
  unfold build_visTarget. cbn [foldl]. intros H Hk.
  repeat match type of H with
         | context [_targetStim self ?a ?b ?c] =>
             destruct (_targetStim self a b c);
             cbn [mbind result_bind mret result_ret] in H;
             try discriminate H
         end.
  injection H as <-.
  cbn in Hk. rewrite !not_elem_of_cons in Hk.
  repeat (rewrite lookup_insert_ne by (cbn; intuition congruence)).
  apply lookup_empty.
Qed.

(** X9.  [visTarget] holds the composites of the twelve keys
    [tloc + tdir + flank] only: a trial of a condition whose key is not one
    of them raises [KeyError] on that key. *)
Theorem unknown_target_key
    mon ws rr st lf dummy orig w0 self w1 cond short w :
  __init__ mon ws rr st lf dummy orig w0 = (Ret self, w1) →
  (tloc cond +:+ tdir cond +:+ flank cond)
    ∉ (tloc ← ["top"; "bottom"]; tdir ← ["left"; "right"];
       flank ← ["incongruent"; "neutral"; "congruent"];
       [tloc +:+ tdir +:+ flank]) →
  fst (_oneProcedure self cond short w)
  = Raise (KeyError (tloc cond +:+ tdir cond +:+ flank cond)).
Proof.
  intros Hinit Hk.
  destruct (init_fields _ _ _ _ _ _ _ _ _ _ Hinit)
    as (_ & _ & _ & _ & _ & Hmin & Hmax & _).
  destruct (init_inv _ _ _ _ _ _ _ _ _ _ Hinit) as [_ Hself].
  assert (Hvt : visTarget self
                = get_or ∅ (build_visTarget (reference_exp dummy)))
    by (rewrite Hself; reflexivity).
  clear Hself.
  pose proof (build_reference_Ret dummy) as Hb.
  destruct (build_visTarget (reference_exp dummy)) as [vt|] eqn:Ev;
    [|discriminate Hb].
  cbn [get_or] in Hvt.
  pose proof (build_visTarget_keys _ _ _ Ev Hk) as Hnone.
  rewrite <- Hvt in Hnone.
  destruct (_oneProcedure self cond short w) as [out w'] eqn:H. cbn [fst].
  pose proof (trial_anatomy _ _ _ _ _ _ H) as A.
  intro_let A ft; intro_let A vs; intro_let A key; intro_let A mw;
  intro_let A n.
  subst n. rewrite Hmin, Hmax in A.
  change ((1600 - 400 + 10 - 1) / 10 <=? 0)%Z with false in A.
  cbv iota in A.
  intro_let A r; intro_let A vt0; intro_let A f1; intro_let A vd1;
  intro_let A f2; intro_let A vct.
  subst key. rewrite Hnone in A. exact A.
Qed.

Lemma unknown_target_key_witness :
  ∃ self w',
    __init__ mon50 (1440, 900)%Z 60 0 false false true world60
      = (Ret self, w')
    ∧ fst (_oneProcedure self cond_middle false world_500)
      = Raise (KeyError "middleleftcongruent").
Proof.
  destruct (init_total mon50 (1440, 900)%Z 60 0 false false true world60
              eq_refl) as (self & w' & Hinit).
  exists self, w'. split; [exact Hinit|].
  apply (unknown_target_key _ _ _ _ _ _ _ _ _ _ cond_middle false world_500
           Hinit).
  apply (bool_decide_unpack _). vm_compute. exact I.
Defined.

(** ** The geometry of an arrow *)

(** X10.  The arrow to the right is the mirror image of the arrow to the
    left: the vertices of the shortened bar and of the head for ['right']
    are those for ['left'] with the sign of [x] changed, one by one. *)
Theorem arrows_mirror pos sz pw :
  let mirrored (l r : Stim) :=
    Forall2 (λ p q, fst p == - fst q ∧ snd p == snd q)
            (vertices_of l) (vertices_of r) in
  mirrored (_drawLine pos sz pw true (Some "left"))
           (_drawLine pos sz pw true (Some "right"))
  ∧ ∃ hl hr,
      _drawHead pos sz pw "left" = Ret hl
      ∧ _drawHead pos sz pw "right" = Ret hr
      ∧ mirrored hl hr.
Proof.
  cbv zeta. split.
  - cbn. repeat constructor; cbn; field.
  - eexists _, _. split; [reflexivity|]. split; [reflexivity|].
    cbn. repeat constructor; cbn; field.
Qed.

Ltac each_vertex :=
  repeat (apply List.Forall_cons; [split|]); try apply List.Forall_nil.

(** X11.  An arrow is as wide as a plain line.  For a size [sz >= 0] and
    seen in the direction the arrow points to, the shortened bar runs from
    [- sz / 2] to [sz / 6] and has a vertex at both ends; the head runs
    from [sz / 6], where it meets the bar, to its tip at [sz / 2], with a
    vertex at both; the plain line runs from [- sz / 2] to [sz / 2]. *)
Theorem arrow_spans_line pos sz pw tdir :
  0 <= sz → tdir ∈ ["left"; "right"] →
  ∃ head,
    _drawHead pos sz pw tdir = Ret head
    ∧ let bar := vertices_of (_drawLine pos sz pw true (Some tdir)) in
      let line := vertices_of (_drawLine pos sz pw false None) in
      let sgn := if bool_decide (tdir = "left") then - (1) else 1 in
      Forall (λ p, - (sz / 2) <= sgn * fst p ∧ sgn * fst p <= sz / 6) bar
      ∧ Exists (λ p, sgn * fst p == - (sz / 2)) bar
      ∧ Exists (λ p, sgn * fst p == sz / 6) bar
      ∧ Forall (λ p, sz / 6 <= sgn * fst p ∧ sgn * fst p <= sz / 2)
               (vertices_of head)
      ∧ Exists (λ p, sgn * fst p == sz / 6) (vertices_of head)
      ∧ Exists (λ p, sgn * fst p == sz / 2) (vertices_of head)
      ∧ Forall (λ p, - (sz / 2) <= fst p ∧ fst p <= sz / 2) line
      ∧ Exists (λ p, fst p == - (sz / 2)) line
      ∧ Exists (λ p, fst p == sz / 2) line.
Proof.
  intros Hsz Hd.
  assert (Hu : 0 <= sz / 6) by (apply Qle_shift_div_l; [reflexivity | lra]).
  assert (H2 : sz / 2 == 3 * (sz / 6)) by field.
  cases_of_membership.
  - eexists. split; [reflexivity|]. cbv zeta.
    rewrite bool_decide_eq_true_2 by reflexivity. cbn.
    assert (H6 : - (sz / 2) / 3 == - (sz / 6)) by field.
    split; [each_vertex; cbn; rewrite ?H6, ?H2; lra|].
    split; [apply List.Exists_cons_hd; cbn; rewrite ?H2; lra|].
    split; [apply List.Exists_cons_tl, List.Exists_cons_hd; cbn;
            rewrite ?H6; lra|].
    split; [each_vertex; cbn; rewrite ?H6, ?H2; lra|].
    split; [apply List.Exists_cons_hd; cbn; rewrite ?H6; lra|].
    split; [apply List.Exists_cons_tl, List.Exists_cons_hd; cbn;
            rewrite ?H2; lra|].
    split; [each_vertex; cbn; rewrite ?H2; lra|].
    split; [apply List.Exists_cons_hd; cbn; rewrite ?H2; lra|].
    apply List.Exists_cons_tl, List.Exists_cons_hd. cbn. rewrite ?H2. lra.
  - eexists. split; [reflexivity|]. cbv zeta.
    rewrite bool_decide_eq_false_2 by discriminate. cbn.
    assert (H6 : sz / 2 / 3 == sz / 6) by field.
    split; [each_vertex; cbn; rewrite ?H6, ?H2; lra|].
    split; [apply List.Exists_cons_hd; cbn; rewrite ?H2; lra|].
    split; [apply List.Exists_cons_tl, List.Exists_cons_hd; cbn;
            rewrite ?H6; lra|].
    split; [each_vertex; cbn; rewrite ?H6, ?H2; lra|].
    split; [apply List.Exists_cons_hd; cbn; rewrite ?H6; lra|].
    split; [apply List.Exists_cons_tl, List.Exists_cons_hd; cbn;
            rewrite ?H2; lra|].
    split; [each_vertex; cbn; rewrite ?H2; lra|].
    split; [apply List.Exists_cons_hd; cbn; rewrite ?H2; lra|].
    apply List.Exists_cons_tl, List.Exists_cons_hd. cbn. rewrite ?H2. lra.
Qed.

Lemma arrow_spans_line_witness :
  ∃ head,
    _drawHead (0, 1.06) 0.55 0.04 "left" = Ret head
    ∧ Exists (λ p, - (1) * fst p == 0.55 / 2) (vertices_of head).
Proof.
  destruct (arrow_spans_line (0, 1.06) 0.55 0.04 "left")
    as (head & Hh & _ & _ & _ & _ & _ & Htip & _).
  - vm_compute. discriminate.
  - repeat constructor.
  - exists head. split; [exact Hh | exact Htip].
Defined.

(** ** The screens of a trial *)

Lemma draw_cue_trace self condition w :
  draw_cue self condition w =
  (Ret (), mkWorld (now w) (vsync w) (draws w) (drawn w) (keyboard w)
             (trace w ++ (Draw <$> cue_frame self condition))).
Proof.
  destruct w as [n v d dn k tr].
  unfold draw_cue, cue_frame.
  destruct (bool_decide (cue condition = "no")),
           (bool_decide (cue condition = "double")),
           (bool_decide (cue condition = "spatial")),
           (bool_decide (tloc condition = "top")),
           (bool_decide (tloc condition = "bottom")),
           (bool_decide (cue condition = "center")),
           (original self);
    cbn [negb orb andb];
    unfold mbind, M_bind, mret, M_ret, draw, emit;
    cbn [now vsync draws drawn keyboard trace app fmap list_fmap];
    rewrite <- ?app_assoc, ?app_nil_r; reflexivity.
Qed.

Lemma screens_draws l : ∀ buffer evs,
  screens buffer ((Draw <$> l) ++ evs) = screens (buffer ++ l) evs.
Proof.
  induction l as [|s l IH]; intros buffer evs; cbn.
  - rewrite app_nil_r. reflexivity.
  - rewrite IH, <- app_assoc. reflexivity.
Qed.

Lemma trial_screens_any self cond short w out w' img :
  _oneProcedure self cond short w = (out, w') →
  (0 < (tD1max self - tD1min self + 10 - 1) / 10)%Z →
  visTarget self !! (tloc cond +:+ tdir cond +:+ flank cond) = Some img →
  ∃ evs,
    trace w' = trace w ++ evs
    ∧ let cross := if original self then [visFix self] else [] in
      screens [] evs
      = ([[visFix self]; cue_frame self cond; [visFix self];
          img :: cross; cross] ++ (if short then [] else [cross]),
         if short then cross else []).
Proof.
  intros H Hn Himg. destruct w as [now0 vs0 dr dn kb tr]. proj.
  unfold _oneProcedure in H.
  apply Z.leb_gt in Hn.
  do 3 run H.
  erewrite bind_run in H
    by (rewrite randrange_step10; proj; rewrite Hn; reflexivity).
  cbv beta in H; proj_in H.
  erewrite bind_run in H by apply draw_cue_trace.
  cbv beta in H; proj_in H.
  do 3 run H.
  rewrite Himg in H.
  do 2 run H.
  assert (Hmw :
            (if runDummy self
             then event_waitKeys (inject_Z (tDummy self) / 1000
                                  - frameTime self)
             else event_waitKeys (inject_Z (tOut self) / 1000
                                  - frameTime self))
            = event_waitKeys (response_window self))
    by (unfold response_window; destruct (runDummy self); reflexivity).
  rewrite Hmw in H. clear Hmw.
  destruct (first_key (response_window self) kb) as [[k dt]|] eqn:Ek;
    [ destruct (bool_decide (k = "escape")) eqn:Eesc;
      [| destruct (bool_decide (k = "0")) eqn:Ezero ] |];
    destruct (original self) eqn:Eo;
    do 3 run H;
    (erewrite bind_run in H
       by (unfold event_waitKeys; proj; rewrite Ek; reflexivity));
    cbv beta in H; proj_in H;
    (erewrite bind_run in H
       by (rewrite classify_run; proj; rewrite ?Eesc, ?Ezero; reflexivity));
    cbv beta iota in H; proj_in H;
    do 4 run H;
    destruct short; cbn [negb] in H; rewrite bind_assoc in H; do 2 run H;
    unfold mret, M_ret, raise in H; injection H as <- <-; proj;
    rewrite <- ?app_assoc; (eexists; split; [reflexivity|]);
    cbn [app screens]; rewrite screens_draws; reflexivity.
Qed.

(** ** Where the cue is drawn *)

Ltac decide_strings :=
  repeat first
    [ rewrite bool_decide_eq_true_2 by reflexivity
    | rewrite bool_decide_eq_false_2 by discriminate ].

(** X12.  In an experiment built by [__init__], the cue of a condition is
    drawn as follows: no cue, the fixation cross alone; centre cue, the
    asterisk at the centre, without the cross; spatial cue, one asterisk at
    [(0, y)] where [y] is the row on which every primitive of the target
    composite of that condition sits; double cue, an asterisk on both rows;
    in the last two cases each asterisk is preceded by the cross when
    [original] is set. *)
Theorem cue_placement mon ws rr st lf dummy orig w0 self w1 cond w :
  __init__ mon ws rr st lf dummy orig w0 = (Ret self, w1) →
  cond ∈ procedures self →
  ∃ img,
    visTarget self !! (tloc cond +:+ tdir cond +:+ flank cond) = Some img
    ∧ let y := if bool_decide (tloc cond = "top") then targetDist self
               else - targetDist self in
      let cross := if orig then [visFix self] else [] in
      let star (p : Point) := at_pos (visCue self) p in
      Forall (λ s, ∃ x, sits_at s (x, y) = true) (primitives img)
      ∧ drawings (trace (snd (draw_cue self cond w)))
        = drawings (trace w) ++ cue_frame self cond
      ∧ cue_frame self cond
        = if bool_decide (cue cond = "no") then [visFix self]
          else if bool_decide (cue cond = "center") then [star (0, 0)]
          else if bool_decide (cue cond = "spatial")
               then cross ++ [star (0, y)]
          else cross ++ [star (0, targetDist self)]
               ++ cross ++ [star (0, - targetDist self)].
Proof.
  intros Hinit Hc.
  destruct (init_procedures _ _ _ _ _ _ _ _ _ _ _ Hinit Hc)
    as (Hcue & Hl & Hd & Hf).
  destruct (init_visTarget _ _ _ _ _ _ _ _ _ _ _ _ _ Hinit Hl Hd Hf)
    as (img & Himg & Hvt).
  destruct (init_fields _ _ _ _ _ _ _ _ _ _ Hinit)
    as (_ & _ & _ & Horig & _).
  exists img. split; [exact Hvt|]. cbv zeta. split; [|split].
  - pose proof (targetStim_cases self (tloc cond) (tdir cond) (flank cond))
      as Hrow.
    rewrite Himg in Hrow. destruct Hrow as (_ & prims & -> & Hrow).
    exact Hrow.
  - rewrite draw_cue_trace. cbn [snd trace].
    unfold drawings. rewrite omap_app. f_equal.
    induction (cue_frame self cond) as [|s l IH]; [reflexivity|].
    cbn. f_equal. exact IH.
  - rewrite <- Horig. clear Hinit Hc Hd Hf Himg Hvt Horig.
    destruct cond as [c l d f]. cbn [cue tloc tdir flank] in *.
    unfold cue_frame. cbn [cue tloc tdir flank].
    cases_of_membership; decide_strings; cbn [negb orb andb];
      rewrite ?app_nil_r, <- ?app_assoc; reflexivity.
Qed.

Lemma cue_placement_witness :
  ∃ self w' img,
    __init__ mon50 (1440, 900)%Z 60 0 false false true world60
      = (Ret self, w')
    ∧ visTarget self !! "bottomrightneutral" = Some img
    ∧ cue_frame self (Bunch_condition "spatial" "bottom" "right" "neutral")
      = [visFix self; at_pos (visCue self) (0, - targetDist self)].
Proof.
  destruct (init_total mon50 (1440, 900)%Z 60 0 false false true world60
              eq_refl) as (self & w' & Hinit).
  destruct (cue_placement _ _ _ _ _ _ _ _ _ _
              (Bunch_condition "spatial" "bottom" "right" "neutral")
              world60 Hinit)
    as (img & Hvt & _ & _ & Hframe).
  - destruct (init_fields _ _ _ _ _ _ _ _ _ _ Hinit)
      as (_ & _ & _ & _ & _ & _ & _ & _ & _ & _ & ->).
    apply (bool_decide_unpack _). vm_compute. exact I.
  - exists self, w', img. split; [exact Hinit|]. split; [exact Hvt|].
    exact Hframe.
Defined.

(** X13.  Whatever the response, a trial of an experiment built by
    [__init__] shows these screens, one per flip: the fixation cross; the
    cue frame; the fixation cross; the target composite of the condition
    (with the cross when [original] is set); then the cross alone (or an
    empty screen when [original] is not set), once in short mode and twice
    otherwise.  In short mode the cross drawn last is left in the back
    buffer. *)
Theorem trial_screens
    mon ws rr st lf dummy orig w0 self w1 cond short w out w' :
  __init__ mon ws rr st lf dummy orig w0 = (Ret self, w1) →
  cond ∈ procedures self →
  _oneProcedure self cond short w = (out, w') →
  ∃ evs img,
    trace w' = trace w ++ evs
    ∧ visTarget self !! (tloc cond +:+ tdir cond +:+ flank cond) = Some img
    ∧ let cross := if orig then [visFix self] else [] in
      screens [] evs
      = ([[visFix self]; cue_frame self cond; [visFix self];
          img :: cross; cross] ++ (if short then [] else [cross]),
         if short then cross else []).
Proof.
  intros Hinit Hc H.
  destruct (init_procedures _ _ _ _ _ _ _ _ _ _ _ Hinit Hc)
    as (_ & Hl & Hd & Hf).
  destruct (init_visTarget _ _ _ _ _ _ _ _ _ _ _ _ _ Hinit Hl Hd Hf)
    as (img & _ & Himg).
  destruct (init_fields _ _ _ _ _ _ _ _ _ _ Hinit)
    as (_ & _ & _ & Horig & _ & Hmin & Hmax & _).
  destruct (trial_screens_any _ _ _ _ _ _ img H) as (evs & Htr & Hs).
  { rewrite Hmin, Hmax. reflexivity. }
  { exact Himg. }
  rewrite Horig in Hs. exists evs, img. auto.
Qed.

Lemma trial_screens_witness :
  ∃ self w1 out w' evs img,
    __init__ mon50 (1440, 900)%Z 60 0 false false true world60
      = (Ret self, w1)
    ∧ _oneProcedure self cond_left false world_500 = (out, w')
    ∧ trace w' = trace world_500 ++ evs
    ∧ visTarget self !! "topleftcongruent" = Some img
    ∧ fst (screens [] evs)
      = [[visFix self]; [visFix self]; [visFix self];
         [img; visFix self]; [visFix self]; [visFix self]].
Proof.
  destruct (init_total mon50 (1440, 900)%Z 60 0 false false true world60
              eq_refl) as (self & w1 & Hinit).
  destruct (_oneProcedure self cond_left false world_500) as [out w'] eqn:E.
  assert (Hc : cond_left ∈ procedures self).
  { destruct (init_fields _ _ _ _ _ _ _ _ _ _ Hinit)
      as (_ & _ & _ & _ & _ & _ & _ & _ & _ & _ & ->).
    apply (bool_decide_unpack _). vm_compute. exact I. }
  destruct (trial_screens _ _ _ _ _ _ _ _ _ _ _ _ _ _ _ Hinit Hc E)
    as (evs & img & Htr & Hvt & Hs).
  exists self, w1, out, w', evs, img.
  split; [exact Hinit|]. split; [exact E|]. split; [exact Htr|].
  split; [exact Hvt|]. cbv zeta in Hs. rewrite Hs. reflexivity.
Defined.

(** ** The trials of a block, one after the other *)

Section Unrolled.
Context (mon : Q → Q) (ws : Z * Z) (rr st : Q) (lf dummy orig : bool).
Context (w0 w1 : World) (self : ANTExp).
Hypothesis Hinit : __init__ mon ws rr st lf dummy orig w0 = (Ret self, w1).

Lemma block_loop_trials order :
  ∀ expData maxrun wT cg w out w',
    Forall (λ i, (i < 48)%nat) order →
    block_loop self order expData maxrun wT cg w = (out, w') →
    ∃ done wl,
      trials self w done wl
      ∧ match out with
        | Ret (Some table) =>
            wl = w'
            ∧ done.*1 = take (consumed maxrun (length order)) order
            ∧ table = foldl store expData done
        | Ret None =>
            ∃ i cond,
              (done.*1 ++ [i]) `prefix_of` order
              ∧ procedures self !! i = Some cond
              ∧ _oneProcedure self cond false wl = (Ret None, w')
        | Raise e =>
            ∃ i cond,
              (done.*1 ++ [i]) `prefix_of` order
              ∧ procedures self !! i = Some cond
              ∧ _oneProcedure self cond false wl = (Raise e, w')
        end.
Proof.
  induction order as [|i order IH];
    intros expData maxrun wT cg w out w' Hord H.
  { cbn in H. injection H as <- <-. exists [], w.
    split; [constructor|]. rewrite take_nil. auto. }
  apply Forall_cons in Hord as [Hi Hord].
  destruct (lookup_lt_is_Some_2 (procedures self) i) as [cond Hcond];
    [rewrite (procedures_length _ _ _ _ _ _ _ _ _ _ Hinit); exact Hi|].
  assert (Hc : cond ∈ procedures self)
    by (eapply list_elem_of_lookup_2; exact Hcond).
  destruct (init_procedures _ _ _ _ _ _ _ _ _ _ _ Hinit Hc)
    as (Hcue & _ & _ & Hflank).
  rewrite (block_step _ _ _ _ _ _ _ _ _ Hcond Hcue Hflank) in H.
  destruct (_oneProcedure self cond false w) as [[[res|]|e] w2] eqn:E1.
  2,3: injection H as <- <-; exists [], w; split; [constructor|];
       exists i, cond; split; [apply prefix_cons, prefix_nil|]; auto.
  cbv zeta in H. fold (log_result self res w2) in H.
  assert (Hres : condition res = cond).
  { destruct (trial_record _ _ _ _ _ _ E1)
      as (? & ? & ? & ? & ? & ? & ? & ? & A).
    cbv zeta in A. apply A. }
  assert (Hcont :
    ∀ mr', block_loop self order (<[i := row_of i cond res]> expData) mr'
             (Some (warning_code (cue cond)))
             (Some (congruency_code (flank cond)))
             (log_result self res w2) = (out, w') →
           consumed maxrun (S (length order))
           = S (consumed mr' (length order)) →
           ∃ done wl,
             trials self w done wl
             ∧ match out with
               | Ret (Some table) =>
                   wl = w'
                   ∧ done.*1 = take (consumed maxrun (length (i :: order)))
                                    (i :: order)
                   ∧ table = foldl store expData done
               | Ret None =>
                   ∃ j cj,
                     (done.*1 ++ [j]) `prefix_of` (i :: order)
                     ∧ procedures self !! j = Some cj
                     ∧ _oneProcedure self cj false wl = (Ret None, w')
               | Raise e =>
                   ∃ j cj,
                     (done.*1 ++ [j]) `prefix_of` (i :: order)
                     ∧ procedures self !! j = Some cj
                     ∧ _oneProcedure self cj false wl = (Raise e, w')
               end).
  { intros mr' Hrun Hcons.
    destruct (IH _ _ _ _ _ _ _ Hord Hrun) as (done & wl & Htr & Hout).
    exists ((i, res) :: done), wl.
    split; [econstructor; eassumption|].
    destruct out as [[table|]|e].
    - destruct Hout as (-> & Htake & Htab).
      split; [reflexivity|]. split.
      + cbn [length]. rewrite Hcons. cbn. rewrite Htake. reflexivity.
      + change (table = foldl store
                  (<[i := row_of i (condition res) res]> expData) done).
        rewrite Hres. exact Htab.
    - destruct Hout as (j & cj & Hpre & Hj & Hrun').
      exists j, cj. split; [cbn; apply prefix_cons; exact Hpre | auto].
    - destruct Hout as (j & cj & Hpre & Hj & Hrun').
      exists j, cj. split; [cbn; apply prefix_cons; exact Hpre | auto]. }
  destruct maxrun as [m|].
  - destruct (m - 1 =? 0)%Z eqn:Em.
    + injection H as <- <-. exists [(i, res)], (log_result self res w2).
      split; [econstructor; [eassumption.. | constructor]|].
      split; [reflexivity|].
      split; [| cbn; unfold store; cbn; rewrite Hres; reflexivity].
      cbn [length]. rewrite (consumed_last _ _ Em). reflexivity.
    + apply (Hcont _ H). apply consumed_step. exact Em.
  - apply (Hcont _ H). reflexivity.
Qed.

Lemma fullExperiment_trials maxrun w out w' :
  fullExperiment self maxrun w = (out, w') →
  ∃ order done wl,
    fst (random_sample (seq 0 48) 48 w) = Ret order
    ∧ order ≡ₚ seq 0 48
    ∧ trials self (mkWorld (now w) (vsync w) (draws w) (drawn w + 48)
                           (keyboard w) (trace w)) done wl
    ∧ match out with
      | Ret (Some table) =>
          wl = w'
          ∧ done.*1 = take (consumed maxrun 48) order
          ∧ table = completed (foldl store (np_zeros 48 11) done)
      | Ret None =>
          ∃ i cond,
            (done.*1 ++ [i]) `prefix_of` order
            ∧ procedures self !! i = Some cond
            ∧ _oneProcedure self cond false wl = (Ret None, w')
      | Raise e =>
          ∃ i cond,
            (done.*1 ++ [i]) `prefix_of` order
            ∧ procedures self !! i = Some cond
            ∧ _oneProcedure self cond false wl = (Raise e, w')
      end.
Proof.
  intros H. unfold fullExperiment in H.
  rewrite (procedures_length _ _ _ _ _ _ _ _ _ _ Hinit) in H.
  destruct (random_sample_spec 48 w) as (order & Hs & Hperm).
  erewrite bind_run in H by exact Hs. cbv beta in H.
  rewrite bind_unfold in H.
  destruct (block_loop _ _ _ _ _ _ _) as [out2 w2] eqn:E.
  assert (Hord : Forall (λ i, (i < 48)%nat) order).
  { rewrite Hperm. apply Forall_forall. intros i Hi.
    apply elem_of_seq in Hi. lia. }
  destruct (block_loop_trials _ _ _ _ _ _ _ _ Hord E)
    as (done & wl & Htr & Hout).
  assert (Hlen : length order = 48%nat)
    by (rewrite Hperm; apply length_seq).
  rewrite Hlen in Hout.
  exists order, done, wl.
  split; [rewrite Hs; reflexivity|]. split; [exact Hperm|]. split; [exact Htr|].
  destruct out2 as [[table|]|e]; injection H as <- <-.
  - destruct Hout as (-> & Ht & ->). auto.
  - destruct Hout as (i & cond & Hp & Hi & Hrun).
    exists i, cond. auto.
  - destruct Hout as (i & cond & Hp & Hi & Hrun).
    exists i, cond. auto.
Qed.

End Unrolled.

Lemma next_retrace_twice p x :
  0 < p → next_retrace p (next_retrace p x) == next_retrace p x + p.
Proof.
  intros Hp. unfold next_retrace.
  assert (E : Qle_bool p 0 = false).
  { destruct (Qle_bool p 0) eqn:E; [|reflexivity].
    apply Qle_bool_iff in E. lra. }
  rewrite E.
  set (k := (Qfloor (x / p) + 1)%Z).
  assert (Hk : inject_Z k * p / p == inject_Z k) by (field; lra).
  rewrite (Qfloor_comp _ _ Hk), Qfloor_Z.
  rewrite inject_Z_plus. change (inject_Z 1) with 1. ring.
Qed.

Lemma trials_pace self w done w' :
  trials self w done w' → 0 < vsync w →
  vsync w' = vsync w
  ∧ (∀ r, head done.*2 = Some r → t0 r = next_retrace (vsync w) (now w))
  ∧ (∀ j r1 r2, done.*2 !! j = Some r1 → done.*2 !! S j = Some r2 →
       t0 r2 == t0 r1 + tf r1 + vsync w)
  ∧ (∀ r, last done.*2 = Some r → now w' == t0 r + tf r).
Proof.
  induction 1 as [w | w i cond res w1 done w' Hi Hrun Htr IH]; intros Hvs.
  { split; [reflexivity|]. repeat split; intros; discriminate. }
  destruct (trial_record _ _ _ _ _ _ Hrun)
    as (r & f1 & f2 & f3 & c & b & e & line & A).
  cbv zeta in A.
  destruct A as (_ & _ & _ & _ & Ht0 & _ & _ & _ & _ & Htf & _ & _ & _ & He
                 & _ & _ & Hnow & Hvs1 & _).
  cbn [negb] in He.
  assert (Hvs2 : 0 < vsync (log_result self res w1))
    by (cbn; rewrite Hvs1; exact Hvs).
  destruct (IH Hvs2) as (Hv & Hhd & Hnext & Hlast).
  cbn [log_result vsync now] in Hv, Hhd, Hnext, Hlast.
  rewrite Hvs1 in *.
  split; [exact Hv|]. split; [|split].
  - intros r0 [= <-]. exact Ht0.
  - intros [|j] r1 r2 H1 H2; cbn in H1, H2.
    + injection H1 as <-.
      rewrite (Hhd r2) by (destruct done; [discriminate | exact H2]).
      rewrite Hnow, Htf, He.
      rewrite next_retrace_twice by exact Hvs. ring.
    + eapply Hnext; eassumption.
  - intros r0 Hl. cbn [fmap list_fmap snd] in Hl.
    destruct done as [|p done].
    + injection Hl as <-. inversion Htr; subst. cbn.
      rewrite Hnow, Htf. ring.
    + apply Hlast. exact Hl.
Qed.

Section Chain.
Context (mon : Q → Q) (ws : Z * Z) (rr st : Q) (lf dummy orig : bool).
Context (w0 w1 : World) (self : ANTExp).
Hypothesis Hinit : __init__ mon ws rr st lf dummy orig w0 = (Ret self, w1).

Lemma trials_world w done w' :
  trials self w done w' →
  vsync w' = vsync w ∧ draws w' = draws w
  ∧ drawn w' = (drawn w + length done)%nat
  ∧ keyboard w' = drop (length done) (keyboard w)
  ∧ logged (trace w') = logged (trace w) ++ done.*2
  ∧ windows (trace w')
    = windows (trace w) ++ replicate (length done) (response_window self)
  ∧ Forall (λ p, procedures self !! p.1 = Some (condition p.2)) done
  ∧ ∃ ks, keys_got (trace w') = keys_got (trace w) ++ ks
          ∧ ("escape" ∉ ks) ∧ "0" ∉ ks.
Proof.
  induction 1 as [w | w i cond res w2 done w' Hi Hrun Htr IH].
  { rewrite drop_0, !app_nil_r, Nat.add_0_r.
    repeat split; try constructor. exists [].
    rewrite app_nil_r. repeat split; apply not_elem_of_nil. }
  assert (Hc : cond ∈ procedures self)
    by (eapply list_elem_of_lookup_2; exact Hi).
  destruct (trial_outcome _ _ _ _ _ _ _ _ _ _ _ _ _ _ _ Hinit Hc Hrun)
    as (Hnone & Hsome & Hkeys & Hlog & Hwin & Hvs & Hdr & Hdn & Hkb).
  destruct IH as (IHvs & IHdr & IHdn & IHkb & IHlog & IHwin & IHp
                  & ks & IHk & IHesc & IHzero).
  cbn [log_result vsync draws drawn keyboard trace] in *.
  assert (Hres : condition res = cond).
  { destruct (captured self w) as [[k dt]|].
    - destruct (Hsome k dt eq_refl) as (Hesc & Hzero & Hkey).
      destruct (decide (k = "escape")) as [->|Hne];
        [specialize (Hesc eq_refl); discriminate Hesc|].
      destruct (decide (k = "0")) as [->|Hnz];
        [specialize (Hzero eq_refl); discriminate Hzero|].
      destruct (Hkey Hne Hnz) as (res' & [= <-] & Hcond & _). exact Hcond.
    - destruct (Hnone eq_refl) as (res' & [= <-] & _ & Hcond). exact Hcond. }
  assert (Hkk : ("escape" ∉ match captured self w with
                            | Some (k, _) => [k] | None => [] end)
                ∧ "0" ∉ match captured self w with
                        | Some (k, _) => [k] | None => [] end).
  { destruct (captured self w) as [[k dt]|];
      [|split; apply not_elem_of_nil].
    destruct (Hsome k dt eq_refl) as (Hesc & Hzero & _).
    split; intros Hin; apply list_elem_of_singleton in Hin.
    - specialize (Hesc (eq_sym Hin)). discriminate Hesc.
    - specialize (Hzero (eq_sym Hin)). discriminate Hzero. }
  split; [congruence|]. split; [congruence|].
  split; [rewrite IHdn, Hdn; cbn; lia|].
  split.
  { rewrite IHkb, Hkb. cbn [length].
    destruct (keyboard w); cbn [tail]; [rewrite !drop_nil|]; reflexivity. }
  split.
  { rewrite IHlog. unfold logged at 1. rewrite omap_app.
    fold (logged (trace w2)). rewrite Hlog.
    destruct (logfile self); cbn; rewrite <- app_assoc; reflexivity. }
  split.
  { rewrite IHwin. unfold windows at 1. rewrite omap_app.
    fold (windows (trace w2)). rewrite Hwin.
    destruct (logfile self); cbn; rewrite app_nil_r, <- app_assoc;
      reflexivity. }
  split; [constructor; [cbn; rewrite Hres; exact Hi | exact IHp]|].
  eexists (_ ++ ks). split.
  { rewrite IHk. unfold keys_got at 1. rewrite omap_app.
    fold (keys_got (trace w2)). rewrite Hkeys.
    replace (omap _ [if logfile self then _ else _]) with (@nil string)
      by (destruct (logfile self); reflexivity).
    rewrite app_nil_r, <- app_assoc. reflexivity. }
  rewrite !elem_of_app. tauto.
Qed.
End Chain.

(** ** What a trial and a block write *)

Lemma omap_quiet {A} (f : Event → option A) l :
  Forall (λ e, f e = None) l → omap f l = [].
Proof.
  induction 1 as [|e l He _ IH]; [reflexivity|].
  cbn. rewrite He. exact IH.
Qed.

Lemma trial_quiet mon ws rr st lf dummy orig w0 self w1 cond short w out w' :
  __init__ mon ws rr st lf dummy orig w0 = (Ret self, w1) →
  cond ∈ procedures self →
  _oneProcedure self cond short w = (out, w') →
  ∀ {A} (f : Event → option A),
    (∀ e, trial_event e = true → f e = None) →
    omap f (trace w') = omap f (trace w).
Proof.
  intros Hinit Hc H A0 f Hf.
  destruct (init_procedures _ _ _ _ _ _ _ _ _ _ _ Hinit Hc)
    as (_ & Hl & Hd & Hfl).
  destruct (init_visTarget _ _ _ _ _ _ _ _ _ _ _ _ _ Hinit Hl Hd Hfl)
    as (img & _ & Himg).
  destruct (init_fields _ _ _ _ _ _ _ _ _ _ Hinit)
    as (_ & _ & _ & _ & _ & Hmin & Hmax & _).
  pose proof (trial_anatomy _ _ _ _ _ _ H) as A.
  intro_let A ft; intro_let A vs; intro_let A key; intro_let A mw;
  intro_let A n.
  subst n. rewrite Hmin, Hmax in A.
  change ((1600 - 400 + 10 - 1) / 10 <=? 0)%Z with false in A.
  cbv iota in A.
  intro_let A r; intro_let A vt0; intro_let A f1; intro_let A vd1;
  intro_let A f2; intro_let A vct.
  subst key. rewrite Himg in A.
  intro_let A f3; intro_let A vd2; intro_let A keys.
  change keys with (captured self w) in *. clear keys.
  intro_let A c; intro_let A vrt; intro_let A b; intro_let A e;
  intro_let A vtf.
  destruct A as (Htr & _).
  rewrite <- (omap_calls f (trace w')) by (intros; apply Hf; reflexivity).
  rewrite Htr, !omap_app.
  rewrite omap_calls by (intros; apply Hf; reflexivity).
  rewrite <- (app_nil_r (omap f (trace w))) at 2.
  rewrite <- ?app_assoc. f_equal.
  rewrite <- ?omap_app. apply omap_quiet.
  repeat (apply Forall_app; split);
    repeat (apply Forall_cons; split; [apply Hf; reflexivity|]);
    try apply List.Forall_nil.
  - destruct (captured self w) as [[k dt]|];
      [destruct (bool_decide (k = "escape"));
       [|destruct (bool_decide (k = "0"))]|];
      repeat (apply Forall_cons; split; [apply Hf; reflexivity|]);
      apply List.Forall_nil.
  - destruct short;
      repeat (apply Forall_cons; split; [apply Hf; reflexivity|]);
      apply List.Forall_nil.
Qed.

Section Observed.
Context (mon : Q → Q) (ws : Z * Z) (rr st : Q) (lf dummy orig : bool).
Context (w0 w1 : World) (self : ANTExp).
Hypothesis Hinit : __init__ mon ws rr st lf dummy orig w0 = (Ret self, w1).

Lemma trials_observe w done w' :
  trials self w done w' →
  ∀ {A} (f : Event → option A),
    (∀ e, trial_event e = true → f e = None) →
    omap f (trace w')
    = omap f (trace w)
      ++ omap f ((λ p, if logfile self then LogWrite (ResultLine p.2)
                       else Stdout (ResultLine p.2)) <$> done).
Proof.
  induction 1 as [w | w i cond res w2 done w' Hi Hrun Htr IH];
    intros A f Hf.
  { rewrite app_nil_r. reflexivity. }
  assert (Hc : cond ∈ procedures self)
    by (eapply list_elem_of_lookup_2; exact Hi).
  rewrite (IH _ f Hf). cbn [log_result trace]. rewrite omap_app.
  rewrite (trial_quiet _ _ _ _ _ _ _ _ _ _ _ _ _ _ _ Hinit Hc Hrun f Hf).
  rewrite <- app_assoc. f_equal. rewrite <- omap_app. reflexivity.
Qed.

Lemma trials_on_time w done w' :
  trials self w done w' → 10 <= rr → vsync w == 1 / rr →
  Forall (λ p, 4 - 1 / rr < tf p.2 ∧ tf p.2 <= 4) done.
Proof.
  induction 1 as [w | w i cond res w2 done w' Hi Hrun Htr IH];
    intros Hrr Hvs; [constructor|].
  destruct (trial_on_time _ _ _ _ _ _ _ _ _ _ _ _ _ _ Hinit Hrun Hrr Hvs)
    as (r & _ & _ & _ & _ & Htf).
  constructor; [exact Htf|]. apply IH; [exact Hrr|].
  cbn [log_result vsync].
  destruct (trial_record _ _ _ _ _ _ Hrun)
    as (? & ? & ? & ? & ? & ? & ? & ? & A).
  cbv zeta in A.
  destruct A as (_ & _ & _ & _ & _ & _ & _ & _ & _ & _ & _ & _ & _ & _
                 & _ & _ & _ & Hvs1 & _).
  rewrite Hvs1. exact Hvs.
Qed.

End Observed.

(** X14.  On a display of at least 10 Hz whose retrace period is the frame
    time [__init__] computed, the first trial of a block starts at the
    first retrace after the call, and each further logged trial starts more
    than 4 s and at most 4 s and one frame after the one before it. *)
Theorem block_pace
    mon ws rr st lf dummy orig w0 self w1 maxrun w out w' :
  __init__ mon ws rr st lf dummy orig w0 = (Ret self, w1) →
  fullExperiment self maxrun w = (out, w') →
  10 <= rr → vsync w == 1 / rr →
  ∃ done,
    logged (trace w') = logged (trace w) ++ done
    ∧ (∀ r, head done = Some r → t0 r = next_retrace (vsync w) (now w))
    ∧ ∀ j r1 r2, done !! j = Some r1 → done !! S j = Some r2 →
        4 < t0 r2 - t0 r1 ∧ t0 r2 - t0 r1 <= 4 + 1 / rr.
Proof.
  intros Hinit H Hrr Hvs.
  destruct (fullExperiment_trials _ _ _ _ _ _ _ _ _ _ Hinit _ _ _ _ H)
    as (order & done & wl & _ & _ & Htr & Hout).
  exists done.*2.
  assert (Hft : 0 < 1 / rr) by (apply Qlt_shift_div_l; lra).
  assert (Hvs0 : 0 < vsync w) by lra.
  destruct (trials_pace _ _ _ _ Htr Hvs0) as (_ & Hhd & Hnext & _).
  pose proof (trials_on_time _ _ _ _ _ _ _ _ _ _ Hinit _ _ _ Htr Hrr Hvs)
    as Htf.
  cbn [vsync now] in *.
  split; [|split; [exact Hhd|]].
  - assert (Hl : logged (trace wl) = logged (trace w) ++ done.*2).
    { unfold logged.
      rewrite (trials_observe _ _ _ _ _ _ _ _ _ _ Hinit _ _ _ Htr)
        by (intros [] He; try discriminate He; try reflexivity;
            destruct l; try discriminate He; reflexivity).
      cbn [trace]. f_equal. clear.
      induction done as [|p done IH]; [reflexivity|].
      cbn. destruct (logfile self); cbn; rewrite IH; reflexivity. }
    assert (Hfail : ∀ i cond r,
              procedures self !! i = Some cond →
              _oneProcedure self cond false wl = (r, w') →
              logged (trace w') = logged (trace w) ++ done.*2).
    { intros i cond r Hi Hrun. rewrite <- Hl. unfold logged.
      apply (trial_quiet _ _ _ _ _ _ _ _ _ _ _ _ _ _ _ Hinit
               (list_elem_of_lookup_2 _ _ _ Hi) Hrun).
      intros [] He; try discriminate He; try reflexivity;
        destruct l; try discriminate He; reflexivity. }
    destruct out as [[table|]|e].
    + destruct Hout as (<- & _). exact Hl.
    + destruct Hout as (i & cond & _ & Hi & Hrun). eauto.
    + destruct Hout as (i & cond & _ & Hi & Hrun). eauto.
  - intros j r1 r2 H1 H2.
    specialize (Hnext j r1 r2 H1 H2).
    assert (Hb : 4 - 1 / rr < tf r1 ∧ tf r1 <= 4).
    { apply list_lookup_fmap_Some in H1 as (p & -> & Hp).
      rewrite Forall_forall in Htf. apply Htf.
      eapply list_elem_of_lookup_2. exact Hp. }
    destruct Hb. split; lra.
Qed.

Lemma block_pace_witness :
  ∃ self w1 out w' done,
    __init__ mon50 (1440, 900)%Z 60 0 false false true world60
      = (Ret self, w1)
    ∧ fullExperiment self (Some 2%Z) world60 = (out, w')
    ∧ logged (trace w') = done
    ∧ ∀ r1 r2, done !! 0%nat = Some r1 → done !! 1%nat = Some r2 →
        4 < t0 r2 - t0 r1 ∧ t0 r2 - t0 r1 <= 4 + 1 / 60.
Proof.
  destruct (init_total mon50 (1440, 900)%Z 60 0 false false true world60
              eq_refl) as (self & w1 & Hinit).
  destruct (fullExperiment self (Some 2%Z) world60) as [out w'] eqn:E.
  destruct (block_pace _ _ _ _ _ _ _ _ _ _ _ _ _ _ Hinit E)
    as (done & Hlog & _ & Hpace).
  - vm_compute. discriminate.
  - vm_compute. reflexivity.
  - exists self, w1, out, w', done.
    split; [exact Hinit|]. split; [exact E|].
    split; [exact Hlog|]. apply Hpace.
Defined.

(** ** A block stopped by [maxrun] *)

Lemma bind_ext {A B} (m : M A) (k1 k2 : A → M B) w :
  (∀ x w1, k1 x w1 = k2 x w1) → (m ≫= k1) w = (m ≫= k2) w.
Proof.
  intros H. rewrite !bind_unfold.
  destruct (m w) as [[x|e] w1]; [apply H | reflexivity].
Qed.

Lemma block_loop_never_zero self order :
  ∀ expData m wT cg w,
    (m <= 0 ∨ Z.of_nat (length order) < m)%Z →
    block_loop self order expData (Some m) wT cg w
    = block_loop self order expData None wT cg w.
Proof.
  induction order as [|i order IH]; intros expData m wT cg w Hm;
    [reflexivity|].
  cbn [block_loop].
  apply bind_ext; intros condition wa.
  apply bind_ext; intros [res|] wb; [|reflexivity].
  do 6 (apply bind_ext; intros ? ?).
  cbn [length] in Hm.
  destruct (Z.eqb_spec (m - 1) 0) as [E|E]; [lia|].
  apply IH. lia.
Qed.

Lemma sample_pool_length {A} n k : ∀ i (pool result : list A) w l w',
  sample_pool n k i pool result w = (Ret l, w') →
  length l = (length result + k)%nat.
Proof.
  induction k as [|k IH]; intros i pool result w l w' H.
  { cbn in H. injection H as <- _. lia. }
  cbn [sample_pool] in H. rewrite bind_unfold in H.
  cbn in H.
  destruct (pool !! _) as [x|]; [|discriminate H].
  destruct (pool !! _) as [y|]; [|discriminate H].
  apply IH in H. rewrite H, length_app. cbn. lia.
Qed.

(** X15.  A [maxrun] that is zero, negative or above the number of
    conditions never stops the block: [fullExperiment(maxrun)] then does
    exactly what [fullExperiment()] does. *)
Theorem maxrun_out_of_range self m w :
  (m <= 0 ∨ Z.of_nat (length (procedures self)) < m)%Z →
  fullExperiment self (Some m) w = fullExperiment self None w.
Proof.
  intros Hm. unfold fullExperiment.
  rewrite !(bind_unfold (random_sample _ _)).
  destruct (random_sample _ _ w) as [[order|e] ws] eqn:Es; [|reflexivity].
  assert (Hlen : length order = length (procedures self)).
  { unfold random_sample in Es. rewrite length_seq in Es.
    destruct (bool_decide _); [|discriminate Es].
    apply sample_pool_length in Es. exact Es. }
  rewrite !bind_unfold.
  rewrite block_loop_never_zero by (rewrite Hlen; exact Hm).
  reflexivity.
Qed.

Lemma maxrun_out_of_range_witness :
  fullExperiment exp60 (Some 0%Z) world60 = fullExperiment exp60 None world60
  ∧ fullExperiment exp60 (Some 49%Z) world60
    = fullExperiment exp60 None world60.
Proof.
  split; apply maxrun_out_of_range.
  - left. lia.
  - right. vm_compute. reflexivity.
Defined.

(** ** The table of a block, row by row *)

Lemma completed_store n (done : list (nat * TrialResult)) :
  NoDup done.*1 → Forall (λ i, (i < n)%nat) done.*1 →
  completed (foldl store (np_zeros n 11) done)
  = omap (λ i, (λ res, row_of i (condition res) res)
                 <$> (list_to_map done : gmap nat TrialResult) !! i)
         (seq 0 n)
  ∧ length (completed (foldl store (np_zeros n 11) done)) = length done.
Proof.
  intros Hnd Hlt.
  set (m := list_to_map done : gmap nat TrialResult).
  set (g := λ i, match m !! i with
                 | Some res => row_of i (condition res) res
                 | None => replicate 11 0
                 end).
  assert (Hg : foldl store (np_zeros n 11) done = g <$> seq 0 n).
  { apply list_eq. intros i.
    rewrite list_lookup_fmap.
    destruct (decide (i < n)%nat) as [Hi|Hi].
    - rewrite lookup_seq_lt by exact Hi. cbn. unfold g.
      destruct (m !! i) as [res|] eqn:Em.
      + apply elem_of_list_to_map in Em; [|exact Hnd].
        apply foldl_store_lookup; [exact Hnd | exact Em |].
        unfold np_zeros. rewrite length_replicate. exact Hi.
      + apply not_elem_of_list_to_map in Em.
        rewrite foldl_store_other by exact Em.
        unfold np_zeros. apply lookup_replicate_2. exact Hi.
    - rewrite lookup_seq_ge by lia. cbn.
      apply lookup_ge_None_2. rewrite foldl_store_length.
      unfold np_zeros. rewrite length_replicate. lia. }
  rewrite Hg.
  assert (Hc : ∀ l, completed (g <$> l)
                    = omap (λ i, (λ res, row_of i (condition res) res)
                                   <$> m !! i) l).
  { induction l as [|i l IH]; [reflexivity|].
    unfold completed in *. rewrite fmap_cons. cbn [List.filter omap list_omap].
    rewrite IH. unfold g.
    destruct (m !! i); reflexivity. }
  split; [apply Hc|].
  rewrite Hc.
  assert (Hf : ∀ l, length (omap (λ i, (λ res, row_of i (condition res) res)
                                         <$> m !! i) l)
                    = length (filter (λ i, i ∈ done.*1) l)).
  { induction l as [|i l IH]; [reflexivity|].
    rewrite filter_cons. cbn [omap list_omap].
    destruct (m !! i) as [res|] eqn:Em; cbn [fmap option_fmap option_map].
    - apply elem_of_list_to_map in Em; [|exact Hnd].
      rewrite decide_True
        by (apply list_elem_of_fmap; exists (i, res); auto).
      cbn [length]. rewrite <- IH. reflexivity.
    - apply not_elem_of_list_to_map in Em.
      rewrite decide_False by exact Em. exact IH. }
  rewrite Hf.
  rewrite <- (length_fmap fst done).
  apply Permutation_length, NoDup_Permutation.
  - apply NoDup_filter, NoDup_seq.
  - exact Hnd.
  - intros i. rewrite list_elem_of_filter, elem_of_seq.
    rewrite Forall_forall in Hlt. split; [tauto|].
    intros Hi. split; [exact Hi|]. specialize (Hlt i Hi). lia.
Qed.

Lemma quiet_logged e :
  trial_event e = true →
  match e with
  | Stdout (ResultLine r) | LogWrite (ResultLine r) => Some r
  | _ => None
  end = None.
Proof. destruct e as [| | | | | |l|l|l]; try destruct l; intros H;
         first [reflexivity | discriminate H]. Qed.

Lemma consumed_le maxrun n : (consumed maxrun n ≤ n)%nat.
Proof.
  unfold consumed. destruct maxrun as [m|]; [|lia].
  destruct (Z.ltb_spec 0 m), (Z.leb_spec m (Z.of_nat n)); cbn [andb]; lia.
Qed.

(** X16.  The table a block returns has one row for each trial it ran: as
    many rows as [maxrun] lets through (all 48 without it), in increasing
    order of the condition index and not in the order of execution; row by
    row it is the row stored for the trial of that condition, and the
    conditions that were not run have no row. *)
Theorem truncated_table
    mon ws rr st lf dummy orig w0 self w1 maxrun w table w' :
  __init__ mon ws rr st lf dummy orig w0 = (Ret self, w1) →
  fullExperiment self maxrun w = (Ret (Some table), w') →
  ∃ order (done : list (nat * TrialResult)),
    fst (random_sample (seq 0 48) 48 w) = Ret order
    ∧ done.*1 = take (consumed maxrun 48) order
    ∧ logged (trace w') = logged (trace w) ++ done.*2
    ∧ length table = consumed maxrun 48
    ∧ table = omap (λ i, (λ res, row_of i (condition res) res)
                           <$> (list_to_map done : gmap nat TrialResult) !! i)
                   (seq 0 48).
Proof.
  intros Hinit H.
  destruct (fullExperiment_trials _ _ _ _ _ _ _ _ _ _ Hinit _ _ _ _ H)
    as (order & done & wl & Hs & Hperm & Htr & <- & Htake & ->).
  exists order, done.
  split; [exact Hs|]. split; [exact Htake|].
  split.
  { unfold logged.
    rewrite (trials_observe _ _ _ _ _ _ _ _ _ _ Hinit _ _ _ Htr)
      by apply quiet_logged.
    cbn [trace]. f_equal. clear.
    induction done as [|p done IH]; [reflexivity|].
    cbn. destruct (logfile self); cbn; rewrite IH; reflexivity. }
  assert (Hno : NoDup order) by (rewrite Hperm; apply NoDup_seq).
  assert (Hnd : NoDup done.*1).
  { rewrite Htake. eapply sublist_NoDup; [exact Hno | apply sublist_take]. }
  assert (Hlt : Forall (λ i, (i < 48)%nat) done.*1).
  { rewrite Htake. apply Forall_take. rewrite Hperm.
    apply Forall_forall. intros i Hi. apply elem_of_seq in Hi. lia. }
  destruct (completed_store 48 done Hnd Hlt) as [Heq Hlen].
  split; [|exact Heq].
  rewrite Hlen, <- (length_fmap fst done), Htake.
  apply length_take_le.
  rewrite Hperm, length_seq. apply consumed_le.
Qed.

Lemma truncated_table_witness :
  ∃ self w1 table w',
    __init__ mon50 (1440, 900)%Z 60 0 false false true world60
      = (Ret self, w1)
    ∧ fullExperiment self (Some 3%Z) world60 = (Ret (Some table), w')
    ∧ length table = 3%nat.
Proof.
  destruct (init_total mon50 (1440, 900)%Z 60 0 false false true world60
              eq_refl) as (self & w1 & Hinit).
  assert (Hs : self = exp60)
    by (unfold exp60, exp_at; rewrite Hinit; reflexivity).
  assert (Hrun : returned_table (fst (fullExperiment self (Some 3%Z) world60))
                 = true)
    by (rewrite Hs; vm_compute; reflexivity).
  destruct (fullExperiment self (Some 3%Z) world60)
    as [[[table|]|e] w'] eqn:E; try discriminate Hrun.
  destruct (truncated_table _ _ _ _ _ _ _ _ _ _ _ _ _ _ Hinit E)
    as (order & done & _ & _ & _ & Hlen & _).
  exists self, w1, table, w'.
  split; [exact Hinit|]. split; [exact E|]. exact Hlen.
Defined.

(** X17.  A block writes one result line for each completed trial, in the
    order of execution, and to one place only.  The completed trials are
    the chain [done]: the trials of the first conditions of the order, run
    one after the other, each logged before the next starts, up to the end
    of the block or to the trial that stopped it.  Their records, in that
    order, are what the block logs: to the log file when [__init__] was
    given one (nothing but these lines goes to the file, and no result line
    to stdout), to stdout otherwise (and nothing to the file).  It never
    writes to stderr. *)
Theorem log_destination
    mon ws rr st lf dummy orig w0 self w1 maxrun w out w' :
  __init__ mon ws rr st lf dummy orig w0 = (Ret self, w1) →
  fullExperiment self maxrun w = (out, w') →
  ∃ order (done : list (nat * TrialResult)) wl,
    fst (random_sample (seq 0 48) 48 w) = Ret order
    ∧ done.*1 `prefix_of` order
    ∧ (∀ table, out = Ret (Some table) →
         done.*1 = take (consumed maxrun 48) order)
    ∧ trials self (mkWorld (now w) (vsync w) (draws w) (drawn w + 48)
                           (keyboard w) (trace w)) done wl
    ∧ match out with
      | Ret (Some _) => wl = w'
      | _ =>
          ∃ i cond r,
            (done.*1 ++ [i]) `prefix_of` order
            ∧ procedures self !! i = Some cond
            ∧ _oneProcedure self cond false wl = (r, w')
            ∧ ∀ res, r ≠ Ret (Some res)
      end
    ∧ logged (trace w') = logged (trace w) ++ done.*2
    ∧ logfile_lines (trace w')
      = logfile_lines (trace w)
        ++ (if lf then ResultLine <$> done.*2 else [])
    ∧ stdout_results (trace w')
      = stdout_results (trace w) ++ (if lf then [] else done.*2)
    ∧ stderr_lines (trace w') = stderr_lines (trace w).
Proof.
  intros Hinit H.
  destruct (fullExperiment_trials _ _ _ _ _ _ _ _ _ _ Hinit _ _ _ _ H)
    as (order & done & wl & Hs & _ & Htr & Hout).
  destruct (init_fields _ _ _ _ _ _ _ _ _ _ Hinit)
    as (_ & _ & _ & _ & Hlf & _).
  assert (Hobs : ∀ A (f : Event → option A),
            (∀ e, trial_event e = true → f e = None) →
            omap f (trace w')
            = omap f (trace w)
              ++ omap f ((λ p, if lf then LogWrite (ResultLine p.2)
                               else Stdout (ResultLine p.2)) <$> done)).
  { intros A f Hf.
    pose proof (trials_observe _ _ _ _ _ _ _ _ _ _ Hinit _ _ _ Htr f Hf)
      as Hl.
    cbn [trace] in Hl. rewrite Hlf in Hl.
    destruct out as [[table|]|e].
    - destruct Hout as (<- & _). exact Hl.
    - destruct Hout as (i & cond & _ & Hi & Hrun). rewrite <- Hl.
      apply (trial_quiet _ _ _ _ _ _ _ _ _ _ _ _ _ _ _ Hinit
               (list_elem_of_lookup_2 _ _ _ Hi) Hrun f Hf).
    - destruct Hout as (i & cond & _ & Hi & Hrun). rewrite <- Hl.
      apply (trial_quiet _ _ _ _ _ _ _ _ _ _ _ _ _ _ _ Hinit
               (list_elem_of_lookup_2 _ _ _ Hi) Hrun f Hf). }
  assert (Hpre : ∀ i, (done.*1 ++ [i]) `prefix_of` order →
                      done.*1 `prefix_of` order).
  { intros i Hp. etransitivity; [apply prefix_app_r; reflexivity | exact Hp]. }
  exists order, done, wl.
  split; [exact Hs|].
  split.
  { destruct out as [[table|]|e].
    - destruct Hout as (_ & -> & _). apply prefix_take.
    - destruct Hout as (i & cond & Hp & _). eapply Hpre; exact Hp.
    - destruct Hout as (i & cond & Hp & _). eapply Hpre; exact Hp. }
  split.
  { intros table ->. apply Hout. }
  split; [exact Htr|].
  split.
  { destruct out as [[table|]|e].
    - apply Hout.
    - destruct Hout as (i & cond & Hp & Hi & Hrun).
      exists i, cond, (Ret None). repeat split; try assumption.
      discriminate.
    - destruct Hout as (i & cond & Hp & Hi & Hrun).
      exists i, cond, (Raise e). repeat split; try assumption.
      discriminate. }
  unfold logged, logfile_lines, stdout_results, stderr_lines.
  rewrite !Hobs
    by (intros [| | | | | |l|l|l]; try destruct l; intros He;
        first [reflexivity | discriminate He]).
  clear.
  split; [|split; [|split]];
    [| | |rewrite <- (app_nil_r (omap _ (trace w))) at 2];
    f_equal;
    induction done as [|p done IH]; destruct lf; cbn in *;
      rewrite ?IH; reflexivity.
Qed.

Lemma log_destination_witness :
  ∃ self w1 out w',
    __init__ mon50 (1440, 900)%Z 60 0 true false true world60
      = (Ret self, w1)
    ∧ fullExperiment self (Some 2%Z) world60 = (out, w')
    ∧ stdout_results (trace w') = []
    ∧ stderr_lines (trace w') = []
    ∧ logfile_lines (trace w') = ResultLine <$> logged (trace w').
Proof.
  destruct (init_total mon50 (1440, 900)%Z 60 0 true false true world60
              eq_refl) as (self & w1 & Hinit).
  destruct (fullExperiment self (Some 2%Z) world60) as [out w'] eqn:E.
  destruct (log_destination _ _ _ _ _ _ _ _ _ _ _ _ _ _ Hinit E)
    as (order & done & wl & _ & _ & _ & _ & _ & Hlog & Hfile & Hout & Herr).
  exists self, w1, out, w'.
  split; [exact Hinit|]. split; [exact E|].
  split; [exact Hout|]. split; [exact Herr|].
  rewrite Hfile, Hlog. reflexivity.
Defined.

(** X18.  A block takes 48 outputs of the random generator for the order
    of its trials and one more for each trial it starts, and each trial it
    starts opens exactly one response window and consumes one entry of the
    keyboard script: never more than 48, and exactly as many as [maxrun]
    lets through when the block returns its table. *)
Theorem block_resources
    mon ws rr st lf dummy orig w0 self w1 maxrun w out w' :
  __init__ mon ws rr st lf dummy orig w0 = (Ret self, w1) →
  fullExperiment self maxrun w = (out, w') →
  ∃ n,
    (n ≤ 48)%nat
    ∧ (∀ table, out = Ret (Some table) → n = consumed maxrun 48)
    ∧ drawn w' = (drawn w + 48 + n)%nat
    ∧ draws w' = draws w
    ∧ keyboard w' = drop n (keyboard w)
    ∧ windows (trace w')
      = windows (trace w) ++ replicate n (response_window self).
Proof.
  intros Hinit H.
  destruct (fullExperiment_trials _ _ _ _ _ _ _ _ _ _ Hinit _ _ _ _ H)
    as (order & done & wl & _ & Hperm & Htr & Hout).
  destruct (trials_world _ _ _ _ _ _ _ _ _ _ Hinit _ _ _ Htr)
    as (_ & Hdr & Hdn & Hkb & _ & Hwin & _).
  cbn [draws drawn keyboard trace] in *.
  assert (Hlen : length order = 48%nat)
    by (rewrite Hperm; apply length_seq).
  assert (Hstop : ∀ i cond r,
            (done.*1 ++ [i]) `prefix_of` order →
            procedures self !! i = Some cond →
            _oneProcedure self cond false wl = (r, w') →
            ∃ n,
              (n ≤ 48)%nat
              ∧ drawn w' = (drawn w + 48 + n)%nat
              ∧ draws w' = draws w
              ∧ keyboard w' = drop n (keyboard w)
              ∧ windows (trace w')
                = windows (trace w) ++ replicate n (response_window self)).
  { intros i cond r Hpre Hi Hrun.
    destruct (trial_outcome _ _ _ _ _ _ _ _ _ _ _ _ _ _ _ Hinit
                (list_elem_of_lookup_2 _ _ _ Hi) Hrun)
      as (_ & _ & _ & _ & Hw & _ & Hd & Hn & Hk).
    exists (S (length done)).
    apply prefix_length in Hpre.
    rewrite length_app, length_fmap in Hpre. cbn in Hpre.
    split; [lia|]. split; [lia|]. split; [congruence|].
    split.
    { rewrite Hk, Hkb.
      replace (S (length done)) with (length done + 1)%nat by lia.
      rewrite <- drop_drop.
      destruct (drop (length done) (keyboard w)); reflexivity. }
    rewrite Hw, Hwin, <- app_assoc, replicate_S_end. reflexivity. }
  destruct out as [[table|]|e].
  - destruct Hout as (<- & Htake & _).
    assert (Hn : length done = consumed maxrun 48).
    { rewrite <- (length_fmap fst done), Htake.
      apply length_take_le. rewrite Hlen. apply consumed_le. }
    exists (length done).
    split; [rewrite Hn; apply consumed_le|].
    split; [intros; exact Hn|].
    split; [lia|]. auto.
  - destruct Hout as (i & cond & Hpre & Hi & Hrun).
    destruct (Hstop _ _ _ Hpre Hi Hrun) as (n & Hn & Hrest).
    exists n. split; [exact Hn|]. split; [discriminate | exact Hrest].
  - destruct Hout as (i & cond & Hpre & Hi & Hrun).
    destruct (Hstop _ _ _ Hpre Hi Hrun) as (n & Hn & Hrest).
    exists n. split; [exact Hn|]. split; [discriminate | exact Hrest].
Qed.

Lemma block_resources_witness :
  ∃ self w1 table w',
    __init__ mon50 (1440, 900)%Z 60 0 false false true world60
      = (Ret self, w1)
    ∧ fullExperiment self (Some 3%Z) world60 = (Ret (Some table), w')
    ∧ drawn w' = 51%nat
    ∧ keyboard w' = replicate 45 (Some ("a", 0.2)).
Proof.
  destruct (init_total mon50 (1440, 900)%Z 60 0 false false true world60
              eq_refl) as (self & w1 & Hinit).
  assert (Hs : self = exp60)
    by (unfold exp60, exp_at; rewrite Hinit; reflexivity).
  assert (Hrun : returned_table (fst (fullExperiment self (Some 3%Z) world60))
                 = true)
    by (rewrite Hs; vm_compute; reflexivity).
  destruct (fullExperiment self (Some 3%Z) world60)
    as [[[table|]|e] w'] eqn:E; try discriminate Hrun.
  destruct (block_resources _ _ _ _ _ _ _ _ _ _ _ _ _ _ Hinit E)
    as (n & _ & Hn & Hdrawn & _ & Hkb & _).
  rewrite (Hn table eq_refl) in Hdrawn, Hkb.
  exists self, w1, table, w'.
  split; [exact Hinit|]. split; [exact E|].
  split; [exact Hdrawn | exact Hkb].
Defined.

(** ** A cue the block does not know *)

(** X19.  When the condition of a completed trial has a cue that lines
    417-426 do not know, the block writes its error message to stderr and
    goes on: the row of that trial carries the warning code left by the
    trial before it, and if there was none (first trial of the block) the
    block raises [UnboundLocalError] on [warningType], after the result
    line and the message have been written. *)
Theorem unknown_cue_code self i expData maxrun wT cg w cond res w1 :
  procedures self !! i = Some cond →
  cue cond ∉ ["no"; "center"; "double"; "spatial"] →
  flank cond ∈ ["incongruent"; "neutral"; "congruent"] →
  _oneProcedure self cond false w = (Ret (Some res), w1) →
  block_loop self [i] expData maxrun wT cg w =
  let w2 :=
    mkWorld (now w1) (vsync w1) (draws w1) (drawn w1) (keyboard w1)
      (trace w1 ++ [if logfile self then LogWrite (ResultLine res)
                    else Stdout (ResultLine res);
                    Stderr (UnknownCue (cue cond))]) in
  match wT with
  | None => (Raise (UnboundLocalError "warningType"), w2)
  | Some code =>
      (Ret (Some (<[i := [t0 res; inject_Z (Z.of_nat i); inject_Z code;
                          inject_Z (congruency_code (flank cond));
                          d1 res; ct res; d2 res; rt res; tf res;
                          if bool_decide (resp res = Some "OK") then 1
                          else 0;
                          1]]> expData)), w2)
  end.
Proof.
  intros Hi Hcue Hflank Hrun. cbn [block_loop].
  erewrite bind_run by (unfold index; rewrite Hi; reflexivity). cbv beta.
  erewrite bind_run by exact Hrun. cbv beta iota.
  erewrite bind_run by apply emit_either. cbv beta.
  erewrite bind_run by (unfold index; rewrite Hi; reflexivity). cbv beta.
  assert (Hw : ∀ w', code_warningType cond wT w'
                     = (Ret wT, mkWorld (now w') (vsync w') (draws w')
                                  (drawn w') (keyboard w')
                                  (trace w' ++ [Stderr (UnknownCue
                                                          (cue cond))]))).
  { intros w'. unfold code_warningType.
    rewrite !not_elem_of_cons in Hcue.
    destruct Hcue as (H1 & H2 & H3 & H4 & _).
    rewrite !bool_decide_eq_false_2 by assumption. reflexivity. }
  erewrite bind_run by apply Hw. cbv beta.
  cbn [now vsync draws drawn keyboard trace].
  erewrite bind_run by (apply code_congruency_known; exact Hflank).
  cbv beta. rewrite <- app_assoc. cbn [app].
  destruct wT as [code|]; [|reflexivity].
  do 2 (erewrite bind_run by reflexivity; cbv beta).
  destruct maxrun as [m|]; [destruct (m - 1 =? 0)%Z|]; reflexivity.
Qed.

Lemma unknown_cue_code_witness :
  ∃ cond res w1,
    procedures exp_tone !! 0%nat = Some cond
    ∧ _oneProcedure exp_tone cond false world_500 = (Ret (Some res), w1)
    ∧ fst (block_loop exp_tone [0%nat] (np_zeros 1 11) None None None
             world_500)
      = Raise (UnboundLocalError "warningType")
    ∧ ∃ table,
        fst (block_loop exp_tone [0%nat] (np_zeros 1 11) None (Some 2%Z)
               None world_500)
        = Ret (Some [table])
        ∧ table !! 2%nat = Some (inject_Z 2).
Proof.
  set (cond := Bunch_condition "tone" "top" "left" "congruent").
  destruct (_oneProcedure exp_tone cond false world_500)
    as [[[res|]|err] w1] eqn:E;
    [| vm_compute in E; discriminate E | vm_compute in E; discriminate E].
  assert (Hi : procedures exp_tone !! 0%nat = Some cond) by reflexivity.
  assert (Hcue : cue cond ∉ ["no"; "center"; "double"; "spatial"])
    by (apply (bool_decide_unpack _); vm_compute; exact I).
  assert (Hfl : flank cond ∈ ["incongruent"; "neutral"; "congruent"])
    by (apply (bool_decide_unpack _); vm_compute; exact I).
  exists cond, res, w1. split; [exact Hi|]. split; [exact E|].
  split.
  - rewrite (unknown_cue_code exp_tone 0%nat (np_zeros 1 11) None None None
               world_500 cond res w1 Hi Hcue Hfl E).
    reflexivity.
  - rewrite (unknown_cue_code exp_tone 0%nat (np_zeros 1 11) None
               (Some 2%Z) None world_500 cond res w1 Hi Hcue Hfl E).
    eexists. split; reflexivity.
Defined.

(** ** Text screens *)

Lemma io_bind_unfold {A B} (m : IO A) (k : A → IO B) s :
  (m ≫= k) s = match m s with
               | Some (Ret a, s') => k a s'
               | Some (Raise e, s') => Some (Raise e, s')
               | None => None
               end.
Proof. reflexivity. Qed.

Lemma displayText_run self text showLine noWait time s :
  displayText self text showLine noWait time s =
  let w := world s in
  let f1 := next_retrace (vsync w) (now w) in
  let f2 := next_retrace (vsync w) f1 in
  let n := S (length (trace w)) in
  let ses := session s
             ++ ((λ v, (n, DrawVisual v)) <$> text_screen text showLine) in
  if noWait then
    let f3 := next_retrace (vsync w) (after time f2) in
    Some (Ret false,
          mkStage (mkWorld f3 (vsync w) (draws w) (drawn w) (keyboard w)
                     (trace w ++ [Flip f1; Flip f2; Wait time 0.2; Flip f3]))
                  ses)
  else
    match keyboard w with
    | Some (k, dt) :: rest =>
        if Qle_bool 0 dt then
          let f3 := next_retrace (vsync w) (f2 + dt) in
          Some (Ret (bool_decide (k = "escape")),
                mkStage (mkWorld f3 (vsync w) (draws w) (drawn w) rest
                           (trace w ++ [Flip f1; Flip f2; Flip f3]))
                        (ses ++ [(S n, WaitKeysUnbounded)]))
        else None
    | _ => None
    end.
Proof.
  destruct s as [[n0 v dr dn kb tr] ses0].
  unfold displayText, text_screen.
  unfold mbind, IO_bind, mret, IO_ret, in_world, draw_visual, call,
    win_flip, core_wait, event_waitKeys_unbounded.
  cbn [world session now vsync draws drawn keyboard trace].
  destruct showLine, noWait;
    cbn [world session now vsync draws drawn keyboard trace fmap list_fmap];
    rewrite ?length_app; cbn [length]; rewrite ?Nat.add_1_r;
    rewrite <- ?app_assoc; cbn [app]; try reflexivity;
    destruct kb as [|[[k dt]|] rest]; try reflexivity;
    destruct (Qle_bool 0 dt); try reflexivity;
    cbn [world session now vsync draws drawn keyboard trace];
    rewrite ?length_app; cbn [length]; rewrite ?Nat.add_1_r;
    rewrite <- ?app_assoc; cbn [app]; reflexivity.
Qed.

Lemma visuals_screen ses n text showLine :
  visuals (ses ++ ((λ v, (n, DrawVisual v)) <$> text_screen text showLine))
  = visuals ses ++ text_screen text showLine.
Proof.
  unfold visuals. rewrite omap_app. f_equal.
  destruct showLine; reflexivity.
Qed.

Lemma pages_app a b : pages (a ++ b) = pages a ++ pages b.
Proof. apply omap_app. Qed.

Lemma pages_screen n text showLine :
  pages ((λ v, (n, DrawVisual v)) <$> text_screen text showLine) = [text].
Proof. destruct showLine; reflexivity. Qed.

(** X20.  [displayText] with [noWait] returns [False] without reading
    the keyboard.  Its events are a flip, a second flip, the wait of
    [time] seconds and a third flip; the text (and the ruler when
    [showLine] is set) is drawn when exactly the first of them has been
    made, so the second flip shows it, and the third flip, which takes it
    away, comes at least [time] seconds after the second. *)
Theorem displayText_timed self text showLine time s :
  ∃ s' f1 f2 f3,
    displayText self text showLine true time s = Some (Ret false, s')
    ∧ keyboard (world s') = keyboard (world s)
    ∧ trace (world s')
      = trace (world s) ++ [Flip f1; Flip f2; Wait time 0.2; Flip f3]
    ∧ flips (trace (world s')) = flips (trace (world s)) ++ [f1; f2; f3]
    ∧ f2 + time <= f3
    ∧ session s'
      = session s
        ++ ((λ v, (S (length (trace (world s))), DrawVisual v))
              <$> text_screen text showLine)
    ∧ visuals (session s') = visuals (session s) ++ text_screen text showLine.
Proof.
  rewrite displayText_run. cbv zeta.
  eexists _, _, _, _. split; [reflexivity|].
  cbn [world session keyboard trace].
  split; [reflexivity|]. split; [reflexivity|].
  split; [unfold flips; rewrite omap_app; reflexivity|].
  split; [|split; [reflexivity | apply visuals_screen]].
  eapply Qle_trans; [apply after_reach | apply next_retrace_ge].
Qed.

(** X21.  [displayText] without [noWait] returns when a key is pressed and
    not before: it consumes one entry of the keyboard script, returns
    whether the key was [escape], flips three times and draws the text
    (and the ruler when [showLine] is set); without a key it does not
    return. *)
Theorem displayText_key self text showLine time s :
  match displayText self text showLine false time s with
  | Some (out, s') =>
      ∃ k dt f1 f2 f3,
        head (keyboard (world s)) = Some (Some (k, dt)) ∧ 0 <= dt
        ∧ out = Ret (bool_decide (k = "escape"))
        ∧ keyboard (world s') = tail (keyboard (world s))
        ∧ flips (trace (world s')) = flips (trace (world s)) ++ [f1; f2; f3]
        ∧ f2 + dt <= f3
        ∧ visuals (session s')
          = visuals (session s) ++ text_screen text showLine
  | None =>
      ∀ k dt, head (keyboard (world s)) = Some (Some (k, dt)) → dt < 0
  end.
Proof.
  rewrite displayText_run. cbv zeta.
  destruct (keyboard (world s)) as [|[[k dt]|] rest] eqn:Ek;
    try (intros ? ? [=]).
  destruct (Qle_bool 0 dt) eqn:Edt.
  - apply Qle_bool_iff in Edt.
    eexists k, dt, _, _, _. cbn [world session keyboard trace head tail].
    split; [reflexivity|]. split; [exact Edt|]. split; [reflexivity|].
    split; [reflexivity|].
    split; [unfold flips; rewrite omap_app; reflexivity|].
    split; [apply next_retrace_ge|].
    unfold visuals. rewrite omap_app. cbn [omap list_omap snd].
    rewrite app_nil_r. apply visuals_screen.
  - intros k' dt' [= <- <-]. apply Qnot_le_lt.
    rewrite <- Qle_bool_iff. congruence.
Qed.

(** X22.  [displayInstructions] shows the first page and waits for a key;
    [escape] there returns [True] at once and the second page is never
    shown; any other key shows the second page, and the result is whether
    the key pressed there is [escape].  It reads one key for each page
    shown, and does not return while a page waits for its key. *)
Theorem displayInstructions_keys self s :
  match displayInstructions self s with
  | Some (out, s') =>
      ∃ k1 dt1,
        head (keyboard (world s)) = Some (Some (k1, dt1)) ∧ 0 <= dt1
        ∧ if bool_decide (k1 = "escape") then
            out = Ret true
            ∧ keyboard (world s') = drop 1 (keyboard (world s))
            ∧ pages (session s') = pages (session s) ++ [_instructions1]
          else
            ∃ k2 dt2,
              keyboard (world s) !! 1%nat = Some (Some (k2, dt2)) ∧ 0 <= dt2
              ∧ out = Ret (bool_decide (k2 = "escape"))
              ∧ keyboard (world s') = drop 2 (keyboard (world s))
              ∧ pages (session s')
                = pages (session s) ++ [_instructions1; _instructions2]
  | None =>
      ∀ k1 dt1 k2 dt2,
        take 2 (keyboard (world s)) = [Some (k1, dt1); Some (k2, dt2)] →
        0 <= dt1 → k1 ≠ "escape" → dt2 < 0
  end.
Proof.
  unfold displayInstructions. rewrite io_bind_unfold.
  rewrite displayText_run. cbv zeta.
  destruct (keyboard (world s)) as [|[[k1 dt1]|] rest] eqn:Ek;
    try (intros ? ? ? ? [=]).
  destruct (Qle_bool 0 dt1) eqn:E1.
  2:{ intros ? ? ? ? [= <- <- _] H. apply Qle_bool_iff in H. congruence. }
  apply Qle_bool_iff in E1.
  destruct (bool_decide (k1 = "escape")) eqn:Eesc; cbn [negb].
  - unfold mret, IO_ret. exists k1, dt1. rewrite Eesc.
    cbn [world session keyboard head drop].
    split; [reflexivity|]. split; [exact E1|]. split; [reflexivity|].
    split; [reflexivity|].
    rewrite !pages_app, pages_screen. apply app_nil_r.
  - rewrite displayText_run. cbv zeta.
    cbn [world session keyboard now vsync draws drawn trace].
    destruct rest as [|[[k2 dt2]|] rest]; try (intros ? ? ? ? [=]).
    destruct (Qle_bool 0 dt2) eqn:E2.
    2:{ intros ? ? ? ? [= _ _ _ <-] _ _. apply Qnot_le_lt.
        rewrite <- Qle_bool_iff. congruence. }
    apply Qle_bool_iff in E2.
    exists k1, dt1. rewrite Eesc. cbn [world session keyboard head].
    split; [reflexivity|]. split; [exact E1|].
    exists k2, dt2.
    split; [reflexivity|]. split; [exact E2|]. split; [reflexivity|].
    split; [reflexivity|].
    rewrite !pages_app, !pages_screen. cbn [pages omap list_omap snd].
    rewrite !app_nil_r, <- app_assoc. reflexivity.
Qed.

(** ** The practice block *)

Lemma practice_step self i order maxrun s cond :
  procedures self !! i = Some cond →
  practice_loop self (i :: order) maxrun s =
  match _oneProcedure self cond true (world s) with
  | (Raise e, w1) => Some (Raise e, mkStage w1 (session s))
  | (Ret None, w1) => Some (Ret (Some false), mkStage w1 (session s))
  | (Ret (Some res), w1) =>
      if (maxrun - 1 =? 0)%Z
      then Some (Ret (Some true), show_feedback res w1 (session s))
      else practice_loop self order (maxrun - 1)
             (show_feedback res w1 (session s))
  end.
Proof.
  intros Hi. cbn [practice_loop].
  rewrite io_bind_unfold. unfold in_world at 1, index. rewrite Hi.
  unfold mret at 1, M_ret. cbn [world session].
  rewrite io_bind_unfold. unfold in_world at 1. cbn [world session].
  destruct (_oneProcedure self cond true (world s)) as [[[res|]|e] w1];
    [| reflexivity | reflexivity].
  destruct w1 as [n v dr dn kb tr].
  unfold show_feedback. cbn [now vsync draws drawn keyboard trace].
  unfold mbind, IO_bind, in_world, draw_visual, call, win_flip, core_wait.
  cbn [world session now vsync draws drawn keyboard trace].
  rewrite !length_app. cbn [length]. rewrite Nat.add_1_r.
  rewrite <- !app_assoc. cbn [app].
  destruct (maxrun - 1 =? 0)%Z; reflexivity.
Qed.

Section Practice.
Context (mon : Q → Q) (ws : Z * Z) (rr st : Q) (lf dummy orig : bool).
Context (w0 w1 : World) (self : ANTExp).
Hypothesis Hinit : __init__ mon ws rr st lf dummy orig w0 = (Ret self, w1).

Lemma practice_loop_trials order :
  ∀ maxrun s,
    Forall (λ i, (i < 48)%nat) order →
    ∃ out s' done sl,
      practice_loop self order maxrun s = Some (out, s')
      ∧ practised self s done sl
      ∧ match out with
        | Ret (Some true) =>
            sl = s' ∧ (0 < maxrun <= Z.of_nat (length order))%Z
            ∧ done.*1 = take (Z.to_nat maxrun) order
        | Ret (Some false) =>
            ∃ i cond w',
              (done.*1 ++ [i]) `prefix_of` order
              ∧ procedures self !! i = Some cond
              ∧ _oneProcedure self cond true (world sl) = (Ret None, w')
              ∧ s' = mkStage w' (session sl)
        | Ret None =>
            sl = s' ∧ (maxrun <= 0 ∨ Z.of_nat (length order) < maxrun)%Z
            ∧ done.*1 = order
        | Raise e =>
            ∃ i cond w',
              (done.*1 ++ [i]) `prefix_of` order
              ∧ procedures self !! i = Some cond
              ∧ _oneProcedure self cond true (world sl) = (Raise e, w')
              ∧ s' = mkStage w' (session sl)
        end.
Proof.
  induction order as [|i order IH]; intros maxrun s Hord.
  { exists (Ret None), s, [], s. split; [reflexivity|].
    split; [constructor|]. split; [reflexivity|]. split; [cbn; lia|].
    reflexivity. }
  apply Forall_cons in Hord as [Hi Hord].
  destruct (lookup_lt_is_Some_2 (procedures self) i) as [cond Hcond];
    [rewrite (procedures_length _ _ _ _ _ _ _ _ _ _ Hinit); exact Hi|].
  rewrite (practice_step _ _ _ _ _ _ Hcond).
  destruct (_oneProcedure self cond true (world s)) as [[[res|]|e] w2] eqn:E1.
  - destruct (Z.eqb_spec (maxrun - 1) 0) as [Em|Em].
    + exists (Ret (Some true)), (show_feedback res w2 (session s)),
        [(i, res)], (show_feedback res w2 (session s)).
      split; [reflexivity|].
      split; [econstructor; [eassumption.. | constructor]|].
      split; [reflexivity|]. cbn [length]. split; [lia|].
      replace maxrun with 1%Z by lia. reflexivity.
    + destruct (IH (maxrun - 1)%Z (show_feedback res w2 (session s)) Hord)
        as (out & s' & done & sl & Hrun & Htr & Hout).
      exists out, s', ((i, res) :: done), sl.
      split; [exact Hrun|].
      split; [econstructor; eassumption|].
      destruct out as [[[|]|]|e].
      * destruct Hout as (-> & Hm & Htake).
        split; [reflexivity|]. cbn [length]. split; [lia|].
        replace (Z.to_nat maxrun) with (S (Z.to_nat (maxrun - 1))) by lia.
        cbn. rewrite Htake. reflexivity.
      * destruct Hout as (j & cj & w' & Hpre & Hj & Hr & ->).
        exists j, cj, w'. split; [cbn; apply prefix_cons; exact Hpre|].
        auto.
      * destruct Hout as (-> & Hm & Hd).
        split; [reflexivity|]. cbn [length]. split; [lia|].
        cbn. rewrite Hd. reflexivity.
      * destruct Hout as (j & cj & w' & Hpre & Hj & Hr & ->).
        exists j, cj, w'. split; [cbn; apply prefix_cons; exact Hpre|].
        auto.
  - exists (Ret (Some false)), (mkStage w2 (session s)), [], s.
    split; [reflexivity|]. split; [constructor|].
    exists i, cond, w2. split; [apply prefix_cons, prefix_nil|]. auto.
  - exists (Raise e), (mkStage w2 (session s)), [], s.
    split; [reflexivity|]. split; [constructor|].
    exists i, cond, w2. split; [apply prefix_cons, prefix_nil|]. auto.
Qed.

End Practice.

Section Practised.
Context (mon : Q → Q) (ws : Z * Z) (rr st : Q) (lf dummy orig : bool).
Context (w0 w1 : World) (self : ANTExp).
Hypothesis Hinit : __init__ mon ws rr st lf dummy orig w0 = (Ret self, w1).

Lemma practised_world s done s' :
  practised self s done s' →
  (∀ A (f : Event → option A),
     (∀ e, trial_event e = true → f e = None) →
     omap f (trace (world s')) = omap f (trace (world s)))
  ∧ (∃ ks, keys_got (trace (world s')) = keys_got (trace (world s)) ++ ks
           ∧ ("escape" ∉ ks) ∧ "0" ∉ ks)
  ∧ visuals (session s')
    = visuals (session s) ++ ((λ p, feedback p.2) <$> done)
  ∧ drawn (world s') = (drawn (world s) + length done)%nat
  ∧ keyboard (world s') = drop (length done) (keyboard (world s)).
Proof.
  induction 1 as [s | s i cond res w2 done s' Hi Hrun Htr IH].
  { split; [reflexivity|]. split.
    { exists []. rewrite app_nil_r.
      repeat split; apply not_elem_of_nil. }
    rewrite !app_nil_r, Nat.add_0_r. auto. }
  assert (Hc : cond ∈ procedures self)
    by (eapply list_elem_of_lookup_2; exact Hi).
  destruct (trial_outcome _ _ _ _ _ _ _ _ _ _ _ _ _ _ _ Hinit Hc Hrun)
    as (Hnone & Hsome & Hkeys & _ & _ & _ & _ & Hdn & Hkb).
  destruct IH as (IHq & (ks & IHk & IHesc & IHzero) & IHv & IHdn & IHkb).
  unfold show_feedback in IHq, IHk, IHv, IHdn, IHkb.
  cbn [world session drawn keyboard trace] in IHq, IHk, IHv, IHdn, IHkb.
  assert (Hkk : ("escape" ∉ match captured self (world s) with
                            | Some (k, _) => [k] | None => [] end)
                ∧ "0" ∉ match captured self (world s) with
                        | Some (k, _) => [k] | None => [] end).
  { destruct (captured self (world s)) as [[k dt]|];
      [|split; apply not_elem_of_nil].
    destruct (Hsome k dt eq_refl) as (Hesc & Hzero & _).
    split; intros Hin; apply list_elem_of_singleton in Hin.
    - specialize (Hesc (eq_sym Hin)). discriminate Hesc.
    - specialize (Hzero (eq_sym Hin)). discriminate Hzero. }
  split; [|split; [|split; [|split]]].
  - intros A f Hf. rewrite (IHq A f Hf), omap_app.
    rewrite (trial_quiet _ _ _ _ _ _ _ _ _ _ _ _ _ _ _ Hinit Hc Hrun f Hf).
    cbn. rewrite !Hf by reflexivity. apply app_nil_r.
  - eexists (_ ++ ks). split.
    { rewrite IHk. unfold keys_got at 1. rewrite omap_app.
      fold (keys_got (trace w2)). rewrite Hkeys. cbn [omap list_omap].
      rewrite app_nil_r, <- app_assoc. reflexivity. }
    rewrite !elem_of_app. tauto.
  - rewrite IHv. unfold visuals at 1. rewrite omap_app.
    cbn. rewrite <- app_assoc. reflexivity.
  - rewrite IHdn, Hdn. cbn [length]. lia.
  - rewrite IHkb, Hkb. cbn [length].
    destruct (keyboard (world s)); cbn [tail]; [rewrite !drop_nil|];
      reflexivity.
Qed.

Lemma practiceBlock_trials maxrun s :
  ∃ out s' order done sl,
    practiceBlock self maxrun s = Some (out, s')
    ∧ fst (random_sample (seq 0 48) 48 (world s)) = Ret order
    ∧ order ≡ₚ seq 0 48
    ∧ practised self
        (mkStage (mkWorld (now (world s)) (vsync (world s))
                    (draws (world s)) (drawn (world s) + 48)
                    (keyboard (world s)) (trace (world s)))
                 (session s)) done sl
    ∧ match out with
      | Ret (Some true) =>
          sl = s' ∧ (0 < maxrun <= 48)%Z
          ∧ done.*1 = take (Z.to_nat maxrun) order
      | Ret (Some false) =>
          ∃ i cond w',
            (done.*1 ++ [i]) `prefix_of` order
            ∧ procedures self !! i = Some cond
            ∧ _oneProcedure self cond true (world sl) = (Ret None, w')
            ∧ s' = mkStage w' (session sl)
      | Ret None =>
          sl = s' ∧ (maxrun <= 0 ∨ 48 < maxrun)%Z ∧ done.*1 = order
      | Raise e =>
          ∃ i cond w',
            (done.*1 ++ [i]) `prefix_of` order
            ∧ procedures self !! i = Some cond
            ∧ _oneProcedure self cond true (world sl) = (Raise e, w')
            ∧ s' = mkStage w' (session sl)
      end.
Proof.
  unfold practiceBlock.
  rewrite (procedures_length _ _ _ _ _ _ _ _ _ _ Hinit).
  destruct (random_sample_spec 48 (world s)) as (order & Hs & Hperm).
  rewrite io_bind_unfold. unfold in_world. rewrite Hs.
  assert (Hord : Forall (λ i, (i < 48)%nat) order).
  { rewrite Hperm. apply Forall_forall. intros i Hi.
    apply elem_of_seq in Hi. lia. }
  assert (Hlen : length order = 48%nat)
    by (rewrite Hperm; apply length_seq).
  destruct (practice_loop_trials _ _ _ _ _ _ _ _ _ _ Hinit order maxrun
              (mkStage (mkWorld (now (world s)) (vsync (world s))
                          (draws (world s)) (drawn (world s) + 48)
                          (keyboard (world s)) (trace (world s)))
                       (session s)) Hord)
    as (out & s' & done & sl & Hrun & Htr & Hout).
  rewrite Hlen in Hout.
  exists out, s', order, done, sl.
  split; [exact Hrun|]. split; [reflexivity|]. split; [exact Hperm|].
  split; [exact Htr|]. exact Hout.
Qed.

End Practised.

(** X23.  In an experiment built by [__init__], [practiceBlock(maxrun)]
    always returns, and each completed trial is followed by one feedback
    screen.  It returns [True] after exactly [maxrun] trials when [maxrun]
    is between 1 and 48 and no trial was stopped; [False] as soon as a trial
    is stopped with [escape]; and [None], after all 48 trials, when [maxrun]
    is zero, negative or above 48.  The only exception it raises is the
    [UnboundLocalError] of a trial answered with the key ['0']. *)
Theorem practice_verdict mon ws rr st lf dummy orig w0 self w1 maxrun s :
  __init__ mon ws rr st lf dummy orig w0 = (Ret self, w1) →
  ∃ out s' n ks,
    practiceBlock self maxrun s = Some (out, s')
    ∧ keys_got (trace (world s')) = keys_got (trace (world s)) ++ ks
    ∧ length (visuals (session s'))
      = (length (visuals (session s)) + n)%nat
    ∧ match out with
      | Ret (Some true) =>
          ("escape" ∉ ks) ∧ (0 < maxrun <= 48)%Z ∧ n = Z.to_nat maxrun
      | Ret (Some false) =>
          (n < 48)%nat ∧ ∃ ks0, ks = ks0 ++ ["escape"] ∧ "escape" ∉ ks0
      | Ret None =>
          ("escape" ∉ ks) ∧ (maxrun <= 0 ∨ 48 < maxrun)%Z ∧ n = 48%nat
      | Raise e =>
          e = UnboundLocalError "resp" ∧ ∃ ks0, ks = ks0 ++ ["0"]
      end.
Proof.
  intros Hinit.
  destruct (practiceBlock_trials _ _ _ _ _ _ _ _ _ _ Hinit maxrun s)
    as (out & s' & order & done & sl & Hrun & _ & Hperm & Htr & Hout).
  destruct (practised_world _ _ _ _ _ _ _ _ _ _ Hinit _ _ _ Htr)
    as (_ & (ks & Hk & Hesc & Hzero) & Hv & _).
  cbn [world session trace] in Hk, Hv.
  assert (Hlen : length order = 48%nat)
    by (rewrite Hperm; apply length_seq).
  assert (Hn : length (visuals (session sl))
               = (length (visuals (session s)) + length done)%nat)
    by (rewrite Hv, length_app, length_fmap; reflexivity).
  assert (Hstop : ∀ i cond r w',
            (done.*1 ++ [i]) `prefix_of` order →
            procedures self !! i = Some cond →
            _oneProcedure self cond true (world sl) = (r, w') →
            (length done < 48)%nat
            ∧ ∃ kk, keys_got (trace w')
                    = keys_got (trace (world s)) ++ ks ++ kk
                    ∧ ((r = Ret None ∧ kk = ["escape"])
                       ∨ (r = Raise (UnboundLocalError "resp")
                          ∧ kk = ["0"])
                       ∨ ∃ res, r = Ret (Some res))).
  { intros i cond r w' Hpre Hi Hr.
    apply prefix_length in Hpre.
    rewrite length_app, length_fmap, Hlen in Hpre. cbn in Hpre.
    split; [lia|].
    destruct (trial_outcome _ _ _ _ _ _ _ _ _ _ _ _ _ _ _ Hinit
                (list_elem_of_lookup_2 _ _ _ Hi) Hr)
      as (Hnone & Hsome & Hkeys & _).
    eexists. split; [rewrite Hkeys, Hk, <- app_assoc; reflexivity|].
    destruct (captured self (world sl)) as [[k dt]|].
    - destruct (Hsome k dt eq_refl) as (He & Hz & Hother).
      destruct (decide (k = "escape")) as [->|Hne]; [left; auto|].
      destruct (decide (k = "0")) as [->|Hnz]; [right; left; auto|].
      right. right. destruct (Hother Hne Hnz) as (res & -> & _). eauto.
    - right. right. destruct (Hnone eq_refl) as (res & -> & _). eauto. }
  destruct out as [[[|]|]|e].
  - destruct Hout as (<- & Hm & Htake).
    exists (Ret (Some true)), sl, (length done), ks.
    split; [exact Hrun|]. split; [exact Hk|]. split; [exact Hn|].
    split; [exact Hesc|]. split; [exact Hm|].
    rewrite <- (length_fmap fst done), Htake.
    apply length_take_le. lia.
  - destruct Hout as (i & cond & w' & Hpre & Hi & Hr & ->).
    destruct (Hstop _ _ _ _ Hpre Hi Hr)
      as (Hlt & kk & Hkeys & [[_ ->] | [[[=] _] | [res [=]]]]).
    exists (Ret (Some false)), (mkStage w' (session sl)), (length done),
      (ks ++ ["escape"]).
    split; [exact Hrun|]. split; [exact Hkeys|]. split; [exact Hn|].
    split; [exact Hlt|]. exists ks. auto.
  - destruct Hout as (<- & Hm & Hd).
    exists (Ret None), sl, (length done), ks.
    split; [exact Hrun|]. split; [exact Hk|]. split; [exact Hn|].
    split; [exact Hesc|]. split; [exact Hm|].
    rewrite <- (length_fmap fst done), Hd. exact Hlen.
  - destruct Hout as (i & cond & w' & Hpre & Hi & Hr & ->).
    destruct (Hstop _ _ _ _ Hpre Hi Hr)
      as (Hlt & kk & Hkeys & [[[=] _] | [[[= ->] ->] | [res [=]]]]).
    exists (Raise (UnboundLocalError "resp")), (mkStage w' (session sl)),
      (length done), (ks ++ ["0"]).
    split; [exact Hrun|]. split; [exact Hkeys|]. split; [exact Hn|].
    split; [reflexivity|]. exists ks. reflexivity.
Qed.

Lemma practice_verdict_witness :
  ∃ self w1 s',
    __init__ mon50 (1440, 900)%Z 60 0 false false true world60
      = (Ret self, w1)
    ∧ practiceBlock self 24 stage60 = Some (Ret (Some true), s')
    ∧ length (visuals (session s')) = 24%nat
    ∧ practiceBlock self 0 stage60 ≠ None
    ∧ fst <$> practiceBlock exp60 0 stage60 = Some (Ret None).
Proof.
  destruct (init_total mon50 (1440, 900)%Z 60 0 false false true world60
              eq_refl) as (self & w1 & Hinit).
  assert (Hs : self = exp60)
    by (unfold exp60, exp_at; rewrite Hinit; reflexivity).
  destruct (practice_verdict _ _ _ _ _ _ _ _ _ _ 24%Z stage60 Hinit)
    as (out & s' & n & ks & Hrun & _ & Hlen & Hout).
  destruct (practice_verdict _ _ _ _ _ _ _ _ _ _ 0%Z stage60 Hinit)
    as (out0 & s0 & n0 & ks0 & Hrun0 & _).
  assert (Hv : fst <$> practiceBlock self 24 stage60
               = Some (Ret (Some true)))
    by (rewrite Hs; vm_compute; reflexivity).
  rewrite Hrun in Hv. cbn in Hv. injection Hv as ->.
  destruct Hout as (_ & _ & ->).
  exists self, w1, s'. split; [exact Hinit|]. split; [exact Hrun|].
  split; [exact Hlen|]. split; [rewrite Hrun0; discriminate|].
  vm_compute. reflexivity.
Defined.



(** X25.  The practice block leaves no record: it writes no result line,
    neither to the log file nor to stdout, and nothing to stderr. *)
Theorem practice_leaves_no_record
    mon ws rr st lf dummy orig w0 self w1 maxrun s out s' :
  __init__ mon ws rr st lf dummy orig w0 = (Ret self, w1) →
  practiceBlock self maxrun s = Some (out, s') →
  logged (trace (world s')) = logged (trace (world s))
  ∧ logfile_lines (trace (world s')) = logfile_lines (trace (world s))
  ∧ stdout_results (trace (world s')) = stdout_results (trace (world s))
  ∧ stderr_lines (trace (world s')) = stderr_lines (trace (world s)).
Proof.
  intros Hinit H.
  destruct (practiceBlock_trials _ _ _ _ _ _ _ _ _ _ Hinit maxrun s)
    as (out1 & s1 & order & done & sl & Hrun & _ & _ & Htr & Hout).
  rewrite H in Hrun. injection Hrun as <- <-.
  destruct (practised_world _ _ _ _ _ _ _ _ _ _ Hinit _ _ _ Htr)
    as (Hq & _).
  cbn [world trace] in Hq.
  assert (Hall : ∀ A (f : Event → option A),
            (∀ e, trial_event e = true → f e = None) →
            omap f (trace (world s')) = omap f (trace (world s))).
  { intros A f Hf. rewrite <- (Hq A f Hf).
    destruct out as [[[|]|]|e].
    - destruct Hout as (<- & _). reflexivity.
    - destruct Hout as (i & cond & w' & _ & Hi & Hr & ->).
      apply (trial_quiet _ _ _ _ _ _ _ _ _ _ _ _ _ _ _ Hinit
               (list_elem_of_lookup_2 _ _ _ Hi) Hr f Hf).
    - destruct Hout as (<- & _). reflexivity.
    - destruct Hout as (i & cond & w' & _ & Hi & Hr & ->).
      apply (trial_quiet _ _ _ _ _ _ _ _ _ _ _ _ _ _ _ Hinit
               (list_elem_of_lookup_2 _ _ _ Hi) Hr f Hf). }
  unfold logged, logfile_lines, stdout_results, stderr_lines.
  repeat split; apply Hall;
    intros [| | | | | |l|l|l]; try destruct l; intros He;
    first [reflexivity | discriminate He].
Qed.

Lemma practice_leaves_no_record_witness :
  ∃ self w1 out s',
    __init__ mon50 (1440, 900)%Z 60 0 false false true world60
      = (Ret self, w1)
    ∧ practiceBlock self 2 stage60 = Some (out, s')
    ∧ logged (trace (world s')) = [].
Proof.
  destruct (init_total mon50 (1440, 900)%Z 60 0 false false true world60
              eq_refl) as (self & w1 & Hinit).
  assert (Hs : self = exp60)
    by (unfold exp60, exp_at; rewrite Hinit; reflexivity).
  destruct (practiceBlock self 2 stage60) as [[out s']|] eqn:Hrun;
    [| exfalso; rewrite Hs in Hrun; vm_compute in Hrun; discriminate Hrun].
  destruct (practice_leaves_no_record _ _ _ _ _ _ _ _ _ _ _ _ _ _ Hinit Hrun)
    as (Hlog & _).
  exists self, w1, out, s'.
  split; [exact Hinit|]. split; [exact Hrun|]. exact Hlog.
Defined.

